(** * trmnl-todoist-today: the OAuth hand-shake and the payload trimming of
    [proxy_layer/todoist-update-trmnl.py], embedded as Rocq functions.

    Python values are modelled as the script has them:
    - a [str] is the list of its Unicode code points ([list N]);
    - a JSON-compatible value is a [json] tree; [None] is [JNull];
    - a [dict] read only through [.get] is a [gmap];
    - the attributes of the [TrmnlTodoistHookup] object are the fields of
      [Hookup]; what lies around it (port, token file, log of observable
      events) makes up a [World], passed from step to step;
    - random bytes, clock, incoming requests, the token endpoint and the
      outcome of the file write are inputs of a call ([Env]);
    - the functions of [urllib] and of the Todoist SDK that work on plain
      data are the members of the class [Library].

    The first part holds the definitions, the second the theorems. *)

From Stdlib Require Import ZArith NArith QArith Lia List Bool Ascii String.
From Stdlib Require Import DecimalString.
From stdpp Require Import base option list gmap sorting.

Import ListNotations.
#[local] Open Scope list_scope.

(** ** Python strings *)

Abbreviation pystr := (list N).

(** A literal: the code points of an ASCII text. *)
Definition py (s : string) : pystr := List.map N_of_ascii (list_ascii_of_string s).

(** [str.startswith]. *)
Fixpoint startswith (s prefix : pystr) : bool :=
  match prefix, s with
  | [], _ => true
  | p :: prefix', c :: s' => if N.eqb c p then startswith s' prefix' else false
  | _ :: _, [] => false
  end.

(** [sep.join(parts)]. *)
Fixpoint join (sep : pystr) (parts : list pystr) : pystr :=
  match parts with
  | [] => []
  | [x] => x
  | x :: rest => x ++ sep ++ join sep rest
  end.

(** One lowercase hexadecimal digit. *)
Definition hex_digit (d : N) : N :=
  if (d <? 10)%N then (48 + d)%N else (87 + d)%N.

(** The [width] low hexadecimal digits of [v], most significant first:
    ['%0<width>x' % v] for [v < 16^width]. *)
Fixpoint hex_fixed (width : nat) (v : N) : pystr :=
  match width with
  | O => []
  | S w => hex_fixed w (N.shiftr v 4) ++ [hex_digit (N.land v 15)]
  end.

(** [repr] of an [int]. *)
Definition int_repr (z : Z) : pystr := py (NilEmpty.string_of_int (Z.to_int z)).

(** [s.encode('utf-8')] on one code point, and on a string. *)
Definition utf8_char (c : N) : list N :=
  if (c <? 128)%N then [c]
  else if (c <? 2048)%N then
    [N.lor 192 (N.shiftr c 6); N.lor 128 (N.land c 63)]
  else if (c <? 65536)%N then
    [N.lor 224 (N.shiftr c 12); N.lor 128 (N.land (N.shiftr c 6) 63);
     N.lor 128 (N.land c 63)]
  else
    [N.lor 240 (N.shiftr c 18); N.lor 128 (N.land (N.shiftr c 12) 63);
     N.lor 128 (N.land (N.shiftr c 6) 63); N.lor 128 (N.land c 63)].

Definition encode_utf8 (s : pystr) : list N := flat_map utf8_char s.

(** ** JSON values and [json.dumps]

    The values the script serialises and reads back: numbers are
    integers, the keys of a dictionary are strings, distinct, in
    insertion order. *)

#[warnings="-register-all"]
Inductive json : Type :=
  | JNull
  | JBool (b : bool)
  | JInt (z : Z)
  | JStr (s : pystr)
  | JList (items : list json)
  | JDict (entries : list (pystr * json)).

(** Python truthiness of a JSON-compatible value ([not x] is its negation). *)
Definition truthy (j : json) : bool :=
  match j with
  | JNull => false
  | JBool b => b
  | JInt z => negb (Z.eqb z 0)
  | JStr s => match s with [] => false | _ => true end
  | JList l => match l with [] => false | _ => true end
  | JDict d => match d with [] => false | _ => true end
  end.

(** [json.encoder.py_encode_basestring_ascii] on one code point: the
    short escapes, [\uXXXX] for everything outside [' '..'~'], a
    surrogate pair above the basic plane. *)
Definition escape_char (c : N) : pystr :=
  if (c =? 92)%N then py "\\"
  else if (c =? 34)%N then [92; 34]%N
  else if (c =? 8)%N then py "\b"
  else if (c =? 12)%N then py "\f"
  else if (c =? 10)%N then py "\n"
  else if (c =? 13)%N then py "\r"
  else if (c =? 9)%N then py "\t"
  else if ((32 <=? c) && (c <=? 126))%N then [c]
  else if (c <? 65536)%N then py "\u" ++ hex_fixed 4 c
  else
    let n := (c - 65536)%N in
    let s1 := N.lor 55296 (N.land (N.shiftr n 10) 1023) in
    let s2 := N.lor 56320 (N.land n 1023) in
    py "\u" ++ hex_fixed 4 s1 ++ py "\u" ++ hex_fixed 4 s2.

Definition encode_basestring_ascii (s : pystr) : pystr :=
  [34%N] ++ flat_map escape_char s ++ [34%N].

(** [json.dumps(j)] with the default arguments ([ensure_ascii=True],
    separators [', '] and [': ']). *)
Fixpoint json_dumps (j : json) : pystr :=
  match j with
  | JNull => py "null"
  | JBool true => py "true"
  | JBool false => py "false"
  | JInt z => int_repr z
  | JStr s => encode_basestring_ascii s
  | JList items => py "[" ++ join (py ", ") (List.map json_dumps items) ++ py "]"
  | JDict entries =>
      py "{" ++
      join (py ", ")
        (List.map (fun kv => encode_basestring_ascii (fst kv) ++ py ": "
                             ++ json_dumps (snd kv)) entries)
      ++ py "}"
  end.

(** ** [truncate_data_to_limit] *)

(** [len(json.dumps(new_list).encode('utf-8'))]. *)
Definition serialized_size (new_list : list json) : Z :=
  Z.of_nat (length (encode_utf8 (json_dumps (JList new_list)))).

(** The [for item in task_list] loop; [new_list] is the list built so far.
    [removelast] is [new_list.pop()], returning ends the loop ([break]). *)
Fixpoint truncate_loop (new_list task_list : list json) (limit_bytes : Z)
  : list json :=
  match task_list with
  | [] => new_list
  | item :: rest =>
      let new_list := new_list ++ [item] in
      let size := serialized_size new_list in
      if (size >? limit_bytes)%Z then removelast new_list
      else truncate_loop new_list rest limit_bytes
  end.

Definition truncate_data_to_limit (task_list : list json) (limit_bytes : Z)
  : list json :=
  truncate_loop [] task_list limit_bytes.

(** The byte length of a text. *)
Definition blen (s : pystr) : nat := length (encode_utf8 s).

(** What the loop keeps between two rounds: nothing yet, or a list
    within the limit. *)
Definition fits (limit_bytes : Z) (l : list json) : Prop :=
  l = [] \/ (serialized_size l <= limit_bytes)%Z.

(** A task as [get_todoist_data] builds it. *)
Definition task (name : pystr) (prio : Z) (due proj : pystr) : json :=
  JDict [(py "name", JStr name); (py "prio", JInt prio);
         (py "due", JStr due); (py "proj", JStr proj)].

(** * The authorization hand-shake *)

(** ** UUIDs *)

(** [uuid.uuid4()] from its sixteen random bytes, read as one integer:
    the variant and version bits are overwritten. *)
Definition uuid4 (urandom16 : N) : N :=
  let int := N.land urandom16 (N.ones 128) in
  let int := N.ldiff int (N.shiftl 49152 48) in
  let int := N.lor int (N.shiftl 32768 48) in
  let int := N.ldiff int (N.shiftl 61440 64) in
  N.lor int (N.shiftl 4 76).

(** [str(u)]: thirty-two hexadecimal digits in groups 8-4-4-4-12. *)
Definition uuid_str (u : N) : pystr :=
  let hex := hex_fixed 32 u in
  take 8 hex ++ py "-" ++ take 4 (drop 8 hex) ++ py "-" ++
  take 4 (drop 12 hex) ++ py "-" ++ take 4 (drop 16 hex) ++ py "-" ++
  drop 20 hex.

(** [str(x)] for an attribute that holds a string or [None]. *)
Definition py_str (x : option pystr) : pystr :=
  match x with
  | None => py "None"
  | Some s => s
  end.

Definition pystr_eqb (a b : pystr) : bool := bool_decide (a = b).

(** ** Exceptions, printed lines and observable events *)

Inductive ExchangeFailure : Type :=
  | NetworkError
  | HttpError (status : Z)
  | MalformedBody.

Inductive Exn : Type :=
  | OSError
  | TypeError
  | IndexError
  | SystemExit (code : Z)
  | ExchangeError (f : ExchangeFailure)
  | KeyboardInterrupt.

Inductive Msg : Type :=
  | MsgStarting
  | MsgConfigError
  | MsgVisitUrl (url : pystr)
  | MsgStartingServer
  | MsgCallbackReceived (code5 state5 : pystr)
  | MsgStored
  | MsgShutDown
  | MsgTimeout
  | MsgKeyboardInterrupt
  | MsgStateMismatch
  | MsgSaveFailed
  | MsgLoadFailed
  | MsgReauthenticating
  | MsgAlreadyAuthenticated
  | MsgAccessToken (head : json)
  | MsgError (e : Exn).

Inductive Event : Type :=
  | Print (m : Msg)
  | BrowserOpen (url : pystr)
  | ThreadStart
  | Bind (ok : bool)
  | ThreadDied (e : Exn)
  | Response (status : Z)
  | HandlerError (e : Exn)
  | Exchange (client_id client_secret code : option pystr)
  | FileWrite (content : json).

(** ** The object and its surroundings *)

(** The [HTTPServer] object behind [self.httpd]. *)
Record Server : Type := mkServer {
  serving : bool;      (* [serve_forever] is running *)
  socket_open : bool   (* the listening socket is bound to port 8080 *)
}.

Record Hookup : Type := mkHookup {
  trmnl_api_key : option pystr;
  trmnl_plugin_id : option pystr;
  trmnl_plugin_webhook_url : option pystr;
  todoist_api_client_id : option pystr;
  todoist_api_client_secret : option pystr;
  todoist_oauth_timeout : Q;
  todoist_response_auth_code : option pystr;
  todoist_response_state : option pystr;
  todoist_oauth_callback_received : bool;
  todoist_api_token : json;
  httpd : option Server  (* [None]: the attribute does not exist *)
}.

(** What [access_token.json] holds, when it exists. *)
Inductive FileContent : Type :=
  | Unreadable                 (* cannot be read, or is not JSON *)
  | Parsed (data : json).

Record World : Type := mkWorld {
  self : Hookup;
  port_in_use : bool;          (* another process listens on port 8080 *)
  token_file : option FileContent;
  trace : list Event           (* oldest first *)
}.

Definition with_self (f : Hookup -> Hookup) (w : World) : World :=
  mkWorld (f (self w)) (port_in_use w) (token_file w) (trace w).

Definition with_token_file (c : option FileContent) (w : World) : World :=
  mkWorld (self w) (port_in_use w) c (trace w).

Definition emit (e : Event) (w : World) : World :=
  mkWorld (self w) (port_in_use w) (token_file w) (trace w ++ [e]).

Definition set_config (key id url cid secret : option pystr) (h : Hookup) : Hookup :=
  mkHookup key id url cid secret
    (todoist_oauth_timeout h) (todoist_response_auth_code h)
    (todoist_response_state h) (todoist_oauth_callback_received h)
    (todoist_api_token h) (httpd h).

Definition set_callback (code state : option pystr) (received : bool)
    (h : Hookup) : Hookup :=
  mkHookup (trmnl_api_key h) (trmnl_plugin_id h) (trmnl_plugin_webhook_url h)
    (todoist_api_client_id h) (todoist_api_client_secret h)
    (todoist_oauth_timeout h) code state received
    (todoist_api_token h) (httpd h).

Definition set_api_token (t : json) (h : Hookup) : Hookup :=
  mkHookup (trmnl_api_key h) (trmnl_plugin_id h) (trmnl_plugin_webhook_url h)
    (todoist_api_client_id h) (todoist_api_client_secret h)
    (todoist_oauth_timeout h) (todoist_response_auth_code h)
    (todoist_response_state h) (todoist_oauth_callback_received h)
    t (httpd h).

Definition set_httpd (s : option Server) (h : Hookup) : Hookup :=
  mkHookup (trmnl_api_key h) (trmnl_plugin_id h) (trmnl_plugin_webhook_url h)
    (todoist_api_client_id h) (todoist_api_client_secret h)
    (todoist_oauth_timeout h) (todoist_response_auth_code h)
    (todoist_response_state h) (todoist_oauth_callback_received h)
    (todoist_api_token h) s.

(** Our own socket is bound to the port. *)
Definition listening (w : World) : bool :=
  match httpd (self w) with
  | Some srv => socket_open srv
  | None => false
  end.

(** [serve_forever] is accepting requests. *)
Definition accepting (w : World) : bool :=
  match httpd (self w) with
  | Some srv => serving srv
  | None => false
  end.

(** A bind to port 8080 would succeed. *)
Definition port_free (w : World) : bool :=
  negb (port_in_use w) && negb (listening w).

(** ** What one call of [authenticate] meets

    The caller's thread and the listener thread are interleaved as
    follows. The start-up of the listener thread (its reset and its
    bind) is over when the caller first looks for [self.httpd]. A request
    is handled in one piece; the requests of a round of the wait loop are
    those handled since the flag was last read. [httpd.shutdown()] lets
    the serve loop finish the request it is handling, if any. A
    KeyboardInterrupt reaches the caller inside the [try] block, in a
    round of the wait loop. Clock readings are exact, in seconds. *)

(** One round of the wait loop. *)
Record Tick : Type := mkTick {
  served : list pystr;  (* paths of the GET requests the listener thread
                           handles before the loop condition is read *)
  interrupt : bool;     (* KeyboardInterrupt is raised in this round *)
  now : Q               (* what [time.time()] returns in this round *)
}.

Inductive WriteResult : Type :=
  | WriteOk
  | OpenFails           (* [open(path, "w")] raises: the file is untouched *)
  | DumpFails.          (* the file was opened, the write raises *)

Record Env : Type := mkEnv {
  urandom16 : N;                    (* the random bytes behind [uuid.uuid4()] *)
  start_time : Q;                   (* the first [time.time()] *)
  schedule : list Tick;             (* the rounds of the wait loop *)
  in_flight : option pystr;         (* a request being handled when
                                       [httpd.shutdown()] is called *)
  get_auth_token :                  (* the token endpoint's answer *)
    option pystr -> option pystr -> option pystr -> pystr + ExchangeFailure;
  write_result : WriteResult        (* what writing the token file does *)
}.

(** How a call ends. [StartingUp] and [Polling]: still inside the
    start-up wait or the wait loop when the fuel or the schedule given
    to the model is used up. *)
Inductive Outcome (A : Type) : Type :=
  | Return (a : A)
  | Raise (e : Exn)
  | StartingUp
  | Polling.
Arguments Return {A} a.
Arguments Raise {A} e.
Arguments StartingUp {A}.
Arguments Polling {A}.

(** Where the Ctrl-C of an attempt reaches the caller's thread when it
    comes outside the [try] block of [authenticate]: in one of the calls
    that block there, the sleep of the start-up wait before the [try],
    the exchange and the write of the token file after it. (Inside the
    [try] it is the [interrupt] of a round of the wait loop. One Ctrl-C
    per attempt is considered.) *)
Inductive Strike : Type :=
  | NoStrike
  | InStartup     (* in [time.sleep(0.2)] of the start-up wait *)
  | InExchange    (* in [get_auth_token] *)
  | InSave.       (* in [json.dump], the file opened for writing *)

Definition Qltb (a b : Q) : bool := negb (Qle_bool b a).

(** What the process was started with, read by [configure]. *)
Record Process : Type := mkProcess {
  dotenv_raises : bool;                 (* [load_dotenv()] raises *)
  environ : gmap pystr pystr            (* the variables [os.getenv] sees *)
}.

(** Library functions the script calls on plain data. Nothing is assumed
    about them. *)
Class Library : Type := mkLibrary {
  urlparse_query : pystr -> pystr;
    (* [urllib.parse.urlparse(path).query] *)
  parse_qs : pystr -> gmap pystr (list pystr);
    (* [urllib.parse.parse_qs] *)
  get_authentication_url : option pystr -> list pystr -> pystr -> pystr
    (* [todoist_api_python.authentication.get_authentication_url] *)
}.

Section Auth.

Context `{Library}.

(** *** The request handler *)

(** [params.get(key, [None])[0]]. *)
Definition get_first (params : gmap pystr (list pystr)) (key : pystr)
  : option pystr + Exn :=
  match params !! key with
  | None => inl None
  | Some [] => inr IndexError
  | Some (v :: _) => inl (Some v)
  end.

Definition nonempty (s : pystr) : bool :=
  match s with [] => false | _ :: _ => true end.

(** [RequestHandler.do_GET]: the new world, and the exception that
    ended the handler, if any. Slicing [None] in the f-string raises
    [TypeError]. *)
Definition do_GET (path : pystr) (w : World) : World * option Exn :=
  if startswith path (py "/callback") then
    let w := emit (Response 200) w in
    let params := parse_qs (urlparse_query path) in
    match get_first params (py "code") with
    | inr e => (w, Some e)
    | inl code =>
        match get_first params (py "state") with
        | inr e => (w, Some e)
        | inl state =>
            match code, state with
            | Some c, Some s =>
                let w := emit (Print (MsgCallbackReceived (take 5 c) (take 5 s))) w in
                if nonempty c && nonempty s then
                  let w := with_self (set_callback (Some c) (Some s) true) w in
                  (emit (Print MsgStored) w, None)
                else (w, None)
            | _, _ => (w, Some TypeError)
            end
        end
    end
  else (emit (Response 404) w, None).

(** One request reaching port 8080. [socketserver] runs the handler
    while [serve_forever] is running, reports an exception of the
    handler and goes on serving. *)
Definition handle_request (path : pystr) (w : World) : World :=
  if accepting w then
    match do_GET path w with
    | (w, None) => w
    | (w, Some e) => emit (HandlerError e) w
    end
  else w.

Definition serve (paths : list pystr) (w : World) : World :=
  fold_left (fun w path => handle_request path w) paths w.

(** *** Starting and stopping the listener *)

(** [shutdown_local_server]. [httpd.shutdown()] returns once the serve
    loop has finished its current round, which may still handle the
    request [pending]; [httpd.server_close()] closes the socket. *)
Definition shutdown_local_server (pending : option pystr) (w : World) : World :=
  match httpd (self w) with
  | Some srv =>
      let w := if serving srv
               then match pending with
                    | Some path => handle_request path w
                    | None => w
                    end
               else w in
      let w := with_self (set_httpd (Some (mkServer false false))) w in
      emit (Print MsgShutDown) w
  | None => w
  end.

Definition reset_auth (pending : option pystr) (w : World) : World :=
  let w := with_self (set_callback None None false) w in
  let w := with_self (set_api_token JNull) w in
  shutdown_local_server pending w.

(** [start_local_server], the body of the listener thread, up to the
    point where [serve_forever] runs. A failed bind raises [OSError]
    before [self.httpd] is assigned, which ends the thread. *)
Definition start_local_server (w : World) : World :=
  let w := reset_auth None w in
  if port_free w then
    let w := emit (Bind true) w in
    let w := with_self (set_httpd (Some (mkServer true true))) w in
    emit (Print MsgStartingServer) w
  else
    emit (ThreadDied OSError) (emit (Bind false) w).

(** [while not hasattr(self, "httpd"): time.sleep(0.2)]. Nothing but
    the listener thread assigns the attribute: when it is absent after
    the thread's start-up, every further round finds it absent. *)
Fixpoint wait_for_httpd (fuel : nat) (w : World) : bool :=
  match fuel with
  | O => false
  | S fuel' =>
      match httpd (self w) with
      | Some _ => true
      | None => wait_for_httpd fuel' w
      end
  end.

(** *** The wait loop *)

Inductive Waited : Type :=
  | LoopLeft (w : World)          (* the loop ended, by flag or time-out *)
  | Interrupted (w : World)       (* KeyboardInterrupt *)
  | StillWaiting (w : World).     (* the schedule is used up *)

Fixpoint wait_loop (start : Q) (pending : option pystr) (sched : list Tick)
    (w : World) : Waited :=
  match sched with
  | [] => StillWaiting w
  | t :: sched' =>
      let w := serve (served t) w in
      if interrupt t then Interrupted w
      else if todoist_oauth_callback_received (self w) then LoopLeft w
      else if Qltb (todoist_oauth_timeout (self w)) (now t - start) then
        LoopLeft (reset_auth pending (emit (Print MsgTimeout) w))
      else wait_loop start pending sched' w
  end.

(** The world a wait loop ends or pauses in. *)
Definition waited_world (r : Waited) : World :=
  match r with
  | LoopLeft w | Interrupted w | StillWaiting w => w
  end.

(** *** The token file *)

(** [d.get(key)] on a dictionary kept in insertion order. *)
Fixpoint dict_get (entries : list (pystr * json)) (key : pystr) : json :=
  match entries with
  | [] => JNull
  | (k, v) :: rest => if pystr_eqb k key then v else dict_get rest key
  end.

Definition save_access_token (r : WriteResult) (w : World) : World :=
  let content := JDict [(py "access_token", todoist_api_token (self w))] in
  match r with
  | WriteOk =>
      emit (FileWrite content) (with_token_file (Some (Parsed content)) w)
  | OpenFails => emit (Print MsgSaveFailed) w
  | DumpFails =>
      emit (Print MsgSaveFailed) (with_token_file (Some Unreadable) w)
  end.

Definition load_access_token (w : World) : World :=
  match token_file w with
  | None => w
  | Some (Parsed (JDict entries)) =>
      with_self (set_api_token (dict_get entries (py "access_token"))) w
  | Some _ => emit (Print MsgLoadFailed) w
  end.

(** *** [authenticate] *)

(** A call in which a Ctrl-C, if one comes, comes in a round of the wait
    loop, where the [try] block catches it. [authenticate_struck] below
    is the call with a Ctrl-C outside the block. *)
Definition authenticate (fuel : nat) (env : Env) (w : World)
  : World * Outcome bool :=
  let state := uuid4 (urandom16 env) in
  let url := get_authentication_url (todoist_api_client_id (self w))
               [py "data:read"] (uuid_str state) in
  let w := emit (Print (MsgVisitUrl url)) w in
  let w := emit (BrowserOpen url) w in
  let w := start_local_server (emit ThreadStart w) in
  if negb (wait_for_httpd fuel w) then (w, StartingUp)
  else
    match wait_loop (start_time env) (in_flight env) (schedule env) w with
    | StillWaiting w => (w, Polling)
    | Interrupted w =>
        let w := emit (Print MsgKeyboardInterrupt) w in
        let w := reset_auth (in_flight env) w in
        let w := shutdown_local_server (in_flight env) w in
        (w, Raise (SystemExit 1))
    | LoopLeft w =>
        let w := shutdown_local_server (in_flight env) w in
        if negb (pystr_eqb (uuid_str state)
                   (py_str (todoist_response_state (self w)))) then
          let w := emit (Print MsgStateMismatch) w in
          let w := reset_auth (in_flight env) w in
          let w := shutdown_local_server (in_flight env) w in
          (w, Return false)
        else
          let client_id := todoist_api_client_id (self w) in
          let client_secret := todoist_api_client_secret (self w) in
          let code := todoist_response_auth_code (self w) in
          let w := emit (Exchange client_id client_secret code) w in
          match get_auth_token env client_id client_secret code with
          | inr f => (w, Raise (ExchangeError f))
          | inl access_token =>
              let w := with_self (set_api_token (JStr access_token)) w in
              let w := save_access_token (write_result env) w in
              (w, Return true)
          end
    end.

(** *** [configure], [__init__] and the start of [main] *)

Definition configure (p : Process) (w : World) : World * bool :=
  if dotenv_raises p then (emit (Print MsgConfigError) w, false)
  else
    let plugin_id := environ p !! py "TRMNL_PLUGIN_ID" in
    (with_self
       (set_config (environ p !! py "TRMNL_API_KEY") plugin_id
          (Some (py "https://usetrmnl.com/api/custom_plugins/"
                 ++ py_str plugin_id))
          (environ p !! py "TODOIST_CLIENT_ID")
          (environ p !! py "TODOIST_CLIENT_SECRET")) w,
     true).

(** The object before [__init__] has loaded anything. *)
Definition fresh : Hookup :=
  mkHookup None None None None None 60 None None false JNull None.

Definition __init__ (fuel : nat) (p : Process) (env : Env)
    (port_busy : bool) (file : option FileContent) (log : list Event)
  : World * Outcome unit :=
  let w := mkWorld fresh port_busy file log in
  let w := load_access_token w in
  let '(w, configured) := configure p w in
  if configured then
    if negb (truthy (todoist_api_token (self w))) then
      match authenticate fuel env w with
      | (w, Return _) => (w, Return tt)
      | (w, Raise e) => (w, Raise e)
      | (w, StartingUp) => (w, StartingUp)
      | (w, Polling) => (w, Polling)
      end
    else (w, Return tt)
  else (w, Return tt).

(** [token[0:5]]: defined on strings and lists only. *)
Definition slice5 (j : json) : option json :=
  match j with
  | JStr s => Some (JStr (take 5 s))
  | JList l => Some (JList (take 5 l))
  | _ => None
  end.

(** [main], up to the point where a token has been obtained or the
    attempt has failed. [except Exception] catches everything but
    [SystemExit] and [KeyboardInterrupt], which are no subclasses of
    [Exception]. *)
Definition catch (r : World * Outcome unit) : World * Outcome unit :=
  match r with
  | (w, Raise (SystemExit c)) => (w, Raise (SystemExit c))
  | (w, Raise KeyboardInterrupt) => (w, Raise KeyboardInterrupt)
  | (w, Raise e) => (emit (Print (MsgError e)) w, Return tt)
  | r => r
  end.

Definition main (fuel : nat) (p : Process) (env_init env_main : Env)
    (port_busy : bool) (file : option FileContent) : World * Outcome unit :=
  catch
    match __init__ fuel p env_init port_busy file [Print MsgStarting] with
    | (w, Return _) =>
        if negb (truthy (todoist_api_token (self w))) then
          let w := emit (Print MsgReauthenticating) w in
          match authenticate fuel env_main w with
          | (w, Return _) => (w, Return tt)
          | (w, Raise e) => (w, Raise e)
          | (w, StartingUp) => (w, StartingUp)
          | (w, Polling) => (w, Polling)
          end
        else
          let w := emit (Print MsgAlreadyAuthenticated) w in
          match slice5 (todoist_api_token (self w)) with
          | Some head => (emit (Print (MsgAccessToken head)) w, Return tt)
          | None => (w, Raise TypeError)
          end
    | r => r
    end.

(** *** A Ctrl-C outside the [try] block

    The start-up wait (before the [try]), the call of [get_auth_token]
    and [save_access_token] (after it) are not guarded: a
    [KeyboardInterrupt] raised there leaves [authenticate] as it is.
    The listener thread's start-up is taken to have run when the signal
    is handled in the start-up wait, as it has when the caller gets past
    that wait; [save_access_token] catches [Exception] only, so the
    interrupt of the write passes through it and leaves the file opened
    for writing and not written. With [NoStrike] this is
    [authenticate]. *)
Definition authenticate_struck (s : Strike) (fuel : nat) (env : Env) (w : World)
  : World * Outcome bool :=
  let state := uuid4 (urandom16 env) in
  let url := get_authentication_url (todoist_api_client_id (self w))
               [py "data:read"] (uuid_str state) in
  let w := emit (Print (MsgVisitUrl url)) w in
  let w := emit (BrowserOpen url) w in
  let w := start_local_server (emit ThreadStart w) in
  match s with
  | InStartup => (w, Raise KeyboardInterrupt)
  | _ =>
  if negb (wait_for_httpd fuel w) then (w, StartingUp)
  else
    match wait_loop (start_time env) (in_flight env) (schedule env) w with
    | StillWaiting w => (w, Polling)
    | Interrupted w =>
        let w := emit (Print MsgKeyboardInterrupt) w in
        let w := reset_auth (in_flight env) w in
        let w := shutdown_local_server (in_flight env) w in
        (w, Raise (SystemExit 1))
    | LoopLeft w =>
        let w := shutdown_local_server (in_flight env) w in
        if negb (pystr_eqb (uuid_str state)
                   (py_str (todoist_response_state (self w)))) then
          let w := emit (Print MsgStateMismatch) w in
          let w := reset_auth (in_flight env) w in
          let w := shutdown_local_server (in_flight env) w in
          (w, Return false)
        else
          let client_id := todoist_api_client_id (self w) in
          let client_secret := todoist_api_client_secret (self w) in
          let code := todoist_response_auth_code (self w) in
          let w := emit (Exchange client_id client_secret code) w in
          match s with
          | InExchange => (w, Raise KeyboardInterrupt)
          | _ =>
          match get_auth_token env client_id client_secret code with
          | inr f => (w, Raise (ExchangeError f))
          | inl access_token =>
              let w := with_self (set_api_token (JStr access_token)) w in
              match s with
              | InSave =>
                  (with_token_file (Some Unreadable) w, Raise KeyboardInterrupt)
              | _ =>
                  let w := save_access_token (write_result env) w in
                  (w, Return true)
              end
          end
          end
    end
  end.

(** [__init__] and [main] with a Ctrl-C outside the [try] block of the
    attempt each of them makes. *)
Definition init_struck (s : Strike) (fuel : nat) (p : Process) (env : Env)
    (port_busy : bool) (file : option FileContent) (log : list Event)
  : World * Outcome unit :=
  let w := mkWorld fresh port_busy file log in
  let w := load_access_token w in
  let '(w, configured) := configure p w in
  if configured then
    if negb (truthy (todoist_api_token (self w))) then
      match authenticate_struck s fuel env w with
      | (w, Return _) => (w, Return tt)
      | (w, Raise e) => (w, Raise e)
      | (w, StartingUp) => (w, StartingUp)
      | (w, Polling) => (w, Polling)
      end
    else (w, Return tt)
  else (w, Return tt).

Definition main_struck (s_init s_main : Strike) (fuel : nat) (p : Process)
    (env_init env_main : Env) (port_busy : bool) (file : option FileContent)
  : World * Outcome unit :=
  catch
    match init_struck s_init fuel p env_init port_busy file [Print MsgStarting] with
    | (w, Return _) =>
        if negb (truthy (todoist_api_token (self w))) then
          let w := emit (Print MsgReauthenticating) w in
          match authenticate_struck s_main fuel env_main w with
          | (w, Return _) => (w, Return tt)
          | (w, Raise e) => (w, Raise e)
          | (w, StartingUp) => (w, StartingUp)
          | (w, Polling) => (w, Polling)
          end
        else
          let w := emit (Print MsgAlreadyAuthenticated) w in
          match slice5 (todoist_api_token (self w)) with
          | Some head => (emit (Print (MsgAccessToken head)) w, Return tt)
          | None => (w, Raise TypeError)
          end
    | r => r
    end.

(** *** Observations on a call of [authenticate] *)

(** The world after the first lines of [authenticate], once the listener
    thread has gone through its start-up. *)
Definition started (env : Env) (w : World) : World :=
  let state := uuid4 (urandom16 env) in
  let url := get_authentication_url (todoist_api_client_id (self w))
               [py "data:read"] (uuid_str state) in
  let w := emit (Print (MsgVisitUrl url)) w in
  let w := emit (BrowserOpen url) w in
  start_local_server (emit ThreadStart w).

(** The world in which [authenticate] reaches the comparison of the
    two states (after the wait loop and the shutdown that follows it),
    if it gets there. *)
Definition at_state_check (fuel : nat) (env : Env) (w : World) : option World :=
  let state := uuid4 (urandom16 env) in
  let url := get_authentication_url (todoist_api_client_id (self w))
               [py "data:read"] (uuid_str state) in
  let w := emit (Print (MsgVisitUrl url)) w in
  let w := emit (BrowserOpen url) w in
  let w := start_local_server (emit ThreadStart w) in
  if negb (wait_for_httpd fuel w) then None
  else
    match wait_loop (start_time env) (in_flight env) (schedule env) w with
    | LoopLeft w => Some (shutdown_local_server (in_flight env) w)
    | _ => None
    end.

(** What the handler records for a request, if it records anything:
    the condition under which [do_GET] reaches its three assignments. *)
Definition delivers (path : pystr) : option (pystr * pystr) :=
  if startswith path (py "/callback") then
    let params := parse_qs (urlparse_query path) in
    match get_first params (py "code"), get_first params (py "state") with
    | inl (Some c), inl (Some s) =>
        if nonempty c && nonempty s then Some (c, s) else None
    | _, _ => None
    end
  else None.


(** A round of the wait loop in which nothing happens: no interrupt,
    and no request that the handler records. *)
Definition idle (t : Tick) : Prop :=
  interrupt t = false /\ Forall (fun path => delivers path = None) (served t).

(** The clock reading of the round is past the time-out of [w]. *)
Definition expired (w : World) (start : Q) (t : Tick) : bool :=
  Qltb (todoist_oauth_timeout (self w)) (now t - start).

(** No request is caught by [httpd.shutdown()], or one the handler does
    not record. *)
Definition harmless (pending : option pystr) : Prop :=
  forall path, pending = Some path -> delivers path = None.

(** The three attributes a callback sets. *)
Definition callback_fields (w : World) : option pystr * option pystr * bool :=
  (todoist_response_auth_code (self w), todoist_response_state (self w),
   todoist_oauth_callback_received (self w)).

End Auth.

(** ** A concrete library for running the model

    [plain_query] and [plain_parse_qs] behave as [urlparse(...).query] and
    [parse_qs] do on request paths without fragment, percent-escapes or
    ['+']: fields are split at ['&'], names from values at the first ['='],
    fields with a blank value are dropped. *)

Fixpoint split_at (sep : N) (s : pystr) : pystr * option pystr :=
  match s with
  | [] => ([], None)
  | c :: s' =>
      if N.eqb c sep then ([], Some s')
      else let '(a, b) := split_at sep s' in (c :: a, b)
  end.

Fixpoint split_all (fuel : nat) (sep : N) (s : pystr) : list pystr :=
  match fuel with
  | O => [s]
  | S fuel' =>
      match split_at sep s with
      | (a, None) => [a]
      | (a, Some rest) => a :: split_all fuel' sep rest
      end
  end.

Definition plain_query (path : pystr) : pystr :=
  match split_at 63 path with
  | (_, Some q) => q
  | (_, None) => []
  end.

Definition plain_parse_qs (qs : pystr) : gmap pystr (list pystr) :=
  fold_left
    (fun (m : gmap pystr (list pystr)) field =>
       match split_at 61 field with
       | (name, Some (c :: value)) =>
           <[name := default [] (m !! name) ++ [c :: value]]> m
       | _ => m
       end)
    (split_all (length qs) 38 qs) ∅.

Definition plain_authentication_url (client_id : option pystr)
    (scopes : list pystr) (state : pystr) : pystr :=
  py "https://todoist.com/oauth/authorize?client_id=" ++ py_str client_id ++
  py "&scope=" ++ join (py ",") scopes ++ py "&state=" ++ state.

#[export] Instance plain_library : Library :=
  mkLibrary plain_query plain_parse_qs plain_authentication_url.

(** Counting events of one kind in a log. *)
Definition count_events (f : Event -> bool) (log : list Event) : nat :=
  length (List.filter f log).

Definition is_exchange (e : Event) : bool :=
  match e with Exchange _ _ _ => true | _ => false end.
Definition is_file_write (e : Event) : bool :=
  match e with FileWrite _ => true | _ => false end.
Definition is_browser_open (e : Event) : bool :=
  match e with BrowserOpen _ => true | _ => false end.
Definition is_thread_start (e : Event) : bool :=
  match e with ThreadStart => true | _ => false end.
Definition is_bind (e : Event) : bool :=
  match e with Bind _ => true | _ => false end.
Definition is_stored (e : Event) : bool :=
  match e with Print MsgStored => true | _ => false end.

(** Events that commit nothing: everything but a call of the token
    endpoint and a write of the token file. *)
Definition quiet (e : Event) : bool :=
  negb (is_exchange e || is_file_write e).

(** ** Concrete runs

    A first attempt of a process: no token file, nobody else on the
    port, the random bytes [12345], the clock starting at [0]. *)

Definition demo_world : World := mkWorld fresh false None [].

(** The same with port 8080 held by another process. *)
Definition busy_world : World := mkWorld fresh true None [].

Definition demo_random : N := 12345.

(** The state generated for the attempt. *)
Definition demo_state : pystr := uuid_str (uuid4 demo_random).

(** The redirect [GET /callback?code=<code>&state=<state>]. *)
Definition callback_request (code state : pystr) : pystr :=
  py "/callback?code=" ++ code ++ py "&state=" ++ state.

(** A token endpoint that answers every code, and one out of reach. *)
Definition demo_exchange (client_id client_secret code : option pystr)
  : pystr + ExchangeFailure :=
  match code with
  | Some c => inl (py "tok_" ++ c)
  | None => inr MalformedBody
  end.

Definition offline_exchange (client_id client_secret code : option pystr)
  : pystr + ExchangeFailure :=
  inr NetworkError.

Definition demo_env (sched : list Tick) : Env :=
  mkEnv demo_random 0 sched None demo_exchange WriteOk.

(** A callback with a forged state arrives in the first round. *)
Definition env_mismatch : Env :=
  demo_env [mkTick [callback_request (py "abc123") (py "forged")] false 1].

(** Nothing arrives; the third reading of the clock is past 60 s. *)
Definition env_timeout : Env :=
  demo_env [mkTick [] false 1; mkTick [] false 30; mkTick [] false 61].


(** The matching callback arrives in the second round. *)
Definition env_success : Env :=
  demo_env [mkTick [] false (1 # 10);
            mkTick [callback_request (py "abc123") demo_state] false (1 # 2)].

(** The same, with the token endpoint out of reach. *)
Definition env_offline : Env :=
  mkEnv demo_random 0
    [mkTick [callback_request (py "abc123") demo_state] false (1 # 2)]
    None offline_exchange WriteOk.

(** Two matching callbacks arrive between two readings of the flag. *)
Definition env_two_callbacks : Env :=
  demo_env [mkTick [callback_request (py "first") demo_state;
                    callback_request (py "second") demo_state] false (1 # 2)].

(** The user interrupts the wait in the second round. *)
Definition env_interrupt : Env :=
  demo_env [mkTick [] false 1; mkTick [] true 2].

(** A listener that is serving. *)
Definition serving_world : World :=
  mkWorld (set_httpd (Some (mkServer true true)) fresh) false None [].

(** The content of a token file written by an earlier run. *)
Definition saved_entries : list (pystr * json) :=
  [(py "access_token", JStr (py "tok_saved"))].

Definition no_process : Process := mkProcess false ∅.

(** ** Vocabulary of the statements *)

(** What every step of [authenticate] before the exchange does to the
    world: the token file, the port's other users and the configuration
    stay as they are, a cleared token attribute stays cleared, the
    [httpd] attribute is never deleted, and the log grows by [quiet]
    events only. *)
Record frame (w w' : World) : Prop := mkFrame {
  frame_file : token_file w' = token_file w;
  frame_port : port_in_use w' = port_in_use w;
  frame_client_id :
    todoist_api_client_id (self w') = todoist_api_client_id (self w);
  frame_client_secret :
    todoist_api_client_secret (self w') = todoist_api_client_secret (self w);
  frame_timeout :
    todoist_oauth_timeout (self w') = todoist_oauth_timeout (self w);
  frame_token :
    todoist_api_token (self w) = JNull -> todoist_api_token (self w') = JNull;
  frame_httpd : is_Some (httpd (self w)) -> is_Some (httpd (self w'));
  frame_trace :
    exists added, trace w' = trace w ++ added /\ forallb quiet added = true
}.

(** The listener has been shut down and its socket closed. *)
Definition closed (w : World) : Prop :=
  httpd (self w) = Some (mkServer false false).


(** * Further vocabulary for the hand-shake *)

(** Events of the listener and of the teardown: printed lines, HTTP
    responses and reported handler exceptions. *)
Definition local (e : Event) : bool :=
  match e with
  | Print _ | Response _ | HandlerError _ => true
  | _ => false
  end.

(** The log of [w'] is the log of [w] followed by local events. *)
Definition grows_locally (w w' : World) : Prop :=
  exists added, trace w' = trace w ++ added /\ forallb local added = true.

(** Events that start nothing: everything but the opening of the
    browser, the start of the listener thread and a bind. *)
Definition starts_nothing (e : Event) : bool :=
  negb (is_browser_open e || is_thread_start e || is_bind e).

(** The log of [w'] is the log of [w] followed by events that start
    nothing. *)
Definition grows_quietly (w w' : World) : Prop :=
  exists added, trace w' = trace w ++ added /\ forallb starts_nothing added = true.

Definition is_response (e : Event) : bool :=
  match e with Response _ => true | _ => false end.

(** [main] without its [except Exception] clause, up to the point where
    a token has been obtained or the attempt has failed. *)
Definition token_phase `{Library} (fuel : nat) (p : Process)
    (env_init env_main : Env) (port_busy : bool) (file : option FileContent)
  : World * Outcome unit :=
  match __init__ fuel p env_init port_busy file [Print MsgStarting] with
  | (w, Return _) =>
      if negb (truthy (todoist_api_token (self w))) then
        let w := emit (Print MsgReauthenticating) w in
        match authenticate fuel env_main w with
        | (w, Return _) => (w, Return tt)
        | (w, Raise e) => (w, Raise e)
        | (w, StartingUp) => (w, StartingUp)
        | (w, Polling) => (w, Polling)
        end
      else
        let w := emit (Print MsgAlreadyAuthenticated) w in
        match slice5 (todoist_api_token (self w)) with
        | Some head => (emit (Print (MsgAccessToken head)) w, Return tt)
        | None => (w, Raise TypeError)
        end
  | r => r
  end.

(** A caller that drops the value [authenticate] returns. *)
Definition forget (r : World * Outcome bool) : World * Outcome unit :=
  match r with
  | (w, Return _) => (w, Return tt)
  | (w, Raise e) => (w, Raise e)
  | (w, StartingUp) => (w, StartingUp)
  | (w, Polling) => (w, Polling)
  end.

(** The object after [__init__] has loaded the file and configured
    itself, before it decides whether to authenticate. *)
Definition configured_world `{Library} (p : Process) (port_busy : bool)
    (file : option FileContent) (log : list Event) : World * bool :=
  configure p (load_access_token (mkWorld fresh port_busy file log)).

(** An object whose earlier attempt has left a closed server behind,
    with port 8080 now held by another process. *)
Definition stale_busy_world : World :=
  mkWorld (set_httpd (Some (mkServer false false)) fresh) true None [].

(** Nothing arrives but a complete callback that no listener can take;
    the second reading of the clock is past 60 s. *)
Definition env_unheard : Env :=
  demo_env [mkTick [callback_request (py "abc123") demo_state] false 1;
            mkTick [] false 61].

(** The token endpoint answers, the file cannot be opened for writing. *)
Definition env_read_only : Env :=
  mkEnv demo_random 0
    [mkTick [callback_request (py "abc123") demo_state] false (1 # 2)]
    None demo_exchange OpenFails.


(** * Fetching the tasks and pushing them to the display *)

(** ** [str.replace] and the short form of a humanized time *)

(** [s.replace(old, new)] for a non-empty [old]: the occurrences that do
    not overlap, leftmost first. [skip] counts the characters of a match
    that are still to be dropped. *)
Fixpoint replace_from (skip : nat) (s old new : pystr) : pystr :=
  match s with
  | [] => []
  | c :: s' =>
      match skip with
      | S k => replace_from k s' old new
      | O =>
          if startswith s old
          then new ++ replace_from (length old - 1) s' old new
          else c :: replace_from 0 s' old new
      end
  end.

Definition replace (s old new : pystr) : pystr := replace_from 0 s old new.

(** The [if (tiny):] block of [humanize_timestamp]. *)
Definition tiny_format (ht : pystr) : pystr :=
  let ht := if startswith ht (py "a ") then replace ht (py "a ") (py "1 ")
            else ht in
  let ht := replace ht (py " year") (py "y") in
  let ht := replace ht (py " month") (py "M") in
  let ht := replace ht (py " week") (py "w") in
  let ht := replace ht (py " day") (py "d") in
  let ht := replace ht (py " hour") (py "h") in
  let ht := replace ht (py " minute") (py "m") in
  let ht := replace ht (py " second") (py "s") in
  let ht := replace ht (py "ss") (py "XX") in
  let ht := replace ht (py "s") (py "") in
  replace ht (py "XX") (py "s").

(** What the script takes from [datetime] and [humanize]. Nothing is
    assumed about it. The readings of the clock inside
    [humanize_timestamp] are folded into the two functions of a
    timestamp: the clock stands still while the tasks of one answer are
    converted. *)
Class Calendar : Type := mkCalendar {
  datetime : Type;
  strptime : pystr -> pystr -> option datetime;
    (* [datetime.strptime(date_str, format)]; [None]: [ValueError] *)
  timestamp : datetime -> Z;
    (* [int(dt.timestamp())] *)
  now_timestamp : Z;
    (* [int(datetime.now().timestamp())] *)
  at_start_of_today : Z -> bool;
    (* [datetime.fromtimestamp(t) == datetime.combine(now.date(), time())] *)
  naturaltime : Z -> pystr
    (* [humanize.naturaltime(now - datetime.fromtimestamp(t))] *)
}.

(** ** Exceptions and Python's operations on parsed JSON *)

Inductive PyErr : Type :=
  | KeyErr (key : pystr)
  | TypeErr
  | ValueErr
  | AttributeErr
  | JSONDecodeErr
  | RequestErr.         (* any exception of [requests] *)

(** [sub in s] on strings. *)
Fixpoint is_substring (sub s : pystr) : bool :=
  startswith s sub ||
  match s with
  | [] => false
  | _ :: s' => is_substring sub s'
  end.

(** [key in j] for a string [key]. *)
Definition contains (j : json) (key : pystr) : bool + PyErr :=
  match j with
  | JDict entries => inl (existsb (fun kv => pystr_eqb (fst kv) key) entries)
  | JList items =>
      inl (existsb (fun x => match x with
                             | JStr s => pystr_eqb s key
                             | _ => false
                             end) items)
  | JStr s => inl (is_substring key s)
  | _ => inr TypeErr
  end.

Fixpoint dict_find (entries : list (pystr * json)) (key : pystr) : option json :=
  match entries with
  | [] => None
  | (k, v) :: rest => if pystr_eqb k key then Some v else dict_find rest key
  end.

(** [j[key]] for a string [key]. *)
Definition getitem (j : json) (key : pystr) : json + PyErr :=
  match j with
  | JDict entries =>
      match dict_find entries key with
      | Some v => inl v
      | None => inr (KeyErr key)
      end
  | _ => inr TypeErr
  end.

(** The values [for x in j] goes through. *)
Definition iterate (j : json) : list json + PyErr :=
  match j with
  | JList items => inl items
  | JDict entries => inl (List.map (fun kv => JStr (fst kv)) entries)
  | JStr s => inl (List.map (fun c => JStr [c]) s)
  | _ => inr TypeErr
  end.

(** The keys of the [projects] dictionary: hashable values up to
    Python's equality, under which [True] is [1] and [False] is [0]. *)
Inductive Key : Type :=
  | KNone
  | KInt (z : Z)
  | KStr (s : pystr).

#[export] Instance Key_eq_dec : EqDecision Key.
Proof. solve_decision. Defined.

#[export] Instance Key_countable : Countable Key.
Proof.
  refine (inj_countable'
            (fun k => match k with
                      | KNone => inl tt
                      | KInt z => inr (inl z)
                      | KStr s => inr (inr s)
                      end)
            (fun x => match x with
                      | inl _ => KNone
                      | inr (inl z) => KInt z
                      | inr (inr s) => KStr s
                      end) _).
  by intros [].
Defined.

(** [hash(j)] succeeds: the key [j] stands for. *)
Definition to_key (j : json) : Key + PyErr :=
  match j with
  | JNull => inl KNone
  | JBool b => inl (KInt (if b then 1 else 0))
  | JInt z => inl (KInt z)
  | JStr s => inl (KStr s)
  | JList _ | JDict _ => inr TypeErr
  end.

(** [5 - j]. *)
Definition five_minus (j : json) : Z + PyErr :=
  match j with
  | JInt z => inl (5 - z)%Z
  | JBool b => inl (5 - (if b then 1 else 0))%Z
  | _ => inr TypeErr
  end.

(** ** The web *)

Record HttpResponse : Type := mkHttpResponse {
  status_code : Z;
  text : pystr;
  loads : option json   (* [json.loads(r.text)]; [None]: it raises *)
}.

(** A request sent. The token and the key are what the f-string of the
    [Authorization] header interpolates after ["Bearer "]. *)
Inductive Call : Type :=
  | Get (url : pystr) (bearer : json)
  | Post (url : pystr) (bearer : option pystr) (body : json).

(** What the servers answer, or the exception [requests] raises. *)
Record Web : Type := mkWeb {
  http_get : pystr -> json -> HttpResponse + PyErr;
  http_post : pystr -> option pystr -> json -> HttpResponse + PyErr
}.

(** The dictionary [data] of [get_todoist_data]. *)
Record Payload : Type := mkPayload {
  data_checked : Z;          (* ["checked"] *)
  data_tasks : list json;    (* ["tasks"] *)
  data_filter : pystr;       (* ["filter"] *)
  data_status : pystr        (* ["status"] *)
}.

Definition with_status (s : pystr) (d : Payload) : Payload :=
  mkPayload (data_checked d) (data_tasks d) (data_filter d) s.

(** A task after the first loop of [get_todoist_data]: the item as it
    came, and the four values the loop has stored in it. *)
Record Row : Type := mkRow {
  item : json;
  due_date : Z;
  due_date_str : pystr;
  priority : Z;
  project_name : pystr
}.

(** ** Sorting *)

(** [l.sort(...)] is stable: an element moves in front of the ones that
    follow it unless one of them has to come strictly [before] it. *)
Fixpoint insert_by (before : Row -> Row -> bool) (x : Row) (l : list Row)
  : list Row :=
  match l with
  | [] => [x]
  | y :: l' => if before y x then y :: insert_by before x l' else x :: y :: l'
  end.

Definition stable_sort (before : Row -> Row -> bool) (l : list Row) : list Row :=
  foldr (insert_by before) [] l.

(** [tasks.sort(key=lambda x: x["due_date"], reverse=True)] followed by
    [tasks.sort(key=lambda x: x["priority"], reverse=False)]. *)
Definition display_order (rows : list Row) : list Row :=
  stable_sort (fun y x => (priority y <? priority x)%Z)
    (stable_sort (fun y x => (due_date y >? due_date x)%Z) rows).

(** The order the two sorts establish: smaller priority number first,
    and later due date first among equal priorities. *)
Definition shown_before (a b : Row) : Prop :=
  (priority a < priority b)%Z \/
  (priority a = priority b /\ (due_date b <= due_date a)%Z).

(** ** The functions of the script *)

(** Sequencing of steps that may raise. *)
Definition and_then {A B : Type} (x : A + PyErr) (f : A -> B + PyErr) : B + PyErr :=
  match x with
  | inl a => f a
  | inr e => inr e
  end.

Definition api_root : pystr := py "https://api.todoist.com/".
Definition user_filter : pystr := py "today | overdue".
Definition projects_url : pystr := api_root ++ py "api/v1/projects".
Definition tasks_url : pystr :=
  api_root ++ py "api/v1/tasks/filter?query=" ++ user_filter.

Section Data.

Context `{Calendar}.

#[local] Notation "x <- c ;; k" := (and_then c (fun x => k))
  (at level 100, c at next level, right associativity).

(** [to_timestamp]. A [date_str] that is no string makes [strptime]
    raise [TypeError], which the [except ValueError] lets through. *)
Definition to_timestamp (date_str : json) : Z + PyErr :=
  match date_str with
  | JStr s =>
      match strptime s (py "%Y-%m-%dT%H:%M:%S") with
      | Some dt => inl (timestamp dt)
      | None =>
          match strptime s (py "%Y-%m-%d") with
          | Some dt => inl (timestamp dt)
          | None => inr ValueErr
          end
      end
  | _ => inr TypeErr
  end.

Definition humanize_timestamp (t : Z) (tiny : bool) : pystr :=
  if at_start_of_today t then py "today"
  else
    let ht := naturaltime t in
    if tiny then tiny_format ht else ht.

(** The loop over the projects: [projects[proj["id"]] = proj["name"]],
    the right-hand side first. *)
Fixpoint collect_projects (projects : gmap Key json) (results : list json)
  : gmap Key json + PyErr :=
  match results with
  | [] => inl projects
  | proj :: rest =>
      name <- getitem proj (py "name");;
      id <- getitem proj (py "id");;
      k <- to_key id;;
      collect_projects (<[k := name]> projects) rest
  end.

(** The body of the first loop over the tasks. *)
Definition process_item (projects : gmap Key json) (it : json) : Row + PyErr :=
  due <- getitem it (py "due");;
  date <- getitem due (py "date");;
  tm <- to_timestamp date;;
  let ht := humanize_timestamp tm true in
  p <- getitem it (py "priority");;
  prio <- five_minus p;;
  pid <- getitem it (py "project_id");;
  k <- to_key pid;;
  name <- match projects !! k with
             | Some (JStr s) => inl (py "# " ++ s)
             | Some _ => inr TypeErr
             | None => inl (py "#NoProject")
             end;;
  inl (mkRow it tm ht prio name).

Fixpoint process_items (projects : gmap Key json) (items : list json)
  : list Row + PyErr :=
  match items with
  | [] => inl []
  | it :: rest =>
      row <- process_item projects it;;
      rows <- process_items projects rest;;
      inl (row :: rows)
  end.

(** The dictionary the second loop appends for a task. *)
Definition render (row : Row) : json + PyErr :=
  content <- getitem (item row) (py "content");;
  inl (JDict [(py "name", content); (py "prio", JInt (priority row));
              (py "due", JStr (due_date_str row));
              (py "proj", JStr (project_name row))]).

Fixpoint render_all (rows : list Row) : list json + PyErr :=
  match rows with
  | [] => inl []
  | row :: rest =>
      t <- render row;;
      ts <- render_all rest;;
      inl (t :: ts)
  end.

(** What the first request makes of [projects]. *)
Definition read_projects (j : json) : gmap Key json + PyErr :=
  has <- contains j (py "results");;
  if (has : bool) then
    results <- getitem j (py "results");;
    l <- iterate results;;
    collect_projects ∅ l
  else inl ∅.

(** What the second request makes of [data]: the tasks are converted,
    sorted twice (which only a list can be) and rendered. *)
Definition read_tasks (projects : gmap Key json) (data : Payload) (j : json)
  : Payload + PyErr :=
  has <- contains j (py "results");;
  if (has : bool) then
    results <- getitem j (py "results");;
    l <- iterate results;;
    rows <- process_items projects l;;
    ok <- match results with
            | JList _ => inl tt
            | _ => inr AttributeErr
            end;;
    out <- render_all (display_order rows);;
    inl (mkPayload (data_checked data) (data_tasks data ++ out)
           (data_filter data) (data_status data))
  else inl data.

(** [get_todoist_data]: the requests sent, and the dictionary returned
    or the exception raised. With any answer but 200 to the second
    request, ["Status Code: " + r.status_code] adds a string and a
    number. *)
Definition get_todoist_data (web : Web) (token : json)
  : list Call * (Payload + PyErr) :=
  let data := mkPayload now_timestamp [] user_filter (py "Checking") in
  let first := [Get projects_url token] in
  match http_get web projects_url token with
  | inr e => (first, inr e)
  | inl r =>
      if (status_code r =? 200)%Z then
        match loads r with
        | None => (first, inr JSONDecodeErr)
        | Some j =>
            match read_projects j with
            | inr e => (first, inr e)
            | inl projects =>
                let both := first ++ [Get tasks_url token] in
                match http_get web tasks_url token with
                | inr e => (both, inr e)
                | inl r =>
                    if (status_code r =? 200)%Z then
                      match loads r with
                      | None => (both, inr JSONDecodeErr)
                      | Some j => (both, read_tasks projects data j)
                      end
                    else (both, inr TypeErr)
                end
            end
        end
      else (first, inl (with_status (py "Error fetching projects") data))
  end.

(** The body [requests.post(u, json=d, ...)] sends. *)
Definition webhook_body (data : Payload) : json :=
  JDict [(py "merge_variables",
          JDict [(py "tasks",
                  JList (truncate_data_to_limit (data_tasks data) 2000));
                 (py "filter", JStr (data_filter data));
                 (py "refreshed", JInt (data_checked data))])].

(** What the [if "status" in j:] block reads. *)
Definition read_reply (j : json) : unit + PyErr :=
  has <- contains j (py "status");;
  if (has : bool) then
    ok <- getitem j (py "status");;
    ok <- getitem j (py "message");;
    inl tt
  else inl tt.

(** [update_trmnl_via_webhook]: the requests sent and [data] afterwards.
    Without a URL [requests.post] raises before it sends anything. *)
Definition update_trmnl_via_webhook (web : Web) (url key : option pystr)
    (data : Payload) : list Call * Payload :=
  let failed := with_status (py "Exception saving data to TRMNL") data in
  match url with
  | None => ([], failed)
  | Some u =>
      let body := webhook_body data in
      let sent := [Post u key body] in
      match http_post web u key body with
      | inr _ => (sent, failed)
      | inl r =>
          if (status_code r =? 200)%Z then
            match loads r with
            | None => (sent, failed)
            | Some j =>
                match read_reply j with
                | inl _ => (sent, data)
                | inr _ => (sent, failed)
                end
            end
          else (sent, with_status (py "Error saving data to TRMNL") data)
      end
  end.

(** The second half of [main]: fetch, print, push. An exception of the
    fetch is caught by [main] and nothing is pushed. *)
Definition data_phase (web : Web) (w : World) : list Call * option Payload :=
  match get_todoist_data web (todoist_api_token (self w)) with
  | (calls, inr _) => (calls, None)
  | (calls, inl data) =>
      let '(sent, data) :=
        update_trmnl_via_webhook web (trmnl_plugin_webhook_url (self w))
          (trmnl_api_key (self w)) data in
      (calls ++ sent, Some data)
  end.

(** All of [main]: the hand-shake, then the requests of the second half
    when the first has not raised. *)
Definition run `{Library} (fuel : nat) (p : Process) (env_init env_main : Env)
    (port_busy : bool) (file : option FileContent) (web : Web)
  : World * Outcome unit * list Call :=
  match token_phase fuel p env_init env_main port_busy file with
  | (w, Return _) => (w, Return tt, fst (data_phase web w))
  | r => (catch r, [])
  end.

End Data.

(** The size in bytes of [json.dumps(d)] for the dictionary [d] handed
    to [requests.post] as [json=d]. *)
Definition body_size (body : json) : Z :=
  Z.of_nat (length (encode_utf8 (json_dumps body))).

(** ** Vocabulary of the statements about the second half *)

(** A text of decimal digits. *)
Definition digits (n : pystr) : Prop := Forall (fun c => (48 <= c <= 57)%N) n.

(** The units [humanize] writes out and the letters [tiny_format] puts
    for them. *)
Definition units : list (pystr * pystr) :=
  [(py "year", py "y"); (py "month", py "M"); (py "week", py "w");
   (py "day", py "d"); (py "hour", py "h"); (py "minute", py "m");
   (py "second", py "s")].

(** Both requests are answered with 200 and with bodies that parse to
    [j_projects] and [j_tasks]. *)
Definition answers (web : Web) (token : json) (j_projects j_tasks : json) : Prop :=
  exists r1 r2,
    http_get web projects_url token = inl r1 /\ status_code r1 = 200%Z /\
    loads r1 = Some j_projects /\
    http_get web tasks_url token = inl r2 /\ status_code r2 = 200%Z /\
    loads r2 = Some j_tasks.

(** ** A calendar, answers of the two services and objects to try the
    second half on *)

(** A calendar read on 2 January 2025 at 11:00 UTC that knows three
    dates. *)
Definition plain_strptime (s fmt : pystr) : option Z :=
  if pystr_eqb fmt (py "%Y-%m-%dT%H:%M:%S") then
    if pystr_eqb s (py "2025-01-01T09:00:00") then Some 1735722000%Z else None
  else if pystr_eqb fmt (py "%Y-%m-%d") then
    if pystr_eqb s (py "2025-01-02") then Some 1735776000%Z
    else if pystr_eqb s (py "2024-12-30") then Some 1735516800%Z
    else None
  else None.

Definition plain_naturaltime (t : Z) : pystr :=
  if (t =? 1735722000)%Z then py "a day ago"
  else if (t =? 1735516800)%Z then py "3 days ago"
  else py "now".

#[export] Instance plain_calendar : Calendar :=
  mkCalendar Z plain_strptime (fun dt => dt) 1735815600%Z
    (fun t => (t =? 1735776000)%Z) plain_naturaltime.

Definition demo_token : json := JStr (py "tok_old").

Definition demo_projects : json :=
  JDict [(py "results",
          JList [JDict [(py "id", JStr (py "p1")); (py "name", JStr (py "Home"))]])].

Definition demo_task (content date : pystr) (prio : Z) (project : pystr) : json :=
  JDict [(py "content", JStr content);
         (py "due", JDict [(py "date", JStr date)]);
         (py "priority", JInt prio);
         (py "project_id", JStr project)].

(** Three tasks, as the service lists them. *)
Definition demo_items : list json :=
  [demo_task (py "Water plants") (py "2024-12-30") 1 (py "p1");
   demo_task (py "Pay rent") (py "2025-01-01T09:00:00") 4 (py "p1");
   demo_task (py "Call Ann") (py "2025-01-02") 4 (py "p9")].

Definition demo_tasks : json := JDict [(py "results", JList demo_items)].

(** The same list with a task that has no due date. *)
Definition undated_task : json :=
  JDict [(py "content", JStr (py "Some day")); (py "due", JNull);
         (py "priority", JInt 1); (py "project_id", JStr (py "p1"))].

Definition undated_tasks : json :=
  JDict [(py "results", JList (demo_items ++ [undated_task]))].

Definition answer_ok (j : json) : HttpResponse :=
  mkHttpResponse 200 (json_dumps j) (Some j).

Definition answer_unauthorized : HttpResponse :=
  mkHttpResponse 401 (py "Unauthorized") None.

Definition trmnl_reply : json :=
  JDict [(py "status", JInt 200); (py "message", JNull)].

(** A web in which the two requests of [get_todoist_data] get the given
    answers and the display accepts what is pushed. *)
Definition demo_web (projects tasks : HttpResponse) : Web :=
  mkWeb
    (fun url _ =>
       if pystr_eqb url projects_url then inl projects
       else if pystr_eqb url tasks_url then inl tasks
       else inr RequestErr)
    (fun _ _ _ => inl (answer_ok trmnl_reply)).

Definition web_ok : Web := demo_web (answer_ok demo_projects) (answer_ok demo_tasks).

Definition web_tasks_refused : Web :=
  demo_web (answer_ok demo_projects) answer_unauthorized.

Definition web_undated : Web :=
  demo_web (answer_ok demo_projects) (answer_ok undated_tasks).

Definition web_projects_refused : Web :=
  demo_web answer_unauthorized (answer_ok demo_tasks).

(** An object configured for a display, holding a token. *)
Definition display_world : World :=
  mkWorld
    (mkHookup (Some (py "key")) (Some (py "42"))
       (Some (py "https://usetrmnl.com/api/custom_plugins/42"))
       (Some (py "id")) (Some (py "secret")) 60 None None false demo_token None)
    false None [].
(** * Theorems *)

(** ** The library models on sample values *)

Example json_dumps_sample :
  json_dumps (JList [JInt 1; JInt (-5); JNull; JBool true; JList []; JDict []])
  = py "[1, -5, null, true, [], {}]".
Proof. reflexivity. Qed.

Example json_dumps_escapes :
  json_dumps (JStr [233; 128512; 10; 92; 127]%N)
  = [34%N] ++ py "\u00e9\ud83d\ude00\n\\\u007f" ++ [34%N].
Proof. reflexivity. Qed.

Example serialized_size_sample :
  serialized_size [task (py "Buy milk") 1 (py "today") (py "# Home")] = 67%Z.
Proof. reflexivity. Qed.

Example truncate_sample :
  truncate_data_to_limit
    [task (py "Buy milk") 1 (py "today") (py "# Home");
     task (py "Call the bank") 2 (py "1d ago") (py "#NoProject");
     task (py "x") 4 (py "today") (py "# Home")] 100
  = [task (py "Buy milk") 1 (py "today") (py "# Home")].
Proof. reflexivity. Qed.

Example uuid4_sample :
  uuid_str (uuid4 24197857203266734864793317670504947440)
  = py "12345678-9abc-4ef0-9234-56789abcdef0".
Proof. reflexivity. Qed.

Example plain_parse_qs_sample :
  plain_parse_qs (plain_query (py "/callback?code=abc&state=&x&code=def"))
  = {[ py "code" := [py "abc"; py "def"] ]}.
Proof. vm_compute. reflexivity. Qed.

(** ** Facts about the serialisation used by the trimming loop *)

Section Serialisation.

Lemma encode_utf8_app (a b : pystr) :
  encode_utf8 (a ++ b) = encode_utf8 a ++ encode_utf8 b.
Proof. unfold encode_utf8. apply flat_map_app. Qed.

Lemma blen_app (a b : pystr) : blen (a ++ b) = blen a + blen b.
Proof. unfold blen. rewrite encode_utf8_app. apply length_app. Qed.

(** Joining more parts never gives a shorter text. *)
Lemma blen_join_app (sep : pystr) (xs ys : list pystr) :
  blen (join sep xs) <= blen (join sep (xs ++ ys)).
Proof.
  induction xs as [|x xs IH]; [cbn; lia|].
  destruct xs as [|x' xs].
  - destruct ys as [|y ys]; cbn [app join]; [lia|].
    rewrite blen_app. lia.
  - change ((x :: x' :: xs) ++ ys) with (x :: (x' :: xs) ++ ys).
    change (join sep (x :: x' :: xs))
      with (x ++ sep ++ join sep (x' :: xs)).
    change (join sep (x :: (x' :: xs) ++ ys))
      with (x ++ sep ++ join sep ((x' :: xs) ++ ys)).
    rewrite !blen_app. lia.
Qed.

Lemma serialized_size_eq (l : list json) :
  serialized_size l
  = Z.of_nat (blen (py "[") + blen (join (py ", ") (List.map json_dumps l))
              + blen (py "]")).
Proof.
  unfold serialized_size. cbn [json_dumps].
  fold (blen (py "[" ++ join (py ", ") (List.map json_dumps l) ++ py "]")).
  rewrite !blen_app. f_equal; lia.
Qed.

(** A longer list of tasks never serialises to fewer bytes. *)
Lemma serialized_size_mono (l more : list json) :
  (serialized_size l <= serialized_size (l ++ more))%Z.
Proof.
  rewrite !serialized_size_eq, List.map_app.
  pose proof (blen_join_app (py ", ") (List.map json_dumps l)
                (List.map json_dumps more)).
  lia.
Qed.

End Serialisation.

(** ** The trimming loop *)

Section Truncate.

Variable limit_bytes : Z.

Lemma truncate_loop_prefix (task_list acc : list json) :
  exists taken dropped,
    task_list = taken ++ dropped /\
    truncate_loop acc task_list limit_bytes = acc ++ taken.
Proof.
  revert acc. induction task_list as [|item rest IH]; intros acc.
  - exists [], []. cbn. by rewrite app_nil_r.
  - cbn [truncate_loop].
    destruct (serialized_size (acc ++ [item]) >? limit_bytes)%Z.
    + exists [], (item :: rest). rewrite removelast_last, app_nil_r. done.
    + destruct (IH (acc ++ [item])) as (taken & dropped & -> & ->).
      exists (item :: taken), dropped. by rewrite <- app_assoc.
Qed.

Lemma truncate_loop_fits (task_list acc : list json) :
  fits limit_bytes acc -> fits limit_bytes (truncate_loop acc task_list limit_bytes).
Proof.
  revert acc. induction task_list as [|item rest IH]; intros acc Hacc.
  - exact Hacc.
  - cbn [truncate_loop].
    destruct (serialized_size (acc ++ [item]) >? limit_bytes)%Z eqn:E.
    + by rewrite removelast_last.
    + apply IH. right. lia.
Qed.

(** Where the loop stops, the next item does not fit any more. *)
Lemma truncate_loop_stop (task_list acc : list json) :
  truncate_loop acc task_list limit_bytes = acc ++ task_list \/
  exists taken item dropped,
    task_list = taken ++ item :: dropped /\
    truncate_loop acc task_list limit_bytes = acc ++ taken /\
    (serialized_size (acc ++ taken ++ [item]) > limit_bytes)%Z.
Proof.
  revert acc. induction task_list as [|item rest IH]; intros acc.
  - left. cbn. by rewrite app_nil_r.
  - cbn [truncate_loop].
    destruct (serialized_size (acc ++ [item]) >? limit_bytes)%Z eqn:E.
    + right. exists [], item, rest.
      rewrite removelast_last, app_nil_r. cbn [app]. split_and!; [done..|lia].
    + destruct (IH (acc ++ [item])) as [->|(taken & x & dropped & -> & -> & Hx)].
      * left. by rewrite <- app_assoc.
      * right. exists (item :: taken), x, dropped.
        rewrite <- !app_assoc in *. cbn [app] in *. done.
Qed.

End Truncate.

(** C10. [truncate_data_to_limit] returns a prefix of the task list; a
  non-empty result serialises to at most [limit_bytes] bytes; and no
  longer prefix of the task list is empty or within the limit. *)
Theorem truncate_data_to_limit_longest_prefix
  (task_list : list json) (limit_bytes : Z) :
let result := truncate_data_to_limit task_list limit_bytes in
(exists dropped, task_list = result ++ dropped) /\
(result <> [] -> (serialized_size result <= limit_bytes)%Z) /\
(forall p rest, task_list = p ++ rest -> fits limit_bytes p ->
   length p <= length result).
Proof.
cbn zeta. unfold truncate_data_to_limit. split_and!.
- destruct (truncate_loop_prefix limit_bytes task_list [])
    as (taken & dropped & -> & ->). by exists dropped.
- intros Hne.
  destruct (truncate_loop_fits limit_bytes task_list []) as [?|?];
    [by left|done|done].
- intros p rest Hp Hfit.
  destruct (truncate_loop_stop limit_bytes task_list [])
    as [->|(taken & item & dropped & Htl & -> & Hover)].
  + cbn [app]. rewrite Hp, length_app. lia.
  + cbn [app] in *.
    destruct (le_lt_dec (length p) (length taken)) as [|Hlt]; [done|exfalso].
    assert (exists more, p = (taken ++ [item]) ++ more) as [more ->].
    { exists (drop (S (length taken)) p).
      assert (Hpre : take (S (length taken)) p = taken ++ [item]).
      { assert (Ht : take (S (length taken)) (p ++ rest)
                     = take (S (length taken)) (taken ++ item :: dropped))
          by (by rewrite <- Hp, Htl).
        rewrite take_app_le in Ht by lia.
        rewrite Ht.
        replace (taken ++ item :: dropped) with ((taken ++ [item]) ++ dropped)
          by (by rewrite <- app_assoc).
        rewrite take_app_length'; [done|]. rewrite length_app. cbn. lia. }
      by rewrite <- Hpre, take_drop. }
    destruct Hfit as [Hnil|Hsz].
    * destruct taken; discriminate Hnil.
    * pose proof (serialized_size_mono (taken ++ [item]) more). lia.
Qed.



(** ** Strings and logs *)

Lemma hex_fixed_length (width : nat) (v : N) : length (hex_fixed width v) = width.
Proof.
  revert v. induction width as [|w IH]; intros v; [done|].
  cbn [hex_fixed]. rewrite length_app, IH. cbn. lia.
Qed.

Lemma uuid_str_length (u : N) : length (uuid_str u) = 36.
Proof.
  unfold uuid_str. pose proof (hex_fixed_length 32 u) as Hlen.
  repeat rewrite ?length_app, ?length_take, ?length_drop.
  rewrite Hlen. reflexivity.
Qed.

(** The text of a UUID is never the text of [None]. *)
Lemma uuid_str_not_None (u : N) : uuid_str u <> py "None".
Proof.
  intros Heq. apply (f_equal length) in Heq.
  rewrite uuid_str_length in Heq. discriminate Heq.
Qed.

Lemma pystr_eqb_eq (a b : pystr) : pystr_eqb a b = true <-> a = b.
Proof. unfold pystr_eqb. apply bool_decide_eq_true. Qed.

Lemma count_events_app (f : Event -> bool) (a b : list Event) :
  count_events f (a ++ b) = count_events f a + count_events f b.
Proof. unfold count_events. by rewrite List.filter_app, length_app. Qed.

Lemma count_events_quiet (f : Event -> bool) (added : list Event) :
  (forall e, quiet e = true -> f e = false) ->
  forallb quiet added = true -> count_events f added = 0.
Proof.
  intros Hf. unfold count_events.
  induction added as [|e added IH]; [done|].
  cbn [forallb List.filter]. intros [He Hrest]%andb_true_iff.
  rewrite (Hf e He). by apply IH.
Qed.

Lemma quiet_not_exchange (e : Event) : quiet e = true -> is_exchange e = false.
Proof. by destruct e. Qed.

Lemma quiet_not_file_write (e : Event) : quiet e = true -> is_file_write e = false.
Proof. by destruct e. Qed.

(** ** The frame of the steps before the exchange *)

Lemma frame_refl (w : World) : frame w w.
Proof.
  constructor; try done. exists []. by rewrite app_nil_r.
Qed.

Lemma frame_trans (w1 w2 w3 : World) : frame w1 w2 -> frame w2 w3 -> frame w1 w3.
Proof.
  intros [] []. constructor; try congruence; try tauto.
  destruct frame_trace0 as (a1 & Ha1 & Hl1).
  destruct frame_trace1 as (a2 & Ha2 & Hl2).
  exists (a1 ++ a2). rewrite Ha2, Ha1, <- app_assoc, forallb_app, Hl1, Hl2. done.
Qed.

Lemma frame_emit (e : Event) (w : World) : quiet e = true -> frame w (emit e w).
Proof.
  intros He. constructor; try done.
  exists [e]. cbn. by rewrite He.
Qed.

Lemma frame_set_callback (c s : option pystr) (b : bool) (w : World) :
  frame w (with_self (set_callback c s b) w).
Proof.
  constructor; try done. exists []. cbn. by rewrite app_nil_r.
Qed.

Lemma frame_clear_token (w : World) : frame w (with_self (set_api_token JNull) w).
Proof.
  constructor; try done. exists []. cbn. by rewrite app_nil_r.
Qed.

Lemma frame_set_httpd (srv : Server) (w : World) :
  frame w (with_self (set_httpd (Some srv)) w).
Proof.
  constructor; try done. exists []. cbn. by rewrite app_nil_r.
Qed.

(** Nothing is counted among the events a frame adds. *)
Lemma frame_exchanges (w w' : World) :
  frame w w' ->
  count_events is_exchange (trace w') = count_events is_exchange (trace w).
Proof.
  intros [_ _ _ _ _ _ _ (added & -> & Hq)].
  rewrite count_events_app, (count_events_quiet _ added); auto using quiet_not_exchange.
Qed.

Lemma frame_file_writes (w w' : World) :
  frame w w' ->
  count_events is_file_write (trace w') = count_events is_file_write (trace w).
Proof.
  intros [_ _ _ _ _ _ _ (added & -> & Hq)].
  rewrite count_events_app, (count_events_quiet _ added);
    auto using quiet_not_file_write.
Qed.

Section AuthFacts.

Context `{Library}.

(** *** The handler *)

Lemma frame_do_GET (path : pystr) (w : World) : frame w (fst (do_GET path w)).
Proof.
  unfold do_GET.
  destruct (startswith path (py "/callback")); [|by apply frame_emit].
  destruct (get_first _ (py "code")) as [code|e]; [|by apply frame_emit].
  destruct (get_first _ (py "state")) as [state|e]; [|by apply frame_emit].
  destruct code as [c|], state as [s|]; try by apply frame_emit.
  destruct (nonempty c && nonempty s); cbn [fst].
  - eapply frame_trans; [|by apply frame_emit].
    eapply frame_trans; [|apply frame_set_callback].
    eapply frame_trans; by apply frame_emit.
  - eapply frame_trans; by apply frame_emit.
Qed.

Lemma frame_handle_request (path : pystr) (w : World) :
  frame w (handle_request path w).
Proof.
  unfold handle_request. destruct (accepting w); [|apply frame_refl].
  pose proof (frame_do_GET path w) as Hf.
  destruct (do_GET path w) as [w' [e|]]; cbn [fst] in Hf; [|done].
  eapply frame_trans; [exact Hf|by apply frame_emit].
Qed.

(** The handler never touches [self.httpd]. *)
Lemma do_GET_httpd (path : pystr) (w : World) :
  httpd (self (fst (do_GET path w))) = httpd (self w).
Proof.
  unfold do_GET.
  destruct (startswith path (py "/callback")); [|done].
  destruct (get_first _ (py "code")) as [code|e]; [|done].
  destruct (get_first _ (py "state")) as [state|e]; [|done].
  destruct code as [c|], state as [s|]; try done.
  by destruct (nonempty c && nonempty s).
Qed.

Lemma handle_request_httpd (path : pystr) (w : World) :
  httpd (self (handle_request path w)) = httpd (self w).
Proof.
  unfold handle_request. destruct (accepting w); [|done].
  pose proof (do_GET_httpd path w) as Hh.
  by destruct (do_GET path w) as [w' [e|]].
Qed.

(** A request that carries no complete callback leaves the three
    callback attributes alone. *)
Lemma handle_request_noise (path : pystr) (w : World) :
  delivers path = None ->
  callback_fields (handle_request path w) = callback_fields w.
Proof.
  unfold handle_request, delivers, do_GET. intros Hd.
  destruct (accepting w); [|done].
  destruct (startswith path (py "/callback")); [|done].
  destruct (get_first _ (py "code")) as [code|e]; [|done].
  destruct (get_first _ (py "state")) as [state|e]; [|by destruct code].
  destruct code as [c|], state as [s|]; try done.
  by destruct (nonempty c && nonempty s).
Qed.

(** A complete callback reaching a running listener is recorded, whatever
    was recorded before. *)
Lemma handle_request_delivers (path c s : pystr) (w : World) :
  accepting w = true -> delivers path = Some (c, s) ->
  callback_fields (handle_request path w) = (Some c, Some s, true).
Proof.
  unfold handle_request, delivers, do_GET. intros -> Hd.
  destruct (startswith path (py "/callback")); [|done].
  destruct (get_first _ (py "code")) as [[c'|]|e]; try done.
  destruct (get_first _ (py "state")) as [[s'|]|e]; try done.
  destruct (nonempty c' && nonempty s'); [|done].
  by injection Hd as -> ->.
Qed.

Lemma frame_serve (paths : list pystr) (w : World) : frame w (serve paths w).
Proof.
  revert w. induction paths as [|p paths IH]; intros w; [apply frame_refl|].
  cbn [serve fold_left]. eapply frame_trans; [apply frame_handle_request|apply IH].
Qed.

Lemma serve_httpd (paths : list pystr) (w : World) :
  httpd (self (serve paths w)) = httpd (self w).
Proof.
  revert w. induction paths as [|p paths IH]; intros w; [done|].
  cbn [serve fold_left]. fold (serve paths (handle_request p w)).
  by rewrite IH, handle_request_httpd.
Qed.

Lemma serve_noise (paths : list pystr) (w : World) :
  Forall (fun p => delivers p = None) paths ->
  callback_fields (serve paths w) = callback_fields w.
Proof.
  intros Hn. revert w. induction Hn as [|p paths Hp _ IH]; intros w; [done|].
  cbn [serve fold_left]. fold (serve paths (handle_request p w)).
  by rewrite IH, handle_request_noise.
Qed.

Lemma serve_app (a b : list pystr) (w : World) :
  serve (a ++ b) w = serve b (serve a w).
Proof. unfold serve. apply fold_left_app. Qed.

Lemma accepting_serve (paths : list pystr) (w : World) :
  accepting (serve paths w) = accepting w.
Proof. unfold accepting. by rewrite serve_httpd. Qed.

(** *** Shutting down and resetting *)

Lemma frame_shutdown_local_server (pending : option pystr) (w : World) :
  frame w (shutdown_local_server pending w).
Proof.
  unfold shutdown_local_server.
  destruct (httpd (self w)) as [srv|] eqn:Hsrv; [|apply frame_refl].
  eapply frame_trans; [|by apply frame_emit].
  eapply frame_trans; [|apply frame_set_httpd].
  destruct (serving srv), pending; try apply frame_refl.
  apply frame_handle_request.
Qed.

Lemma shutdown_local_server_closed (pending : option pystr) (w : World) :
  is_Some (httpd (self w)) -> closed (shutdown_local_server pending w).
Proof.
  intros [srv Hsrv]. unfold shutdown_local_server. by rewrite Hsrv.
Qed.

Lemma shutdown_local_server_absent (pending : option pystr) (w : World) :
  httpd (self w) = None -> shutdown_local_server pending w = w.
Proof. intros Hsrv. unfold shutdown_local_server. by rewrite Hsrv. Qed.

(** On a server that is already closed the call only prints its line. *)
Lemma shutdown_local_server_again (pending : option pystr) (w : World) :
  closed w -> shutdown_local_server pending w = emit (Print MsgShutDown) w.
Proof.
  unfold closed, shutdown_local_server. intros Hsrv. rewrite Hsrv. cbn [serving].
  destruct w as [[] ? ? ?]. cbn in Hsrv. by subst.
Qed.

Lemma shutdown_local_server_fields (pending : option pystr) (w : World) :
  accepting w = false \/ harmless pending ->
  callback_fields (shutdown_local_server pending w) = callback_fields w.
Proof.
  unfold shutdown_local_server, accepting. intros Hc.
  destruct (httpd (self w)) as [srv|] eqn:Hsrv; [|done].
  destruct (serving srv), pending as [p|]; try done.
  destruct Hc as [|Hp]; [done|].
  change (callback_fields (handle_request p w) = callback_fields w).
  by rewrite handle_request_noise; [|apply Hp].
Qed.

Lemma closed_not_accepting (w : World) : closed w -> accepting w = false.
Proof. unfold closed, accepting. by intros ->. Qed.

Lemma closed_not_listening (w : World) : closed w -> listening w = false.
Proof. unfold closed, listening. by intros ->. Qed.

Lemma closed_emit (e : Event) (w : World) : closed w -> closed (emit e w).
Proof. done. Qed.

Lemma frame_reset_auth (pending : option pystr) (w : World) :
  frame w (reset_auth pending w).
Proof.
  unfold reset_auth.
  eapply frame_trans; [apply frame_set_callback|].
  eapply frame_trans; [apply frame_clear_token|].
  apply frame_shutdown_local_server.
Qed.

Lemma reset_auth_token (pending : option pystr) (w : World) :
  todoist_api_token (self (reset_auth pending w)) = JNull.
Proof.
  unfold reset_auth. by apply (frame_token _ _ (frame_shutdown_local_server _ _)).
Qed.

Lemma reset_auth_closed (pending : option pystr) (w : World) :
  is_Some (httpd (self w)) -> closed (reset_auth pending w).
Proof. intros Hs. unfold reset_auth. by apply shutdown_local_server_closed. Qed.

Lemma reset_auth_absent (pending : option pystr) (w : World) :
  httpd (self w) = None -> httpd (self (reset_auth pending w)) = None.
Proof.
  intros Hs. unfold reset_auth. by rewrite shutdown_local_server_absent.
Qed.

Lemma reset_auth_fields (pending : option pystr) (w : World) :
  accepting w = false \/ harmless pending ->
  callback_fields (reset_auth pending w) = (None, None, false).
Proof.
  intros Hc. unfold reset_auth. by rewrite shutdown_local_server_fields.
Qed.

(** *** Starting the listener *)

Lemma frame_start_local_server (w : World) : frame w (start_local_server w).
Proof.
  unfold start_local_server.
  eapply frame_trans; [apply (frame_reset_auth None)|].
  destruct (port_free _).
  - eapply frame_trans; [|by apply frame_emit].
    eapply frame_trans; [|apply frame_set_httpd]. by apply frame_emit.
  - eapply frame_trans; by apply frame_emit.
Qed.

Lemma start_local_server_token (w : World) :
  todoist_api_token (self (start_local_server w)) = JNull.
Proof.
  unfold start_local_server.
  pose proof (reset_auth_token None w). by destruct (port_free _).
Qed.

Lemma start_local_server_fields (w : World) :
  callback_fields (start_local_server w) = (None, None, false).
Proof.
  unfold start_local_server.
  assert (Hf : callback_fields (reset_auth None w) = (None, None, false))
    by (apply reset_auth_fields; by right).
  by destruct (port_free _).
Qed.

Lemma reset_auth_not_listening (pending : option pystr) (w : World) :
  listening (reset_auth pending w) = false.
Proof.
  destruct (httpd (self w)) as [srv|] eqn:Hsrv.
  - apply closed_not_listening, reset_auth_closed. by rewrite Hsrv.
  - unfold listening. by rewrite reset_auth_absent.
Qed.

(** With the port free of other users the bind succeeds: the thread's
    own reset has closed whatever an earlier attempt left behind. *)
Lemma start_local_server_bound (w : World) :
  port_in_use w = false ->
  httpd (self (start_local_server w)) = Some (mkServer true true).
Proof.
  intros Hp. unfold start_local_server, port_free.
  rewrite (frame_port _ _ (frame_reset_auth None w)), Hp.
  by rewrite reset_auth_not_listening.
Qed.

(** With the port taken the bind fails and [self.httpd] is what the
    reset left: nothing, or the closed server of an earlier attempt. *)
Lemma start_local_server_busy (w : World) :
  port_in_use w = true ->
  httpd (self (start_local_server w)) =
  match httpd (self w) with
  | Some _ => Some (mkServer false false)
  | None => None
  end.
Proof.
  intros Hp. unfold start_local_server, port_free.
  rewrite (frame_port _ _ (frame_reset_auth None w)), Hp. cbn.
  destruct (httpd (self w)) as [srv|] eqn:Hsrv.
  - apply reset_auth_closed. by rewrite Hsrv.
  - by apply reset_auth_absent.
Qed.

Lemma wait_for_httpd_present (fuel : nat) (w : World) :
  0 < fuel -> is_Some (httpd (self w)) -> wait_for_httpd fuel w = true.
Proof.
  intros Hf [srv Hsrv]. destruct fuel; [lia|]. cbn. by rewrite Hsrv.
Qed.

Lemma wait_for_httpd_absent (fuel : nat) (w : World) :
  httpd (self w) = None -> wait_for_httpd fuel w = false.
Proof.
  intros Hsrv. induction fuel as [|fuel IH]; [done|]. cbn. by rewrite Hsrv.
Qed.

Lemma wait_for_httpd_true (fuel : nat) (w : World) :
  wait_for_httpd fuel w = true -> is_Some (httpd (self w)).
Proof.
  destruct (httpd (self w)) as [srv|] eqn:Hsrv; [by eexists|].
  by rewrite wait_for_httpd_absent.
Qed.

(** *** The wait loop *)

Lemma frame_wait_loop (start : Q) (pending : option pystr) (sched : list Tick)
    (w : World) :
  frame w (waited_world (wait_loop start pending sched w)).
Proof.
  revert w. induction sched as [|t sched IH]; intros w; [apply frame_refl|].
  cbn [wait_loop].
  pose proof (frame_serve (served t) w) as Hs.
  destruct (interrupt t); [exact Hs|].
  destruct (todoist_oauth_callback_received _); [exact Hs|].
  destruct (Qltb _ _).
  - cbn [waited_world]. eapply frame_trans; [exact Hs|].
    eapply frame_trans; [|apply frame_reset_auth]. by apply frame_emit.
  - eapply frame_trans; [exact Hs|apply IH].
Qed.

(** With idle rounds only, the loop runs until the first round whose
    clock reading is past the time-out, and resets there. *)
Lemma wait_loop_times_out (start : Q) (pending : option pystr)
    (before : list Tick) (t : Tick) (after : list Tick) (w : World) :
  todoist_oauth_callback_received (self w) = false ->
  Forall (fun x => idle x /\ expired w start x = false) before ->
  idle t -> expired w start t = true ->
  exists w1,
    wait_loop start pending (before ++ t :: after) w
    = LoopLeft (reset_auth pending (emit (Print MsgTimeout) w1)) /\
    frame w w1 /\ callback_fields w1 = callback_fields w /\
    httpd (self w1) = httpd (self w).
Proof.
  intros Hflag Hbefore [Hint Hnoise] Hexp. revert w Hflag Hbefore Hexp.
  induction before as [|x before IH]; intros w Hflag Hbefore Hexp.
  - exists (serve (served t) w). cbn [app wait_loop].
    pose proof (serve_noise (served t) w Hnoise) as Hf.
    pose proof (frame_serve (served t) w) as Hfr.
    assert (Hflag' : todoist_oauth_callback_received (self (serve (served t) w)) = false).
    { unfold callback_fields in Hf. congruence. }
    unfold expired in Hexp.
    rewrite Hint, Hflag', (frame_timeout _ _ Hfr), Hexp.
    split_and!; [done|done|done|apply serve_httpd].
  - apply Forall_cons in Hbefore as [[[Hxi Hxn] Hxe] Hbefore].
    pose proof (serve_noise (served x) w Hxn) as Hf.
    pose proof (frame_serve (served x) w) as Hfr.
    assert (Hflag' : todoist_oauth_callback_received (self (serve (served x) w)) = false).
    { unfold callback_fields in Hf. congruence. }
    destruct (IH (serve (served x) w)) as (w1 & Hw & Hfr1 & Hf1 & Hh1).
    + done.
    + eapply Forall_impl; [exact Hbefore|]. intros y [Hy Hye]. split; [done|].
      unfold expired in *. by rewrite (frame_timeout _ _ Hfr).
    + unfold expired in *. by rewrite (frame_timeout _ _ Hfr).
    + exists w1. cbn [app wait_loop]. unfold expired in Hxe.
      rewrite Hxi, Hflag', (frame_timeout _ _ Hfr), Hxe.
      split_and!; [done|by eapply frame_trans|congruence|].
      by rewrite Hh1, serve_httpd.
Qed.

(** *** The paths through [authenticate] *)

Lemma frame_started (env : Env) (w : World) : frame w (started env w).
Proof.
  unfold started.
  eapply frame_trans; [|apply frame_start_local_server].
  eapply frame_trans; [|by apply frame_emit].
  eapply frame_trans; by apply frame_emit.
Qed.

Lemma started_httpd (env : Env) (w : World) :
  port_in_use w = false \/ is_Some (httpd (self w)) ->
  is_Some (httpd (self (started env w))).
Proof.
  intros [Hp|Hs].
  - unfold started. by rewrite start_local_server_bound.
  - by apply (frame_httpd _ _ (frame_started env w)).
Qed.

(** The state check is reached with the listener closed, the token
    attribute cleared, and nothing committed. *)
Lemma at_state_check_facts (fuel : nat) (env : Env) (w w1 : World) :
  at_state_check fuel env w = Some w1 ->
  frame w w1 /\ closed w1 /\ todoist_api_token (self w1) = JNull.
Proof.
  unfold at_state_check. fold (started env w).
  destruct (wait_for_httpd fuel (started env w)) eqn:Hwait; [|done]. cbn [negb].
  apply wait_for_httpd_true in Hwait.
  pose proof (frame_wait_loop (start_time env) (in_flight env) (schedule env)
                (started env w)) as Hloop.
  destruct (wait_loop _ _ _ _) as [wl| |]; try done.
  cbn [waited_world] in Hloop. intros [= <-].
  pose proof (frame_started env w) as Hst.
  pose proof (frame_shutdown_local_server (in_flight env) wl) as Hsd.
  assert (Hall : frame w (shutdown_local_server (in_flight env) wl))
    by (eapply frame_trans; [|exact Hsd]; by eapply frame_trans).
  split_and!; [done| |].
  - apply shutdown_local_server_closed. by apply (frame_httpd _ _ Hloop).
  - apply (frame_token _ _ (frame_trans _ _ _ Hloop Hsd)).
    apply start_local_server_token.
Qed.

Lemma authenticate_mismatch (fuel : nat) (env : Env) (w w1 : World) :
  at_state_check fuel env w = Some w1 ->
  py_str (todoist_response_state (self w1)) <> uuid_str (uuid4 (urandom16 env)) ->
  authenticate fuel env w =
  (shutdown_local_server (in_flight env)
     (reset_auth (in_flight env) (emit (Print MsgStateMismatch) w1)),
   Return false).
Proof.
  unfold at_state_check, authenticate. fold (started env w).
  destruct (wait_for_httpd fuel (started env w)); [|done]. cbn [negb].
  destruct (wait_loop _ _ _ _) as [wl| |]; try done.
  intros [= <-] Hne.
  destruct (pystr_eqb _ _) eqn:Heq; [|done].
  apply pystr_eqb_eq in Heq. congruence.
Qed.

Lemma authenticate_exchange (fuel : nat) (env : Env) (w w1 : World) :
  at_state_check fuel env w = Some w1 ->
  py_str (todoist_response_state (self w1)) = uuid_str (uuid4 (urandom16 env)) ->
  let client_id := todoist_api_client_id (self w1) in
  let client_secret := todoist_api_client_secret (self w1) in
  let code := todoist_response_auth_code (self w1) in
  let w2 := emit (Exchange client_id client_secret code) w1 in
  authenticate fuel env w =
  match get_auth_token env client_id client_secret code with
  | inr f => (w2, Raise (ExchangeError f))
  | inl access_token =>
      (save_access_token (write_result env)
         (with_self (set_api_token (JStr access_token)) w2), Return true)
  end.
Proof.
  unfold at_state_check, authenticate. fold (started env w).
  destruct (wait_for_httpd fuel (started env w)); [|done]. cbn [negb].
  destruct (wait_loop _ _ _ _) as [wl| |]; try done.
  intros [= <-] Heq. cbn zeta.
  apply eq_sym, pystr_eqb_eq in Heq. by rewrite Heq.
Qed.

(** When the state check is not reached, the call is still waiting, or
    was interrupted and has closed the listener. *)
Lemma authenticate_no_check (fuel : nat) (env : Env) (w : World) :
  at_state_check fuel env w = None ->
  frame w (fst (authenticate fuel env w)) /\
  (snd (authenticate fuel env w) = StartingUp \/
   snd (authenticate fuel env w) = Polling \/
   snd (authenticate fuel env w) = Raise (SystemExit 1) /\
   closed (fst (authenticate fuel env w))).
Proof.
  unfold at_state_check, authenticate. fold (started env w).
  pose proof (frame_started env w) as Hst.
  destruct (wait_for_httpd fuel (started env w)) eqn:Hwait; cbn [negb];
    [|intros _; split; [done|by left]].
  apply wait_for_httpd_true in Hwait.
  pose proof (frame_wait_loop (start_time env) (in_flight env) (schedule env)
                (started env w)) as Hloop.
  destruct (wait_loop _ _ _ _) as [wl|wl|wl]; try done; intros _;
    cbn [waited_world fst snd] in *.
  - split; [|right; right; split; [done|]].
    + eapply frame_trans; [|apply frame_shutdown_local_server].
      eapply frame_trans; [|apply frame_reset_auth].
      eapply frame_trans; [|by apply frame_emit]. by eapply frame_trans.
    + apply shutdown_local_server_closed.
      apply (frame_httpd _ _ (frame_reset_auth _ _)).
      by apply (frame_httpd _ _ Hloop).
  - split; [by eapply frame_trans|by right; left].
Qed.

(** The teardown of the mismatch branch on the closed listener. *)
Lemma mismatch_teardown (pending : option pystr) (w1 : World) :
  closed w1 ->
  let w' := shutdown_local_server pending
              (reset_auth pending (emit (Print MsgStateMismatch) w1)) in
  trace w' = trace w1 ++ [Print MsgStateMismatch; Print MsgShutDown;
                          Print MsgShutDown] /\
  callback_fields w' = (None, None, false) /\
  todoist_api_token (self w') = JNull /\
  closed w' /\ token_file w' = token_file w1 /\
  port_in_use w' = port_in_use w1.
Proof.
  intros Hc. cbn zeta.
  assert (Hr : reset_auth pending (emit (Print MsgStateMismatch) w1)
               = emit (Print MsgShutDown)
                   (with_self (set_api_token JNull)
                      (with_self (set_callback None None false)
                         (emit (Print MsgStateMismatch) w1)))).
  { unfold reset_auth. by rewrite shutdown_local_server_again. }
  rewrite Hr, shutdown_local_server_again by done.
  split_and!; try done.
  cbn. by rewrite <- !app_assoc.
Qed.

(** Time-out: with idle rounds up to one past the deadline, the state
    check is reached with nothing recorded and the time-out printed. *)
Lemma authenticate_times_out (fuel : nat) (env : Env) (w : World)
    (before : list Tick) (t : Tick) (after : list Tick) :
  0 < fuel ->
  port_in_use w = false \/ is_Some (httpd (self w)) ->
  schedule env = before ++ t :: after ->
  Forall (fun x => idle x /\ expired w (start_time env) x = false) before ->
  idle t -> expired w (start_time env) t = true ->
  harmless (in_flight env) ->
  exists w1 l1 l2,
    at_state_check fuel env w = Some w1 /\
    callback_fields w1 = (None, None, false) /\
    trace w1 = l1 ++ Print MsgTimeout :: l2.
Proof.
  intros Hfuel Hport Hsched Hbefore Ht Hexp Hharm.
  unfold at_state_check. fold (started env w).
  pose proof (frame_started env w) as Hst.
  pose proof (started_httpd env w Hport) as Hsome.
  rewrite wait_for_httpd_present by done. cbn [negb]. rewrite Hsched.
  destruct (wait_loop_times_out (start_time env) (in_flight env) before t after
              (started env w)) as (wl & -> & Hfr & Hf & Hh).
  - pose proof (start_local_server_fields
                  (emit ThreadStart
                     (emit (BrowserOpen
                              (get_authentication_url (todoist_api_client_id (self w))
                                 [py "data:read"] (uuid_str (uuid4 (urandom16 env)))))
                        (emit (Print (MsgVisitUrl
                              (get_authentication_url (todoist_api_client_id (self w))
                                 [py "data:read"] (uuid_str (uuid4 (urandom16 env))))))
                           w)))) as Hfields.
    fold (started env w) in Hfields. unfold callback_fields in Hfields. congruence.
  - eapply Forall_impl; [exact Hbefore|]. intros x [Hx Hxe]. split; [done|].
    unfold expired in *. by rewrite (frame_timeout _ _ Hst).
  - done.
  - unfold expired in *. by rewrite (frame_timeout _ _ Hst).
  - set (wr := reset_auth (in_flight env) (emit (Print MsgTimeout) wl)).
    assert (Hclosed : closed wr).
    { apply reset_auth_closed. cbn. rewrite Hh. done. }
    destruct (frame_trace _ _ (frame_reset_auth (in_flight env)
                                 (emit (Print MsgTimeout) wl)))
      as (added & Hadded & _).
    fold wr in Hadded. cbn in Hadded.
    exists (shutdown_local_server (in_flight env) wr), (trace wl),
      (added ++ [Print MsgShutDown]).
    split_and!; [done| |].
    + rewrite shutdown_local_server_fields
        by (left; by apply closed_not_accepting).
      apply reset_auth_fields. by right.
    + rewrite shutdown_local_server_again by done. cbn.
      rewrite Hadded, <- !app_assoc. done.
Qed.

(** What the commit at the end of a successful attempt leaves alone. *)
Lemma commit_facts (r : WriteResult) (tok : pystr) (e : Event) (w1 : World) :
  let w' := save_access_token r (with_self (set_api_token (JStr tok)) (emit e w1)) in
  httpd (self w') = httpd (self w1) /\ port_in_use w' = port_in_use w1 /\
  callback_fields w' = callback_fields w1.
Proof. by destruct r. Qed.

Lemma shutdown_local_server_idempotent (p p' : option pystr) (w : World) :
  let w1 := shutdown_local_server p w in
  let w2 := shutdown_local_server p' w1 in
  self w2 = self w1 /\ port_in_use w2 = port_in_use w1 /\
  token_file w2 = token_file w1.
Proof.
  cbn zeta. destruct (httpd (self w)) as [srv|] eqn:Hsrv.
  - rewrite (shutdown_local_server_again p'); [done|].
    apply shutdown_local_server_closed. by rewrite Hsrv.
  - rewrite (shutdown_local_server_absent p w Hsrv).
    by rewrite (shutdown_local_server_absent p' w Hsrv).
Qed.


(** The run of an attempt that times out. *)
Lemma authenticate_timeout_run (fuel : nat) (env : Env) (w : World)
    (before : list Tick) (t : Tick) (after : list Tick) :
  0 < fuel ->
  port_in_use w = false \/ is_Some (httpd (self w)) ->
  schedule env = before ++ t :: after ->
  Forall (fun x => idle x /\ expired w (start_time env) x = false) before ->
  idle t -> expired w (start_time env) t = true ->
  harmless (in_flight env) ->
  let r := authenticate fuel env w in
  snd r = Return false /\
  (exists l1 l2, trace (fst r) =
     l1 ++ Print MsgTimeout :: l2 ++ [Print MsgStateMismatch; Print MsgShutDown;
                                      Print MsgShutDown]) /\
  callback_fields (fst r) = (None, None, false) /\
  closed (fst r) /\
  count_events is_exchange (trace (fst r)) = count_events is_exchange (trace w) /\
  token_file (fst r) = token_file w.
Proof.
  intros Hfuel Hport Hsched Hbefore Ht Hexp Hharm. cbn zeta.
  destruct (authenticate_times_out fuel env w before t after)
    as (w1 & l1 & l2 & Hcheck & Hfields & Htrace); try done.
  assert (Hne : py_str (todoist_response_state (self w1))
                <> uuid_str (uuid4 (urandom16 env))).
  { injection Hfields as _ -> _. apply not_eq_sym, uuid_str_not_None. }
  destruct (at_state_check_facts _ _ _ _ Hcheck) as (Hfr & Hclosed & _).
  destruct (mismatch_teardown (in_flight env) w1 Hclosed)
    as (Htr & Hf & _ & Hc & Hfile & _).
  rewrite (authenticate_mismatch _ _ _ _ Hcheck Hne). cbn [fst snd].
  split_and!; try done.
  - exists l1, l2. by rewrite Htr, Htrace, <- app_assoc.
  - rewrite Htr, count_events_app. cbn. rewrite Nat.add_0_r.
    by apply frame_exchanges.
  - rewrite Hfile. apply (frame_file _ _ Hfr).
Qed.


(** ** The claims about the hand-shake *)

(** C1. When the state recorded from the callback differs from the state
    generated for the attempt, [authenticate] takes its state-mismatch
    branch: it prints the mismatch, returns [False], clears the recorded
    code and state, the flag and the token attribute, and the token
    endpoint is not called. *)
Theorem authenticate_state_mismatch (fuel : nat) (env : Env) (w w1 : World) :
  at_state_check fuel env w = Some w1 ->
  py_str (todoist_response_state (self w1)) <> uuid_str (uuid4 (urandom16 env)) ->
  let r := authenticate fuel env w in
  snd r = Return false /\
  trace (fst r) = trace w1 ++ [Print MsgStateMismatch; Print MsgShutDown;
                               Print MsgShutDown] /\
  callback_fields (fst r) = (None, None, false) /\
  todoist_api_token (self (fst r)) = JNull /\
  count_events is_exchange (trace (fst r)) = count_events is_exchange (trace w).
Proof.
  intros Hcheck Hne. cbn zeta.
  rewrite (authenticate_mismatch _ _ _ _ Hcheck Hne). cbn [fst snd].
  destruct (at_state_check_facts _ _ _ _ Hcheck) as (Hfr & Hclosed & _).
  destruct (mismatch_teardown (in_flight env) w1 Hclosed)
    as (Htr & Hf & Htok & _).
  split_and!; try done.
  rewrite Htr, count_events_app. cbn. rewrite Nat.add_0_r.
  by apply frame_exchanges.
Qed.

(** C2, as the code has it. When no callback is recorded before the clock
    passes the time-out, [authenticate] prints the time-out, stops and
    closes the listener, clears the recorded code and state, exchanges
    and writes nothing, and returns [False]: the one failure value of
    the script, which a state mismatch returns as well. *)
Theorem authenticate_timeout_returns_false (fuel : nat) (env : Env) (w : World)
    (before : list Tick) (t : Tick) (after : list Tick) :
  0 < fuel ->
  port_in_use w = false \/ is_Some (httpd (self w)) ->
  schedule env = before ++ t :: after ->
  Forall (fun x => idle x /\ expired w (start_time env) x = false) before ->
  idle t -> expired w (start_time env) t = true ->
  harmless (in_flight env) ->
  let r := authenticate fuel env w in
  snd r = Return false /\
  In (Print MsgTimeout) (trace (fst r)) /\
  callback_fields (fst r) = (None, None, false) /\
  closed (fst r) /\
  count_events is_exchange (trace (fst r)) = count_events is_exchange (trace w) /\
  token_file (fst r) = token_file w.
Proof.
  intros Hfuel Hport Hsched Hbefore Ht Hexp Hharm. cbn zeta.
  destruct (authenticate_timeout_run fuel env w before t after)
    as (Hret & (l1 & l2 & Htr) & Hrest); try done.
  split_and!; try done; try apply Hrest.
  rewrite Htr. apply in_or_app. right. by left.
Qed.



(** C5. When the state check has passed and the exchange fails, the
    failure leaves [authenticate] as an exception carrying its kind; the
    token attribute stays cleared, and the token file is neither changed
    nor written. *)
Theorem authenticate_exchange_failure (fuel : nat) (env : Env) (w w1 : World)
    (f : ExchangeFailure) :
  at_state_check fuel env w = Some w1 ->
  py_str (todoist_response_state (self w1)) = uuid_str (uuid4 (urandom16 env)) ->
  get_auth_token env (todoist_api_client_id (self w1))
    (todoist_api_client_secret (self w1))
    (todoist_response_auth_code (self w1)) = inr f ->
  let r := authenticate fuel env w in
  snd r = Raise (ExchangeError f) /\
  todoist_api_token (self (fst r)) = JNull /\
  token_file (fst r) = token_file w /\
  count_events is_file_write (trace (fst r))
  = count_events is_file_write (trace w).
Proof.
  intros Hcheck Heq Hx. cbn zeta.
  pose proof (authenticate_exchange _ _ _ _ Hcheck Heq) as Hauth.
  cbn zeta in Hauth. rewrite Hx in Hauth. rewrite Hauth. cbn [fst snd].
  destruct (at_state_check_facts _ _ _ _ Hcheck) as (Hfr & _ & Htok).
  split_and!; try done.
  - apply (frame_file _ _ Hfr).
  - cbn [emit trace]. rewrite count_events_app. cbn. rewrite Nat.add_0_r.
    by apply frame_file_writes.
Qed.

(** The recorded pair after a series of requests is that of the last
    complete callback among them. *)
Lemma serve_last_delivering (before : list pystr) (path : pystr)
    (after : list pystr) (c s : pystr) (w : World) :
  accepting w = true ->
  delivers path = Some (c, s) ->
  Forall (fun p => delivers p = None) after ->
  callback_fields (serve (before ++ path :: after) w) = (Some c, Some s, true).
Proof.
  intros Hacc Hd Hafter. rewrite serve_app. cbn [serve fold_left].
  fold (serve after (handle_request path (serve before w))).
  rewrite serve_noise by done.
  apply handle_request_delivers; [|done]. by rewrite accepting_serve.
Qed.

(** Among requests of which one is complete there is a last complete
    one. *)
Lemma last_delivering (paths : list pystr) :
  Exists (fun p => delivers p <> None) paths ->
  exists a p c s b,
    paths = a ++ p :: b /\ delivers p = Some (c, s) /\
    Forall (fun q => delivers q = None) b.
Proof.
  induction paths as [|x l IH]; intros Hex; [by apply Exists_nil in Hex|].
  destruct (decide (Exists (fun p => delivers p <> None) l)) as [Hl|Hl].
  - destruct (IH Hl) as (a & p & c & s & b & -> & Hp & Hb).
    by exists (x :: a), p, c, s, b.
  - apply Exists_cons in Hex as [Hx|Hex]; [|done].
    destruct (delivers x) as [[c s]|] eqn:Hd; [|done].
    exists [], x, c, s, l. split_and!; [done..|].
    apply Forall_forall. intros q Hq.
    destruct (delivers q) eqn:Hdq; [|done].
    exfalso. apply Hl, Exists_exists. exists q. split; [done|congruence].
Qed.

(** A running listener handles the request that [httpd.shutdown()]
    catches before it stops. *)
Lemma shutdown_local_server_serves (pending : option pystr) (w : World) :
  accepting w = true ->
  callback_fields (shutdown_local_server pending w)
  = callback_fields (serve (option_list pending) w).
Proof.
  unfold accepting, shutdown_local_server.
  destruct (httpd (self w)) as [srv|]; [|done]. intros ->.
  by destruct pending.
Qed.

(** Rounds in which nothing is recorded and the clock has not passed
    the time-out lead to the round [t]; the loop is left there when the
    requests of that round have set the flag. *)
Lemma wait_loop_flag (start : Q) (pending : option pystr)
    (before : list Tick) (t : Tick) (after : list Tick) (w : World) :
  todoist_oauth_callback_received (self w) = false ->
  Forall (fun x => idle x /\ expired w start x = false) before ->
  interrupt t = false ->
  exists w0,
    frame w w0 /\ callback_fields w0 = callback_fields w /\
    httpd (self w0) = httpd (self w) /\
    (todoist_oauth_callback_received (self (serve (served t) w0)) = true ->
     wait_loop start pending (before ++ t :: after) w
     = LoopLeft (serve (served t) w0)).
Proof.
  intros Hflag Hbefore Hint. revert w Hflag Hbefore.
  induction before as [|x before IH]; intros w Hflag Hbefore.
  - exists w. split_and!; [apply frame_refl|done|done|].
    intros Hset. cbn [app wait_loop]. by rewrite Hint, Hset.
  - apply Forall_cons in Hbefore as [[[Hxi Hxn] Hxe] Hbefore].
    pose proof (serve_noise (served x) w Hxn) as Hf.
    pose proof (frame_serve (served x) w) as Hfr.
    assert (Hflag' : todoist_oauth_callback_received (self (serve (served x) w)) = false).
    { unfold callback_fields in Hf. congruence. }
    destruct (IH (serve (served x) w)) as (w0 & Hfr0 & Hf0 & Hh0 & Hloop).
    + done.
    + eapply Forall_impl; [exact Hbefore|]. intros y [Hy Hye]. split; [done|].
      unfold expired in *. by rewrite (frame_timeout _ _ Hfr).
    + exists w0. split_and!; [by eapply frame_trans|congruence|
                              by rewrite Hh0, serve_httpd|].
      intros Hset. cbn [app wait_loop]. unfold expired in Hxe.
      rewrite Hxi, Hflag', (frame_timeout _ _ Hfr), Hxe. by apply Hloop.
Qed.

(** The state check after a round in which complete callbacks were
    served: the recorded pair is that of the last complete callback
    among the requests of that round and the one [httpd.shutdown()]
    catches. *)
Lemma at_state_check_last_callback (fuel : nat) (env : Env) (w : World)
    (before : list Tick) (t : Tick) (after : list Tick)
    (pre : list pystr) (path : pystr) (post : list pystr) (c s : pystr) :
  0 < fuel ->
  port_in_use w = false ->
  schedule env = before ++ t :: after ->
  Forall (fun x => idle x /\ expired w (start_time env) x = false) before ->
  interrupt t = false ->
  Exists (fun p => delivers p <> None) (served t) ->
  served t ++ option_list (in_flight env) = pre ++ path :: post ->
  delivers path = Some (c, s) ->
  Forall (fun p => delivers p = None) post ->
  exists w1,
    at_state_check fuel env w = Some w1 /\
    callback_fields w1 = (Some c, Some s, true).
Proof.
  intros Hfuel Hport Hsched Hbefore Hint Hex Hsplit Hd Hpost.
  unfold at_state_check. fold (started env w).
  pose proof (frame_started env w) as Hst.
  assert (Hbound : httpd (self (started env w)) = Some (mkServer true true)).
  { unfold started. by apply start_local_server_bound. }
  rewrite wait_for_httpd_present by (by rewrite ?Hbound). cbn [negb].
  rewrite Hsched.
  destruct (wait_loop_flag (start_time env) (in_flight env) before t after
              (started env w)) as (w0 & Hfr0 & Hf0 & Hh0 & Hloop).
  - pose proof (start_local_server_fields
                  (emit ThreadStart
                     (emit (BrowserOpen
                              (get_authentication_url (todoist_api_client_id (self w))
                                 [py "data:read"] (uuid_str (uuid4 (urandom16 env)))))
                        (emit (Print (MsgVisitUrl
                              (get_authentication_url (todoist_api_client_id (self w))
                                 [py "data:read"] (uuid_str (uuid4 (urandom16 env))))))
                           w)))) as Hfields.
    fold (started env w) in Hfields. unfold callback_fields in Hfields. congruence.
  - eapply Forall_impl; [exact Hbefore|]. intros x [Hx Hxe]. split; [done|].
    unfold expired in *. by rewrite (frame_timeout _ _ Hst).
  - done.
  - assert (Hacc0 : accepting w0 = true).
    { unfold accepting. by rewrite Hh0, Hbound. }
    destruct (last_delivering _ Hex) as (a & p & c' & s' & b & Ht & Hp & Hb).
    rewrite Hloop.
    + eexists. split; [reflexivity|].
      rewrite shutdown_local_server_serves by (by rewrite accepting_serve).
      rewrite <- serve_app, Hsplit. by apply serve_last_delivering.
    + pose proof (serve_last_delivering a p b c' s' w0 Hacc0 Hp Hb) as Hf.
      rewrite <- Ht in Hf. unfold callback_fields in Hf. congruence.
Qed.

(** C6, as the code has it. The handler has no one-shot guard: every
    complete callback reaching the running listener overwrites the
    recorded code and state and leaves the listener running. It is the
    caller that stops the listener, after its wait loop has seen the
    flag. So when complete callbacks are served in a round of the wait
    loop, the pair [authenticate] meets at its state check, with the
    listener closed, is that of the last complete callback served up to
    the shutdown (the one [httpd.shutdown()] catches included): its
    state is the one compared, and its code is the one sent to the token
    endpoint. *)
Theorem last_complete_callback_wins (fuel : nat) (env : Env) (w : World)
    (before : list Tick) (t : Tick) (after : list Tick)
    (pre : list pystr) (path : pystr) (post : list pystr) (c s : pystr) :
  0 < fuel ->
  port_in_use w = false ->
  schedule env = before ++ t :: after ->
  Forall (fun x => idle x /\ expired w (start_time env) x = false) before ->
  interrupt t = false ->
  Exists (fun p => delivers p <> None) (served t) ->
  served t ++ option_list (in_flight env) = pre ++ path :: post ->
  delivers path = Some (c, s) ->
  Forall (fun p => delivers p = None) post ->
  let r := authenticate fuel env w in
  let client_id := todoist_api_client_id (self w) in
  let client_secret := todoist_api_client_secret (self w) in
  (forall w', accepting w' = true ->
     callback_fields (serve (pre ++ path :: post) w') = (Some c, Some s, true) /\
     accepting (serve (pre ++ path :: post) w') = true) /\
  (exists w1,
     at_state_check fuel env w = Some w1 /\
     callback_fields w1 = (Some c, Some s, true) /\
     closed w1 /\ accepting w1 = false) /\
  (s <> uuid_str (uuid4 (urandom16 env)) ->
   snd r = Return false /\
   count_events is_exchange (trace (fst r))
   = count_events is_exchange (trace w)) /\
  (s = uuid_str (uuid4 (urandom16 env)) ->
   In (Exchange client_id client_secret (Some c)) (trace (fst r)) /\
   count_events is_exchange (trace (fst r))
   = S (count_events is_exchange (trace w)) /\
   snd r = match get_auth_token env client_id client_secret (Some c) with
           | inl _ => Return true
           | inr f => Raise (ExchangeError f)
           end /\
   (forall tok, get_auth_token env client_id client_secret (Some c) = inl tok ->
      todoist_api_token (self (fst r)) = JStr tok)).
Proof.
  intros Hfuel Hport Hsched Hbefore Hint Hex Hsplit Hd Hpost. cbn zeta.
  destruct (at_state_check_last_callback fuel env w before t after pre path post
              c s) as (w1 & Hcheck & Hfields); try done.
  destruct (at_state_check_facts _ _ _ _ Hcheck) as (Hfr & Hclosed & Htok).
  assert (Hcode : todoist_response_auth_code (self w1) = Some c)
    by (unfold callback_fields in Hfields; congruence).
  assert (Hstate : py_str (todoist_response_state (self w1)) = s).
  { unfold callback_fields in Hfields.
    by replace (todoist_response_state (self w1)) with (Some s) by congruence. }
  split_and!.
  - intros w' Hacc. split; [by apply serve_last_delivering|].
    by rewrite accepting_serve.
  - exists w1. split_and!; [done..|by apply closed_not_accepting].
  - intros Hne.
    rewrite (authenticate_mismatch _ _ _ _ Hcheck) by (by rewrite Hstate).
    cbn [fst snd]. split; [done|].
    apply frame_exchanges. eapply frame_trans; [exact Hfr|].
    eapply frame_trans; [by apply (frame_emit (Print MsgStateMismatch))|].
    eapply frame_trans; [apply frame_reset_auth|apply frame_shutdown_local_server].
  - intros Heq.
    pose proof (authenticate_exchange _ _ _ _ Hcheck) as Hauth.
    rewrite Hstate in Hauth. specialize (Hauth Heq). cbn zeta in Hauth.
    rewrite Hcode, (frame_client_id _ _ Hfr), (frame_client_secret _ _ Hfr)
      in Hauth.
    rewrite Hauth. pose proof (frame_exchanges _ _ Hfr) as Hcount.
    destruct (get_auth_token env _ _ (Some c)) as [tok|f]; cbn [fst snd].
    + destruct (write_result env);
        cbn [save_access_token emit with_self with_token_file trace self
             set_api_token todoist_api_token];
        rewrite ?in_app_iff, !count_events_app; cbn [In];
        (split_and!; [tauto|cbn; lia|done|by intros ? [= ->]]).
    + cbn [emit trace]. rewrite in_app_iff, count_events_app. cbn [In].
      split_and!; [tauto|cbn; lia|done|done].
Qed.

(** C7. When the token file holds a dictionary whose access token is a
    true value, [main] ends up with that token in the object without a
    single call of [authenticate]: the browser is not opened, no listener
    thread is started, nothing is bound, nothing is exchanged, and the
    file is left as it was. *)
Theorem stored_token_skips_authentication (fuel : nat) (p : Process)
    (env_init env_main : Env) (port_busy : bool)
    (entries : list (pystr * json)) :
  truthy (dict_get entries (py "access_token")) = true ->
  let r := main fuel p env_init env_main port_busy
             (Some (Parsed (JDict entries))) in
  snd r = Return tt /\
  todoist_api_token (self (fst r)) = dict_get entries (py "access_token") /\
  count_events is_browser_open (trace (fst r)) = 0 /\
  count_events is_thread_start (trace (fst r)) = 0 /\
  count_events is_bind (trace (fst r)) = 0 /\
  count_events is_exchange (trace (fst r)) = 0 /\
  httpd (self (fst r)) = None /\
  token_file (fst r) = Some (Parsed (JDict entries)).
Proof.
  intros Htok. cbn zeta.
  unfold main, __init__, load_access_token, configure. cbn [token_file].
  destruct (dotenv_raises p);
    repeat (cbn [with_self emit self set_api_token set_config todoist_api_token];
            rewrite ?Htok; cbn [negb]);
    destruct (slice5 (dict_get entries (py "access_token"))); done.
Qed.

(** C8 (the code against the claim). With the port taken by another
    process and no [httpd] attribute from an earlier attempt, the bind
    raises [OSError] inside the listener thread, which dies; the caller
    is never told and stays in its start-up wait whatever the fuel. *)
Theorem bind_failure_never_returns (fuel : nat) (env : Env) (w : World) :
  port_in_use w = true ->
  httpd (self w) = None ->
  snd (authenticate fuel env w) = StartingUp /\
  exists log,
    trace (fst (authenticate fuel env w))
    = log ++ [Bind false; ThreadDied OSError].
Proof.
  intros Hport Hnone. unfold authenticate. fold (started env w).
  assert (Hst : httpd (self (started env w)) = None).
  { unfold started. rewrite start_local_server_busy by done. cbn. by rewrite Hnone. }
  rewrite (wait_for_httpd_absent fuel _ Hst). cbn [negb fst snd].
  split; [done|].
  unfold started, start_local_server, port_free.
  rewrite (frame_port _ _ (frame_reset_auth None _)). cbn [emit port_in_use].
  rewrite Hport. cbn. rewrite <- app_assoc. by eexists.
Qed.

(** Whenever [authenticate] ends, by returning or by raising, the
    listener has been shut down and its socket closed. *)
Lemma authenticate_exit_closed (fuel : nat) (env : Env) (w : World) :
  (exists b, snd (authenticate fuel env w) = Return b) \/
  (exists e, snd (authenticate fuel env w) = Raise e) ->
  closed (fst (authenticate fuel env w)) /\
  port_in_use (fst (authenticate fuel env w)) = port_in_use w.
Proof.
  intros Hends.
  destruct (at_state_check fuel env w) as [w1|] eqn:Hcheck.
  - destruct (at_state_check_facts _ _ _ _ Hcheck) as (Hfr & Hclosed & _).
    destruct (decide (py_str (todoist_response_state (self w1))
                      = uuid_str (uuid4 (urandom16 env)))) as [Heq|Hne].
    + pose proof (authenticate_exchange _ _ _ _ Hcheck Heq) as Hauth.
      cbn zeta in Hauth. rewrite Hauth.
      destruct (get_auth_token env _ _ _) as [tok|f]; cbn [fst snd].
      * destruct (commit_facts (write_result env) tok
                    (Exchange (todoist_api_client_id (self w1))
                       (todoist_api_client_secret (self w1))
                       (todoist_response_auth_code (self w1))) w1)
          as (Hh & Hp & _).
        unfold closed. rewrite Hh, Hp. split; [done|apply (frame_port _ _ Hfr)].
      * split; [done|apply (frame_port _ _ Hfr)].
    + rewrite (authenticate_mismatch _ _ _ _ Hcheck Hne). cbn [fst snd].
      destruct (mismatch_teardown (in_flight env) w1 Hclosed)
        as (_ & _ & _ & Hc & _ & Hp).
      split; [done|]. rewrite Hp. apply (frame_port _ _ Hfr).
  - destruct (authenticate_no_check _ _ _ Hcheck) as (Hfr & Hout).
    split; [|apply (frame_port _ _ Hfr)].
    destruct Hout as [Hout|[Hout|[_ Hc]]]; [| |done];
      rewrite Hout in Hends; by destruct Hends as [[]|[]].
Qed.

(** Without a Ctrl-C outside the [try] block the call is
    [authenticate]. *)
Lemma authenticate_struck_NoStrike (fuel : nat) (env : Env) (w : World) :
  authenticate_struck NoStrike fuel env w = authenticate fuel env w.
Proof. reflexivity. Qed.

(** A Ctrl-C in the start-up wait ends the call where the listener
    thread's start-up has left the object. *)
Lemma authenticate_struck_startup (fuel : nat) (env : Env) (w : World) :
  authenticate_struck InStartup fuel env w
  = (started env w, Raise KeyboardInterrupt).
Proof. reflexivity. Qed.

(** A Ctrl-C that would come in the exchange or in the write does not
    come when the call does not get there. *)
Lemma authenticate_struck_unchecked (s : Strike) (fuel : nat) (env : Env)
    (w : World) :
  s <> InStartup -> at_state_check fuel env w = None ->
  authenticate_struck s fuel env w = authenticate fuel env w.
Proof.
  intros Hs. unfold at_state_check, authenticate_struck, authenticate.
  fold (started env w).
  destruct s; try done;
    (destruct (wait_for_httpd fuel (started env w)); [|done]; cbn [negb];
     by destruct (wait_loop _ _ _ _)).
Qed.

Lemma authenticate_struck_mismatch (s : Strike) (fuel : nat) (env : Env)
    (w w1 : World) :
  s <> InStartup -> at_state_check fuel env w = Some w1 ->
  py_str (todoist_response_state (self w1)) <> uuid_str (uuid4 (urandom16 env)) ->
  authenticate_struck s fuel env w = authenticate fuel env w.
Proof.
  intros Hs. unfold at_state_check, authenticate_struck, authenticate.
  fold (started env w).
  destruct s; try done;
    (destruct (wait_for_httpd fuel (started env w)); [|done]; cbn [negb];
     destruct (wait_loop _ _ _ _) as [wl| |]; try done;
     intros [= <-] Hne;
     destruct (pystr_eqb _ _) eqn:Heq; [|done];
     apply pystr_eqb_eq in Heq; congruence).
Qed.

(** Past the state check, the Ctrl-C comes after the call of the token
    endpoint has begun, or after the token has been assigned and the
    file opened. *)
Lemma authenticate_struck_exchange (fuel : nat) (env : Env) (w w1 : World) :
  at_state_check fuel env w = Some w1 ->
  py_str (todoist_response_state (self w1)) = uuid_str (uuid4 (urandom16 env)) ->
  let client_id := todoist_api_client_id (self w1) in
  let client_secret := todoist_api_client_secret (self w1) in
  let code := todoist_response_auth_code (self w1) in
  let w2 := emit (Exchange client_id client_secret code) w1 in
  authenticate_struck InExchange fuel env w = (w2, Raise KeyboardInterrupt) /\
  authenticate_struck InSave fuel env w =
  match get_auth_token env client_id client_secret code with
  | inr f => (w2, Raise (ExchangeError f))
  | inl access_token =>
      (with_token_file (Some Unreadable)
         (with_self (set_api_token (JStr access_token)) w2),
       Raise KeyboardInterrupt)
  end.
Proof.
  unfold at_state_check, authenticate_struck. fold (started env w).
  destruct (wait_for_httpd fuel (started env w)); [|done]. cbn [negb].
  destruct (wait_loop _ _ _ _) as [wl| |]; try done.
  intros [= <-] Heq. cbn zeta.
  apply eq_sym, pystr_eqb_eq in Heq. by rewrite Heq.
Qed.

(** Every exit but the one through a Ctrl-C in the start-up wait comes
    after a shutdown of the listener. *)
Lemma authenticate_struck_exit_closed (s : Strike) (fuel : nat) (env : Env)
    (w : World) :
  s <> InStartup ->
  (exists b, snd (authenticate_struck s fuel env w) = Return b) \/
  (exists e, snd (authenticate_struck s fuel env w) = Raise e) ->
  closed (fst (authenticate_struck s fuel env w)) /\
  port_in_use (fst (authenticate_struck s fuel env w)) = port_in_use w.
Proof.
  intros Hs.
  destruct (at_state_check fuel env w) as [w1|] eqn:Hcheck;
    [|rewrite authenticate_struck_unchecked by done;
      apply authenticate_exit_closed].
  destruct (decide (py_str (todoist_response_state (self w1))
                    = uuid_str (uuid4 (urandom16 env)))) as [Heq|Hne];
    [|rewrite (authenticate_struck_mismatch s _ _ _ w1) by done;
      apply authenticate_exit_closed].
  destruct (at_state_check_facts _ _ _ _ Hcheck) as (Hfr & Hclosed & _).
  destruct (authenticate_struck_exchange _ _ _ _ Hcheck Heq) as [Hx Hsv].
  cbn zeta in Hx, Hsv.
  destruct s; try done; intros Hends.
  - by apply authenticate_exit_closed.
  - rewrite Hx. cbn [fst]. split; [done|apply (frame_port _ _ Hfr)].
  - rewrite Hsv. destruct (get_auth_token env _ _ _) as [tok|f]; cbn [fst];
      (split; [done|apply (frame_port _ _ Hfr)]).
Qed.

(** C9 (the code against the claim). The [try] block whose handler shuts
    the listener down begins after the start-up wait. A Ctrl-C in that
    wait leaves [authenticate] as a [KeyboardInterrupt] with the
    listener thread running and, when the port was free, its socket
    bound and serving. Every other exit, by returning or by raising (the
    exchange failure, [SystemExit] after a Ctrl-C in the wait loop, a
    Ctrl-C in the exchange or in the write), comes after a shutdown: the
    socket is closed, and the next start-up binds the port again unless
    another process holds it. Shutting down twice leaves the object, the
    port and the file as shutting down once does. *)
Theorem startup_interrupt_leaves_listener_bound (s : Strike) (fuel : nat)
    (env : Env) (w : World) :
  let r := authenticate_struck s fuel env w in
  (s = InStartup ->
   snd r = Raise KeyboardInterrupt /\
   (port_in_use w = false ->
    httpd (self (fst r)) = Some (mkServer true true) /\
    listening (fst r) = true /\ accepting (fst r) = true /\
    port_free (fst r) = false)) /\
  (s <> InStartup ->
   (exists b, snd r = Return b) \/ (exists e, snd r = Raise e) ->
   closed (fst r) /\ listening (fst r) = false /\ accepting (fst r) = false /\
   port_free (fst r) = negb (port_in_use w) /\
   (port_in_use w = false ->
    httpd (self (start_local_server (fst r))) = Some (mkServer true true))) /\
  (forall p p' w0,
     let w1 := shutdown_local_server p w0 in
     let w2 := shutdown_local_server p' w1 in
     self w2 = self w1 /\ port_in_use w2 = port_in_use w1 /\
     token_file w2 = token_file w1).
Proof.
  cbn zeta. split_and!; [| |apply shutdown_local_server_idempotent].
  - intros ->. rewrite authenticate_struck_startup. cbn [fst snd].
    split; [done|]. intros Hfree.
    assert (Hbound : httpd (self (started env w)) = Some (mkServer true true)).
    { unfold started. by apply start_local_server_bound. }
    unfold port_free, listening, accepting. rewrite Hbound. cbn.
    split_and!; try done. apply andb_false_r.
  - intros Hs Hends.
    destruct (authenticate_struck_exit_closed s fuel env w Hs Hends) as [Hc Hp].
    pose proof (closed_not_listening _ Hc) as Hl.
    split_and!; try done.
    + by apply closed_not_accepting.
    + unfold port_free. by rewrite Hl, Hp, andb_true_r.
    + intros Hfree. apply start_local_server_bound. by rewrite Hp.
Qed.

End AuthFacts.

(** ** The claims on concrete runs *)

Lemma authenticate_state_mismatch_witness :
  snd (authenticate 1 env_mismatch demo_world) = Return false /\
  count_events is_exchange (trace (fst (authenticate 1 env_mismatch demo_world))) = 0.
Proof.
  refine (match authenticate_state_mismatch 1 env_mismatch demo_world _ _ _
          with conj Hret (conj _ (conj _ (conj _ Hex))) => conj Hret Hex end).
  - vm_compute. reflexivity.
  - vm_compute. discriminate.
Defined.

Lemma authenticate_timeout_returns_false_witness :
  snd (authenticate 1 env_timeout demo_world) = Return false /\
  closed (fst (authenticate 1 env_timeout demo_world)) /\
  token_file (fst (authenticate 1 env_timeout demo_world)) = None.
Proof.
  refine (match authenticate_timeout_returns_false 1 env_timeout demo_world
                  [mkTick [] false 1; mkTick [] false 30] (mkTick [] false 61) []
                  _ _ _ _ _ _ _
          with conj Hret (conj _ (conj _ (conj Hc (conj _ Hfile)))) =>
            conj Hret (conj Hc Hfile)
          end).
  - lia.
  - left. reflexivity.
  - reflexivity.
  - repeat constructor.
  - repeat constructor.
  - vm_compute. reflexivity.
  - intros path Hp. discriminate Hp.
Defined.

(** Counterexample for C2: an attempt in which nothing at all arrives and
    the clock passes the time-out returns exactly what the attempt with
    the forged state returns, and reports a state mismatch in its log. *)
Lemma timeout_returned_as_state_mismatch :
  let timed_out := authenticate 1 env_timeout demo_world in
  let mismatched := authenticate 1 env_mismatch demo_world in
  count_events is_stored (trace (fst timed_out)) = 0 /\
  In (Print MsgTimeout) (trace (fst timed_out)) /\
  snd timed_out = snd mismatched /\
  In (Print MsgStateMismatch) (trace (fst timed_out)).
Proof.
  vm_compute. split_and!; [reflexivity| |reflexivity|]; tauto.
Qed.



Lemma authenticate_exchange_failure_witness :
  snd (authenticate 1 env_offline demo_world) = Raise (ExchangeError NetworkError) /\
  todoist_api_token (self (fst (authenticate 1 env_offline demo_world))) = JNull /\
  token_file (fst (authenticate 1 env_offline demo_world)) = None.
Proof.
  refine (match authenticate_exchange_failure 1 env_offline demo_world _
                  NetworkError _ _ _
          with conj Hret (conj Htok (conj Hfile _)) =>
            conj Hret (conj Htok Hfile)
          end).
  - vm_compute. reflexivity.
  - vm_compute. reflexivity.
  - reflexivity.
Defined.

Lemma last_complete_callback_wins_witness :
  (exists w1,
     at_state_check 1 env_two_callbacks demo_world = Some w1 /\
     callback_fields w1 = (Some (py "second"), Some demo_state, true) /\
     closed w1) /\
  In (Exchange None None (Some (py "second")))
    (trace (fst (authenticate 1 env_two_callbacks demo_world))) /\
  todoist_api_token (self (fst (authenticate 1 env_two_callbacks demo_world)))
  = JStr (py "tok_second").
Proof.
  refine (match last_complete_callback_wins 1 env_two_callbacks demo_world
                  [] (mkTick [callback_request (py "first") demo_state;
                              callback_request (py "second") demo_state]
                        false (1 # 2)) []
                  [callback_request (py "first") demo_state]
                  (callback_request (py "second") demo_state) []
                  (py "second") demo_state _ _ _ _ _ _ _ _ _
          with
          | conj _ (conj (ex_intro _ w1 (conj Hcheck (conj Hfields (conj Hc _))))
                      (conj _ Hsame)) =>
              match Hsame eq_refl with
              | conj Hin (conj _ (conj _ Htok)) =>
                  conj (ex_intro _ w1 (conj Hcheck (conj Hfields Hc)))
                       (conj Hin (Htok (py "tok_second") _))
              end
          end).
  - lia.
  - reflexivity.
  - reflexivity.
  - constructor.
  - reflexivity.
  - apply Exists_cons_hd. vm_compute. discriminate.
  - reflexivity.
  - vm_compute. reflexivity.
  - constructor.
  - reflexivity.
Defined.

(** Counterexample for C6: two complete callbacks reach the listener
    before the caller reads the flag again. Both are answered and
    recorded, and the code sent to the token endpoint is the second
    one's. *)
Lemma second_callback_replaces_first :
  let r := authenticate 1 env_two_callbacks demo_world in
  count_events is_stored (trace (fst r)) = 2 /\
  List.filter is_exchange (trace (fst r))
  = [Exchange None None (Some (py "second"))] /\
  snd r = Return true /\
  todoist_api_token (self (fst r)) = JStr (py "tok_second").
Proof. vm_compute. done. Qed.

Lemma stored_token_skips_authentication_witness :
  todoist_api_token
    (self (fst (main 1 no_process env_timeout env_timeout false
                  (Some (Parsed (JDict saved_entries))))))
  = JStr (py "tok_saved") /\
  count_events is_browser_open
    (trace (fst (main 1 no_process env_timeout env_timeout false
                   (Some (Parsed (JDict saved_entries)))))) = 0.
Proof.
  refine (match stored_token_skips_authentication 1 no_process env_timeout
                  env_timeout false saved_entries _
          with conj _ (conj Htok (conj Hbrowser _)) => conj Htok Hbrowser end).
  reflexivity.
Defined.

Lemma bind_failure_never_returns_witness :
  snd (authenticate 1000 env_success busy_world) = StartingUp.
Proof.
  refine (proj1 (bind_failure_never_returns 1000 env_success busy_world _ _));
    reflexivity.
Defined.

(** C9 at the failing input: a Ctrl-C in the start-up wait of an attempt
    on a fresh object with the port free. The same attempt interrupted
    in its wait loop, or in the exchange, ends with the listener
    closed. *)
Lemma startup_interrupt_leaves_listener_bound_witness :
  snd (authenticate_struck InStartup 1 env_success demo_world)
  = Raise KeyboardInterrupt /\
  listening (fst (authenticate_struck InStartup 1 env_success demo_world)) = true /\
  accepting (fst (authenticate_struck InStartup 1 env_success demo_world)) = true /\
  closed (fst (authenticate_struck NoStrike 1 env_interrupt demo_world)) /\
  closed (fst (authenticate_struck InExchange 1 env_success demo_world)).
Proof.
  refine (match proj1 (startup_interrupt_leaves_listener_bound InStartup 1
                         env_success demo_world) eq_refl with
          | conj Hraise Hbound =>
              match Hbound eq_refl with
              | conj _ (conj Hl (conj Ha _)) =>
                  conj Hraise (conj Hl (conj Ha (conj _ _)))
              end
          end).
  - refine (proj1 (proj1 (proj2 (startup_interrupt_leaves_listener_bound
                                   NoStrike 1 env_interrupt demo_world)) _ _)).
    + discriminate.
    + right. eexists. vm_compute. reflexivity.
  - refine (proj1 (proj1 (proj2 (startup_interrupt_leaves_listener_bound
                                   InExchange 1 env_success demo_world)) _ _)).
    + discriminate.
    + right. eexists. vm_compute. reflexivity.
Defined.

Lemma truncate_data_to_limit_longest_prefix_witness :
  (serialized_size
     (truncate_data_to_limit
        [task (py "Buy milk") 1 (py "today") (py "# Home");
         task (py "Call the bank") 2 (py "1d ago") (py "#NoProject")] 100)
   <= 100)%Z.
Proof.
  refine (proj1 (proj2 (truncate_data_to_limit_longest_prefix
                          [task (py "Buy milk") 1 (py "today") (py "# Home");
                           task (py "Call the bank") 2 (py "1d ago")
                             (py "#NoProject")] 100)) _).
  vm_compute. discriminate.
Defined.

(** * Further properties of the hand-shake *)

Lemma grows_locally_refl (w : World) : grows_locally w w.
Proof. exists []. by rewrite app_nil_r. Qed.

Lemma grows_locally_trans (w1 w2 w3 : World) :
  grows_locally w1 w2 -> grows_locally w2 w3 -> grows_locally w1 w3.
Proof.
  intros (a1 & Ha1 & Hl1) (a2 & Ha2 & Hl2).
  exists (a1 ++ a2). rewrite Ha2, Ha1, <- app_assoc, forallb_app, Hl1, Hl2. done.
Qed.

Lemma grows_locally_emit (e : Event) (w : World) :
  local e = true -> grows_locally w (emit e w).
Proof. intros He. exists [e]. cbn. by rewrite He. Qed.

Lemma grows_locally_with_self (f : Hookup -> Hookup) (w : World) :
  grows_locally w (with_self f w).
Proof. exists []. cbn. by rewrite app_nil_r. Qed.

Lemma grows_locally_count (f : Event -> bool) (w w' : World) :
  (forall e, local e = true -> f e = false) ->
  grows_locally w w' ->
  count_events f (trace w') = count_events f (trace w).
Proof.
  intros Hf (added & -> & Hl). rewrite count_events_app.
  assert (count_events f added = 0) as ->; [|lia].
  unfold count_events. induction added as [|e added IH]; [done|].
  cbn [forallb List.filter] in *. apply andb_true_iff in Hl as [He Hl].
  rewrite (Hf e He). by apply IH.
Qed.

Section MoreAuthFacts.

Context `{Library}.

Lemma grows_locally_do_GET (path : pystr) (w : World) :
  grows_locally w (fst (do_GET path w)).
Proof.
  unfold do_GET.
  destruct (startswith path (py "/callback")); [|by apply grows_locally_emit].
  destruct (get_first _ (py "code")) as [code|e]; [|by apply grows_locally_emit].
  destruct (get_first _ (py "state")) as [state|e]; [|by apply grows_locally_emit].
  destruct code as [c|], state as [s|]; try by apply grows_locally_emit.
  destruct (nonempty c && nonempty s); cbn [fst].
  - eapply grows_locally_trans; [|by apply grows_locally_emit].
    eapply grows_locally_trans; [|apply grows_locally_with_self].
    eapply grows_locally_trans; by apply grows_locally_emit.
  - eapply grows_locally_trans; by apply grows_locally_emit.
Qed.

Lemma grows_locally_handle_request (path : pystr) (w : World) :
  grows_locally w (handle_request path w).
Proof.
  unfold handle_request. destruct (accepting w); [|apply grows_locally_refl].
  pose proof (grows_locally_do_GET path w) as Hf.
  destruct (do_GET path w) as [w' [e|]]; cbn [fst] in Hf; [|done].
  eapply grows_locally_trans; [exact Hf|by apply grows_locally_emit].
Qed.

Lemma grows_locally_serve (paths : list pystr) (w : World) :
  grows_locally w (serve paths w).
Proof.
  revert w. induction paths as [|p paths IH]; intros w; [apply grows_locally_refl|].
  cbn [serve fold_left].
  eapply grows_locally_trans; [apply grows_locally_handle_request|apply IH].
Qed.

Lemma grows_locally_shutdown (pending : option pystr) (w : World) :
  grows_locally w (shutdown_local_server pending w).
Proof.
  unfold shutdown_local_server.
  destruct (httpd (self w)) as [srv|]; [|apply grows_locally_refl].
  eapply grows_locally_trans; [|by apply grows_locally_emit].
  eapply grows_locally_trans; [|apply grows_locally_with_self].
  destruct (serving srv), pending; try apply grows_locally_refl.
  apply grows_locally_handle_request.
Qed.

Lemma grows_locally_reset_auth (pending : option pystr) (w : World) :
  grows_locally w (reset_auth pending w).
Proof.
  unfold reset_auth.
  eapply grows_locally_trans; [apply grows_locally_with_self|].
  eapply grows_locally_trans; [apply grows_locally_with_self|].
  apply grows_locally_shutdown.
Qed.

Lemma grows_locally_wait_loop (start : Q) (pending : option pystr)
    (sched : list Tick) (w : World) :
  grows_locally w (waited_world (wait_loop start pending sched w)).
Proof.
  revert w. induction sched as [|t sched IH]; intros w; [apply grows_locally_refl|].
  cbn [wait_loop].
  pose proof (grows_locally_serve (served t) w) as Hs.
  destruct (interrupt t); [exact Hs|].
  destruct (todoist_oauth_callback_received _); [exact Hs|].
  destruct (Qltb _ _).
  - cbn [waited_world]. eapply grows_locally_trans; [exact Hs|].
    eapply grows_locally_trans; [|apply grows_locally_reset_auth].
    by apply grows_locally_emit.
  - eapply grows_locally_trans; [exact Hs|apply IH].
Qed.

Lemma local_starts_nothing (e : Event) : local e = true -> starts_nothing e = true.
Proof. by destruct e. Qed.

Lemma grows_quietly_refl (w : World) : grows_quietly w w.
Proof. exists []. by rewrite app_nil_r. Qed.

Lemma grows_quietly_trans (w1 w2 w3 : World) :
  grows_quietly w1 w2 -> grows_quietly w2 w3 -> grows_quietly w1 w3.
Proof.
  intros (a1 & Ha1 & Hl1) (a2 & Ha2 & Hl2).
  exists (a1 ++ a2). rewrite Ha2, Ha1, <- app_assoc, forallb_app, Hl1, Hl2. done.
Qed.

Lemma grows_quietly_emit (e : Event) (w : World) :
  starts_nothing e = true -> grows_quietly w (emit e w).
Proof. intros He. exists [e]. cbn. by rewrite He. Qed.

Lemma grows_locally_quietly (w w' : World) :
  grows_locally w w' -> grows_quietly w w'.
Proof.
  intros (added & Ha & Hl). exists added. split; [done|].
  apply forallb_forall. intros e He. apply local_starts_nothing.
  by apply (proj1 (forallb_forall _ _) Hl).
Qed.

Lemma grows_quietly_count (f : Event -> bool) (w w' : World) :
  (forall e, starts_nothing e = true -> f e = false) ->
  grows_quietly w w' ->
  count_events f (trace w') = count_events f (trace w).
Proof.
  intros Hf (added & -> & Hl). rewrite count_events_app.
  assert (count_events f added = 0) as ->; [|lia].
  unfold count_events. induction added as [|e added IH]; [done|].
  cbn [forallb List.filter] in *. apply andb_true_iff in Hl as [He Hl].
  rewrite (Hf e He). by apply IH.
Qed.

Lemma grows_quietly_save (r : WriteResult) (w : World) :
  grows_quietly w (save_access_token r w).
Proof. destruct r; cbn; by eexists [_]. Qed.

(** The log of the first lines of [authenticate]: the URL is printed,
    the browser opened, the thread started; the thread resets, then
    binds once. *)
Lemma started_log (env : Env) (w : World) :
  let url := get_authentication_url (todoist_api_client_id (self w))
               [py "data:read"] (uuid_str (uuid4 (urandom16 env))) in
  exists l1 b x,
    trace (started env w)
    = trace w ++ [Print (MsgVisitUrl url); BrowserOpen url; ThreadStart]
      ++ l1 ++ [Bind b; x] /\
    forallb local l1 = true /\ starts_nothing x = true.
Proof.
  cbn zeta. unfold started, start_local_server.
  match goal with |- context [reset_auth None ?w3] => set (w0 := w3) end.
  destruct (grows_locally_reset_auth None w0) as (l1 & Hl1 & Hloc).
  destruct (port_free (reset_auth None w0)).
  - exists l1, true, (Print MsgStartingServer). cbn. rewrite Hl1. subst w0. cbn.
    rewrite <- !app_assoc. done.
  - exists l1, false, (ThreadDied OSError). cbn. rewrite Hl1. subst w0. cbn.
    rewrite <- !app_assoc. done.
Qed.

(** After the start-up nothing more is started. *)
Lemma authenticate_after_start (fuel : nat) (env : Env) (w : World) :
  grows_quietly (started env w) (fst (authenticate fuel env w)).
Proof.
  unfold authenticate. fold (started env w).
  destruct (wait_for_httpd fuel (started env w)); cbn [negb];
    [|apply grows_quietly_refl].
  pose proof (grows_locally_quietly _ _
                (grows_locally_wait_loop (start_time env) (in_flight env)
                   (schedule env) (started env w))) as Hloop.
  destruct (wait_loop _ _ _ _) as [wl|wl|wl]; cbn [waited_world fst] in *.
  - pose proof (grows_locally_quietly _ _
                  (grows_locally_shutdown (in_flight env) wl)) as Hsd.
    set (w1 := shutdown_local_server (in_flight env) wl) in *.
    assert (H1 : grows_quietly (started env w) w1) by (by eapply grows_quietly_trans).
    destruct (negb (pystr_eqb _ _)); cbn [fst].
    + eapply grows_quietly_trans; [exact H1|].
      eapply grows_quietly_trans;
        [|apply grows_locally_quietly, grows_locally_shutdown].
      eapply grows_quietly_trans;
        [|apply grows_locally_quietly, grows_locally_reset_auth].
      by apply grows_quietly_emit.
    + destruct (get_auth_token env _ _ _) as [tok|f]; cbn [fst].
      * eapply grows_quietly_trans; [exact H1|].
        eapply grows_quietly_trans; [|apply grows_quietly_save].
        by eexists [_].
      * eapply grows_quietly_trans; [exact H1|]. by apply grows_quietly_emit.
  - eapply grows_quietly_trans; [exact Hloop|].
    eapply grows_quietly_trans;
      [|apply grows_locally_quietly, grows_locally_shutdown].
    eapply grows_quietly_trans;
      [|apply grows_locally_quietly, grows_locally_reset_auth].
    by apply grows_quietly_emit.
  - exact Hloop.
Qed.

(** The head of the log of a call. *)
Lemma authenticate_log_head (fuel : nat) (env : Env) (w : World) :
  let url := get_authentication_url (todoist_api_client_id (self w))
               [py "data:read"] (uuid_str (uuid4 (urandom16 env))) in
  exists rest,
    trace (fst (authenticate fuel env w))
    = trace w ++ [Print (MsgVisitUrl url); BrowserOpen url; ThreadStart] ++ rest.
Proof.
  cbn zeta.
  destruct (started_log env w) as (l1 & b & x & Hst & _).
  destruct (authenticate_after_start fuel env w) as (added & Ha & _).
  exists (l1 ++ [Bind b; x] ++ added). rewrite Ha, Hst. by rewrite <- !app_assoc.
Qed.



(** The three ways a call that reached the state check ends. *)
Lemma authenticate_checked (fuel : nat) (env : Env) (w w1 : World) :
  at_state_check fuel env w = Some w1 ->
  let r := authenticate fuel env w in
  let x := Exchange (todoist_api_client_id (self w1))
             (todoist_api_client_secret (self w1))
             (todoist_response_auth_code (self w1)) in
  (snd r = Return false /\
   trace (fst r) = trace w1 ++ [Print MsgStateMismatch; Print MsgShutDown;
                                Print MsgShutDown] /\
   todoist_api_token (self (fst r)) = JNull /\
   token_file (fst r) = token_file w1) \/
  (exists f, snd r = Raise (ExchangeError f) /\ fst r = emit x w1) \/
  (exists tok, snd r = Return true /\
     fst r = save_access_token (write_result env)
               (with_self (set_api_token (JStr tok)) (emit x w1))).
Proof.
  intros Hcheck. cbn zeta.
  destruct (at_state_check_facts _ _ _ _ Hcheck) as (_ & Hclosed & _).
  destruct (decide (py_str (todoist_response_state (self w1))
                    = uuid_str (uuid4 (urandom16 env)))) as [Heq|Hne].
  - pose proof (authenticate_exchange _ _ _ _ Hcheck Heq) as Hauth.
    cbn zeta in Hauth. rewrite Hauth.
    destruct (get_auth_token env _ _ _) as [tok|f]; right; [right|left];
      by eexists.
  - left. rewrite (authenticate_mismatch _ _ _ _ Hcheck Hne). cbn [fst snd].
    destruct (mismatch_teardown (in_flight env) w1 Hclosed)
      as (Htr & _ & Htok & _ & Hfile & _).
    done.
Qed.

Lemma count_events_none (f P : Event -> bool) (l : list Event) :
  (forall e, P e = true -> f e = false) ->
  forallb P l = true -> count_events f l = 0.
Proof.
  intros Hf. unfold count_events. induction l as [|e l IH]; [done|].
  cbn [forallb List.filter]. intros [He Hl]%andb_true_iff.
  rewrite (Hf e He). by apply IH.
Qed.

Lemma fst_forget (r : World * Outcome bool) : fst (forget r) = fst r.
Proof. by destruct r as [w [| | |]]. Qed.

Lemma forget_raise (r : World * Outcome bool) (e : Exn) :
  snd (forget r) = Raise e -> snd r = Raise e.
Proof. destruct r as [w [| | |]]; cbn; congruence. Qed.

Lemma forget_return (r : World * Outcome bool) :
  snd (forget r) = Return tt -> exists b, snd r = Return b.
Proof. destruct r as [w [b| | |]]; cbn; try done. by exists b. Qed.

Lemma init_eq (fuel : nat) (p : Process) (env : Env) (port_busy : bool)
    (file : option FileContent) (log : list Event) :
  __init__ fuel p env port_busy file log =
  let '(w, configured) := configured_world p port_busy file log in
  if configured && negb (truthy (todoist_api_token (self w)))
  then forget (authenticate fuel env w)
  else (w, Return tt).
Proof.
  unfold __init__, configured_world.
  destruct (configure p _) as [w [|]]; cbn [andb]; [|done].
  destruct (negb _); [|done].
  by destruct (authenticate fuel env w) as [w' [| | |]].
Qed.

Lemma token_phase_eq (fuel : nat) (p : Process) (env_init env_main : Env)
    (port_busy : bool) (file : option FileContent) :
  token_phase fuel p env_init env_main port_busy file =
  match __init__ fuel p env_init port_busy file [Print MsgStarting] with
  | (w, Return _) =>
      if negb (truthy (todoist_api_token (self w))) then
        forget (authenticate fuel env_main (emit (Print MsgReauthenticating) w))
      else
        let w := emit (Print MsgAlreadyAuthenticated) w in
        match slice5 (todoist_api_token (self w)) with
        | Some head => (emit (Print (MsgAccessToken head)) w, Return tt)
        | None => (w, Raise TypeError)
        end
  | r => r
  end.
Proof.
  unfold token_phase.
  by destruct (__init__ _ _ _ _ _ _) as [w [[]| | |]].
Qed.

Lemma main_eq (fuel : nat) (p : Process) (env_init env_main : Env)
    (port_busy : bool) (file : option FileContent) :
  main fuel p env_init env_main port_busy file
  = catch (token_phase fuel p env_init env_main port_busy file).
Proof. reflexivity. Qed.

(** What [load_access_token] and [configure] do to the log: they print
    at most. *)
Lemma configured_world_log (p : Process) (port_busy : bool)
    (file : option FileContent) (log : list Event) :
  grows_locally (mkWorld fresh port_busy file log)
    (fst (configured_world p port_busy file log)).
Proof.
  unfold configured_world, configure, load_access_token. cbn [token_file].
  destruct (dotenv_raises p), file as [[|[]]|]; cbn [fst];
    repeat first
      [ apply grows_locally_refl
      | eapply grows_locally_trans; [|by apply grows_locally_emit]
      | eapply grows_locally_trans; [|apply grows_locally_with_self] ].
Qed.

(** A call raises nothing but the failure of the exchange or the exit
    after an interrupt. *)
Lemma authenticate_raises (fuel : nat) (env : Env) (w : World) (e : Exn) :
  snd (authenticate fuel env w) = Raise e ->
  e = SystemExit 1 \/ exists f, e = ExchangeError f.
Proof.
  intros Hr.
  destruct (at_state_check fuel env w) as [w1|] eqn:Hcheck.
  - destruct (authenticate_checked _ _ _ _ Hcheck)
      as [(Hs & _)|[(f & Hs & _)|(tok & Hs & _)]]; rewrite Hs in Hr; try done.
    injection Hr as <-. right. by exists f.
  - destruct (authenticate_no_check _ _ _ Hcheck) as (_ & [Hs|[Hs|[Hs _]]]);
      rewrite Hs in Hr; try done.
    injection Hr as <-. by left.
Qed.

Lemma authenticate_start_count (f : Event -> bool) (fuel : nat) (env : Env)
    (w : World) :
  (forall e, starts_nothing e = true -> f e = false) ->
  let url := get_authentication_url (todoist_api_client_id (self w))
               [py "data:read"] (uuid_str (uuid4 (urandom16 env))) in
  exists b,
    count_events f (trace (fst (authenticate fuel env w)))
    = count_events f (trace w)
      + count_events f [Print (MsgVisitUrl url); BrowserOpen url; ThreadStart;
                        Bind b].
Proof.
  intros Hf. cbn zeta.
  destruct (started_log env w) as (l1 & b & x & Hst & Hl1 & Hx).
  destruct (authenticate_after_start fuel env w) as (added & Ha & Hq).
  exists b. rewrite Ha, Hst, !count_events_app.
  rewrite (count_events_none f local l1), (count_events_none f starts_nothing added);
    auto using local_starts_nothing.
  unfold count_events. cbn [List.filter]. rewrite (Hf x Hx).
  destruct (f (Print _)), (f (BrowserOpen _)), (f ThreadStart), (f (Bind b));
    cbn; lia.
Qed.

Lemma authenticate_commit_count (fuel : nat) (env : Env) (w : World) :
  count_events is_exchange (trace (fst (authenticate fuel env w)))
  <= S (count_events is_exchange (trace w)) /\
  count_events is_file_write (trace (fst (authenticate fuel env w)))
  <= S (count_events is_file_write (trace w)).
Proof.
  destruct (at_state_check fuel env w) as [w1|] eqn:Hcheck.
  - destruct (at_state_check_facts _ _ _ _ Hcheck) as (Hfr & _ & _).
    pose proof (frame_exchanges _ _ Hfr) as Hx.
    pose proof (frame_file_writes _ _ Hfr) as Hw.
    destruct (authenticate_checked _ _ _ _ Hcheck)
      as [(_ & Htr & _)|[(f & _ & ->)|(tok & _ & ->)]].
    + rewrite Htr, !count_events_app. cbn. lia.
    + cbn [emit trace]. rewrite !count_events_app. cbn. lia.
    + destruct (write_result env);
        cbn [save_access_token emit with_self with_token_file trace];
        rewrite !count_events_app; cbn; lia.
  - destruct (authenticate_no_check _ _ _ Hcheck) as (Hfr & _).
    rewrite (frame_exchanges _ _ Hfr), (frame_file_writes _ _ Hfr). lia.
Qed.

(** X1. One call of [authenticate] opens the browser once, starts one
    listener thread and tries one bind, however it ends; the token
    endpoint is called at most once and the token file written at most
    once. *)
Theorem authenticate_attempts_once (fuel : nat) (env : Env) (w : World) :
  let r := authenticate fuel env w in
  count_events is_browser_open (trace (fst r))
  = S (count_events is_browser_open (trace w)) /\
  count_events is_thread_start (trace (fst r))
  = S (count_events is_thread_start (trace w)) /\
  count_events is_bind (trace (fst r)) = S (count_events is_bind (trace w)) /\
  count_events is_exchange (trace (fst r))
  <= S (count_events is_exchange (trace w)) /\
  count_events is_file_write (trace (fst r))
  <= S (count_events is_file_write (trace w)).
Proof.
  cbn zeta.
  destruct (authenticate_start_count is_browser_open fuel env w) as (b1 & H1);
    [by intros []|].
  destruct (authenticate_start_count is_thread_start fuel env w) as (b2 & H2);
    [by intros []|].
  destruct (authenticate_start_count is_bind fuel env w) as (b3 & H3);
    [by intros []|].
  destruct (authenticate_commit_count fuel env w) as [Hx Hw].
  cbn in H1, H2, H3. split_and!; try done; lia.
Qed.



(** X3. A token file that cannot be written does not fail the attempt:
    when the exchange has answered, [authenticate] returns [True] and
    the object holds the new token whatever the write does; the failure
    is printed, and a file that could not even be opened keeps its
    content. *)
Theorem write_failure_keeps_token_in_memory (fuel : nat) (env : Env)
    (w w1 : World) (tok : pystr) :
  at_state_check fuel env w = Some w1 ->
  py_str (todoist_response_state (self w1)) = uuid_str (uuid4 (urandom16 env)) ->
  get_auth_token env (todoist_api_client_id (self w1))
    (todoist_api_client_secret (self w1))
    (todoist_response_auth_code (self w1)) = inl tok ->
  let r := authenticate fuel env w in
  snd r = Return true /\
  todoist_api_token (self (fst r)) = JStr tok /\
  (write_result env <> WriteOk ->
   In (Print MsgSaveFailed) (trace (fst r)) /\
   count_events is_file_write (trace (fst r))
   = count_events is_file_write (trace w)) /\
  (write_result env = OpenFails -> token_file (fst r) = token_file w).
Proof.
  intros Hcheck Heq Hx. cbn zeta.
  pose proof (authenticate_exchange _ _ _ _ Hcheck Heq) as Hauth.
  cbn zeta in Hauth. rewrite Hx in Hauth. rewrite Hauth. cbn [fst snd].
  destruct (at_state_check_facts _ _ _ _ Hcheck) as (Hfr & _ & _).
  pose proof (frame_file_writes _ _ Hfr) as Hw.
  split_and!; [done|by destruct (write_result env)| |].
  - intros Hne. destruct (write_result env); [done| |];
      cbn [save_access_token emit with_self with_token_file trace];
      (split; [apply in_or_app; right; by left|]);
      rewrite !count_events_app; cbn; lia.
  - intros ->. cbn. apply (frame_file _ _ Hfr).
Qed.

Lemma dict_get_head (k : pystr) (v : json) (rest : list (pystr * json)) :
  dict_get ((k, v) :: rest) k = v.
Proof. cbn. unfold pystr_eqb. by rewrite bool_decide_eq_true_2. Qed.

(** With a true token in the file, [main] authenticates nothing. *)
Lemma main_with_token (fuel : nat) (p : Process) (env_init env_main : Env)
    (port_busy : bool) (entries : list (pystr * json)) :
  truthy (dict_get entries (py "access_token")) = true ->
  let r := main fuel p env_init env_main port_busy
             (Some (Parsed (JDict entries))) in
  snd r = Return tt /\
  todoist_api_token (self (fst r)) = dict_get entries (py "access_token") /\
  count_events is_browser_open (trace (fst r)) = 0 /\
  count_events is_exchange (trace (fst r)) = 0.
Proof.
  intros Htok. cbn zeta.
  unfold main, __init__, load_access_token, configure. cbn [token_file].
  destruct (dotenv_raises p);
    repeat (cbn [with_self emit self set_api_token set_config todoist_api_token];
            rewrite ?Htok; cbn [negb]);
    destruct (slice5 (dict_get entries (py "access_token"))); done.
Qed.

(** X4. The token survives from one run to the next: when
    [authenticate] has returned [True] and the write went through, the
    file holds the token under ["access_token"], and a later run of
    [main] on that file ends with the same token in the object without
    opening the browser or calling the token endpoint, provided the
    token is not the empty string (which the next run takes for no
    token). *)
Theorem saved_token_reused_by_next_run (fuel : nat) (env : Env) (w : World)
    (fuel' : nat) (p : Process) (env_init env_main : Env) (port_busy : bool) :
  snd (authenticate fuel env w) = Return true ->
  write_result env = WriteOk ->
  exists tok,
    todoist_api_token (self (fst (authenticate fuel env w))) = JStr tok /\
    token_file (fst (authenticate fuel env w))
    = Some (Parsed (JDict [(py "access_token", JStr tok)])) /\
    (tok <> [] ->
     let r := main fuel' p env_init env_main port_busy
                (token_file (fst (authenticate fuel env w))) in
     snd r = Return tt /\
     todoist_api_token (self (fst r)) = JStr tok /\
     count_events is_browser_open (trace (fst r)) = 0 /\
     count_events is_exchange (trace (fst r)) = 0).
Proof.
  intros Hret Hwrite.
  destruct (at_state_check fuel env w) as [w1|] eqn:Hcheck.
  - destruct (authenticate_checked _ _ _ _ Hcheck)
      as [(Hs & _)|[(f & Hs & _)|(tok & _ & Hw)]];
      [by rewrite Hs in Hret|by rewrite Hs in Hret|].
    exists tok. rewrite Hw, Hwrite. cbn [save_access_token]. split_and!; try done.
    intros Hne.
    cbn [emit with_token_file with_self token_file self set_api_token
         todoist_api_token].
    pose proof (main_with_token fuel' p env_init env_main port_busy
                  [(py "access_token", JStr tok)]) as Hmain.
    rewrite dict_get_head in Hmain. apply Hmain. by destruct tok.
  - destruct (authenticate_no_check _ _ _ Hcheck) as (_ & [Hs|[Hs|[Hs _]]]);
      by rewrite Hs in Hret.
Qed.

(** X5. Requests for any other path are each answered with 404 and
    change nothing: the log gains one 404 per request, the object is as
    it was, and the listener goes on serving. *)
Theorem other_paths_answered_404 (paths : list pystr) (w : World) :
  accepting w = true ->
  Forall (fun path => startswith path (py "/callback") = false) paths ->
  trace (serve paths w) = trace w ++ List.map (fun _ => Response 404) paths /\
  self (serve paths w) = self w /\
  token_file (serve paths w) = token_file w.
Proof.
  intros Hacc Hpaths. revert w Hacc.
  induction Hpaths as [|path paths Hpath _ IH]; intros w Hacc.
  - cbn. by rewrite app_nil_r.
  - cbn [serve fold_left List.map].
    fold (serve paths (handle_request path w)).
    assert (Hreq : handle_request path w = emit (Response 404) w).
    { unfold handle_request, do_GET. by rewrite Hacc, Hpath. }
    rewrite Hreq. destruct (IH (emit (Response 404) w) Hacc) as (Ht & Hs & Hf).
    rewrite Ht, Hs, Hf. cbn. by rewrite <- app_assoc.
Qed.

Lemma handle_request_dead (path : pystr) (w : World) :
  accepting w = false -> handle_request path w = w.
Proof. intros Hacc. unfold handle_request. by rewrite Hacc. Qed.

Lemma serve_dead (paths : list pystr) (w : World) :
  accepting w = false -> serve paths w = w.
Proof.
  intros Hacc. induction paths as [|p paths IH]; [done|].
  cbn [serve fold_left]. by rewrite handle_request_dead.
Qed.

Lemma reset_auth_closed_eq (pending : option pystr) (w : World) :
  closed w ->
  reset_auth pending w
  = emit (Print MsgShutDown)
      (with_self (set_api_token JNull)
         (with_self (set_callback None None false) w)).
Proof. intros Hc. unfold reset_auth. by rewrite shutdown_local_server_again. Qed.

(** A wait loop next to a listener that is not serving: whatever is
    sent, it runs into the time-out. *)
Lemma wait_loop_dead (start : Q) (pending : option pystr)
    (before : list Tick) (t : Tick) (after : list Tick) (w : World) :
  accepting w = false ->
  todoist_oauth_callback_received (self w) = false ->
  Forall (fun x => interrupt x = false /\ expired w start x = false) before ->
  interrupt t = false -> expired w start t = true ->
  wait_loop start pending (before ++ t :: after) w
  = LoopLeft (reset_auth pending (emit (Print MsgTimeout) w)).
Proof.
  intros Hacc Hflag Hbefore Hint Hexp.
  induction Hbefore as [|x before [Hxi Hxe] _ IH]; cbn [app wait_loop];
    rewrite serve_dead by done.
  - unfold expired in Hexp. by rewrite Hint, Hflag, Hexp.
  - unfold expired in Hxe. by rewrite Hxi, Hflag, Hxe.
Qed.

(** The reset at the thread's start answers no request. *)
Lemma reset_auth_None_log (w : World) :
  exists l, trace (reset_auth None w) = trace w ++ l /\
            count_events is_response l = 0.
Proof.
  unfold reset_auth, shutdown_local_server.
  cbn [with_self self set_api_token set_callback httpd].
  destruct (httpd (self w)) as [srv|].
  - exists [Print MsgShutDown]. by destruct (serving srv).
  - exists []. cbn. by rewrite app_nil_r.
Qed.

(** X6. A failed bind goes unnoticed when an earlier attempt has left
    [self.httpd] behind: with the port held by another process the
    listener thread dies, the caller waits next to a listener that is
    not there, no request is answered whatever arrives, and the call
    returns [False] through the time-out, without an exchange. *)
Theorem dead_listener_times_out (fuel : nat) (env : Env) (w : World)
    (before : list Tick) (t : Tick) (after : list Tick) :
  0 < fuel ->
  port_in_use w = true ->
  is_Some (httpd (self w)) ->
  schedule env = before ++ t :: after ->
  Forall (fun x => interrupt x = false /\ expired w (start_time env) x = false)
    before ->
  interrupt t = false -> expired w (start_time env) t = true ->
  let r := authenticate fuel env w in
  snd r = Return false /\
  In (ThreadDied OSError) (trace (fst r)) /\
  In (Print MsgTimeout) (trace (fst r)) /\
  count_events is_response (trace (fst r)) = count_events is_response (trace w) /\
  count_events is_exchange (trace (fst r)) = count_events is_exchange (trace w).
Proof.
  intros Hfuel Hport [srv Hsrv] Hsched Hbefore Hint Hexp. cbn zeta.
  pose proof (frame_started env w) as Hst.
  assert (Hclosed : closed (started env w)).
  { unfold closed, started. rewrite start_local_server_busy by done.
    cbn. by rewrite Hsrv. }
  assert (Hlog : exists l, trace (started env w)
                           = trace w ++ l ++ [Bind false; ThreadDied OSError] /\
                           count_events is_response l = 0).
  { unfold started, start_local_server, port_free.
    match goal with |- context [reset_auth None ?w3] => set (w0 := w3) end.
    rewrite (frame_port _ _ (frame_reset_auth None w0)).
    subst w0. cbn [emit port_in_use]. rewrite Hport. cbn [negb andb emit trace].
    set (url := get_authentication_url _ _ _).
    match goal with |- context [reset_auth None ?w3] =>
      destruct (reset_auth_None_log w3) as (l & -> & Hl) end.
    exists ([Print (MsgVisitUrl url); BrowserOpen url; ThreadStart] ++ l).
    cbn [emit trace]. rewrite <- !app_assoc.
    split; [reflexivity|]. rewrite count_events_app, Hl. done. }
  destruct Hlog as (l & Hlog & Hl).
  assert (Hfields : callback_fields (started env w) = (None, None, false))
    by apply start_local_server_fields.
  assert (Hcheck : at_state_check fuel env w
                   = Some (shutdown_local_server (in_flight env)
                             (reset_auth (in_flight env)
                                (emit (Print MsgTimeout) (started env w))))).
  { unfold at_state_check. fold (started env w).
    rewrite wait_for_httpd_present; [|done|by rewrite Hclosed]. cbn [negb].
    rewrite Hsched, (wait_loop_dead _ _ before t after); try done.
    - by apply closed_not_accepting.
    - unfold callback_fields in Hfields. congruence.
    - eapply Forall_impl; [exact Hbefore|]. intros x [Hx Hxe]. split; [done|].
      unfold expired in *. by rewrite (frame_timeout _ _ Hst).
    - unfold expired in *. by rewrite (frame_timeout _ _ Hst). }
  rewrite reset_auth_closed_eq in Hcheck by done.
  rewrite shutdown_local_server_again in Hcheck by done.
  rewrite (authenticate_mismatch _ _ _ _ Hcheck)
    by (cbn; apply not_eq_sym, uuid_str_not_None).
  match type of Hcheck with _ = Some ?w1 =>
    destruct (mismatch_teardown (in_flight env) w1) as (Htr & _); [done|] end.
  cbn [fst snd]. rewrite Htr. cbn [emit with_self trace]. rewrite Hlog.
  split_and!; [done| | | |].
  - rewrite <- !app_assoc. apply in_or_app. right. apply in_or_app. right.
    right. by left.
  - rewrite <- !app_assoc. apply in_or_app. right. apply in_or_app. right.
    right. right. by left.
  - rewrite !count_events_app, Hl. cbn. lia.
  - destruct (frame_trace _ _ Hst) as (added & Ha & Hq).
    rewrite <- Hlog, !count_events_app. cbn.
    rewrite Ha, count_events_app, (count_events_quiet _ added);
      auto using quiet_not_exchange. lia.
Qed.

(** ** [main] and its [except] clause *)

(** What [except Exception] lets through. *)
Lemma catch_raise (r : World * Outcome unit) (e : Exn) :
  snd (catch r) = Raise e ->
  (e = KeyboardInterrupt \/ exists c, e = SystemExit c) /\ snd r = Raise e.
Proof.
  destruct r as [w [[]|[| | |c| |]| |]]; cbn; intros Hr; try done;
    injection Hr as <-; (split; [|done]); [right; by exists c|by left].
Qed.

Lemma catch_browser_opens (r : World * Outcome unit) :
  count_events is_browser_open (trace (fst (catch r)))
  = count_events is_browser_open (trace (fst r)).
Proof.
  destruct r as [w [[]|[| | |c| |]| |]]; cbn [catch fst emit trace]; try done;
    rewrite count_events_app; cbn; lia.
Qed.

Lemma at_state_check_after_start (fuel : nat) (env : Env) (w w1 : World) :
  at_state_check fuel env w = Some w1 -> grows_quietly (started env w) w1.
Proof.
  unfold at_state_check. fold (started env w).
  destruct (wait_for_httpd fuel (started env w)); [|done]. cbn [negb].
  pose proof (grows_locally_quietly _ _
                (grows_locally_wait_loop (start_time env) (in_flight env)
                   (schedule env) (started env w))) as Hloop.
  destruct (wait_loop _ _ _ _) as [wl| |]; try done. intros [= <-].
  eapply grows_quietly_trans; [exact Hloop|].
  apply grows_locally_quietly, grows_locally_shutdown.
Qed.

(** The ways a call ends whose Ctrl-C, if any, comes outside the [try]
    block: as [authenticate] does, or by the [KeyboardInterrupt], in
    which case the log is that of the start-up followed by events that
    start nothing. *)
Lemma authenticate_struck_cases (s : Strike) (fuel : nat) (env : Env)
    (w : World) :
  authenticate_struck s fuel env w = authenticate fuel env w \/
  s <> NoStrike /\
  (snd (authenticate_struck s fuel env w) = Raise KeyboardInterrupt \/
   exists f, snd (authenticate_struck s fuel env w) = Raise (ExchangeError f)) /\
  grows_quietly (started env w) (fst (authenticate_struck s fuel env w)).
Proof.
  destruct s; [by left|right; split_and!; [done|by left|apply grows_quietly_refl]
              | |].
  all: destruct (at_state_check fuel env w) as [w1|] eqn:Hcheck;
    [|left; by apply authenticate_struck_unchecked].
  all: destruct (decide (py_str (todoist_response_state (self w1))
                         = uuid_str (uuid4 (urandom16 env)))) as [Heq|Hne];
    [|left; by apply (authenticate_struck_mismatch _ _ _ _ w1)].
  all: destruct (authenticate_struck_exchange _ _ _ _ Hcheck Heq) as [Hx Hsv];
    cbn zeta in Hx, Hsv.
  all: pose proof (at_state_check_after_start _ _ _ _ Hcheck) as Hstart.
  all: right; split; [done|].
  - rewrite Hx. cbn [fst snd]. split; [by left|].
    eapply grows_quietly_trans; [exact Hstart|]. by apply grows_quietly_emit.
  - rewrite Hsv. destruct (get_auth_token env _ _ _) as [tok|f]; cbn [fst snd].
    + split; [by left|].
      eapply grows_quietly_trans; [exact Hstart|]. by eexists [_].
    + split; [right; by exists f|].
      eapply grows_quietly_trans; [exact Hstart|]. by apply grows_quietly_emit.
Qed.

Lemma authenticate_struck_raises (s : Strike) (fuel : nat) (env : Env)
    (w : World) (e : Exn) :
  snd (authenticate_struck s fuel env w) = Raise e ->
  e = SystemExit 1 \/ (exists f, e = ExchangeError f) \/
  (e = KeyboardInterrupt /\ s <> NoStrike).
Proof.
  intros Hr.
  destruct (authenticate_struck_cases s fuel env w)
    as [Hsame|(Hs & [Hk|(f & Hf)] & _)].
  - rewrite Hsame in Hr.
    destruct (authenticate_raises _ _ _ _ Hr) as [->|Hf]; [by left|right; by left].
  - rewrite Hk in Hr. injection Hr as <-. right. by right.
  - rewrite Hf in Hr. injection Hr as <-. right. left. by exists f.
Qed.

Lemma authenticate_struck_browser_opens (s : Strike) (fuel : nat) (env : Env)
    (w : World) :
  count_events is_browser_open (trace (fst (authenticate_struck s fuel env w)))
  = S (count_events is_browser_open (trace w)).
Proof.
  assert (Hq : grows_quietly (started env w)
                 (fst (authenticate_struck s fuel env w))).
  { destruct (authenticate_struck_cases s fuel env w) as [->|(_ & _ & Hq)];
      [apply authenticate_after_start|done]. }
  rewrite (grows_quietly_count is_browser_open _ _ (fun e He => ltac:(by destruct e)) Hq).
  destruct (started_log env w) as (l1 & b & x & -> & Hl1 & Hx).
  rewrite !count_events_app.
  rewrite (count_events_none is_browser_open local l1) by (done || by intros []).
  unfold count_events. cbn [List.filter is_browser_open].
  destruct x; try done; cbn; lia.
Qed.

Lemma init_struck_eq (s : Strike) (fuel : nat) (p : Process) (env : Env)
    (port_busy : bool) (file : option FileContent) (log : list Event) :
  init_struck s fuel p env port_busy file log =
  let '(w, configured) := configured_world p port_busy file log in
  if configured && negb (truthy (todoist_api_token (self w)))
  then forget (authenticate_struck s fuel env w)
  else (w, Return tt).
Proof.
  unfold init_struck, configured_world.
  destruct (configure p _) as [w [|]]; cbn [andb]; [|done].
  destruct (negb _); [|done].
  by destruct (authenticate_struck s fuel env w) as [w' [| | |]].
Qed.

Lemma main_struck_eq (s_init s_main : Strike) (fuel : nat) (p : Process)
    (env_init env_main : Env) (port_busy : bool) (file : option FileContent) :
  main_struck s_init s_main fuel p env_init env_main port_busy file =
  catch
    match init_struck s_init fuel p env_init port_busy file [Print MsgStarting] with
    | (w, Return _) =>
        if negb (truthy (todoist_api_token (self w))) then
          forget (authenticate_struck s_main fuel env_main
                    (emit (Print MsgReauthenticating) w))
        else
          let w := emit (Print MsgAlreadyAuthenticated) w in
          match slice5 (todoist_api_token (self w)) with
          | Some head => (emit (Print (MsgAccessToken head)) w, Return tt)
          | None => (w, Raise TypeError)
          end
    | r => r
    end.
Proof.
  unfold main_struck.
  by destruct (init_struck _ _ _ _ _ _ _) as [w [[]| | |]].
Qed.

Lemma init_struck_raises (s : Strike) (fuel : nat) (p : Process) (env : Env)
    (port_busy : bool) (file : option FileContent) (log : list Event) (e : Exn) :
  snd (init_struck s fuel p env port_busy file log) = Raise e ->
  e = SystemExit 1 \/ (exists f, e = ExchangeError f) \/
  (e = KeyboardInterrupt /\ s <> NoStrike).
Proof.
  rewrite init_struck_eq. destruct (configured_world _ _ _ _) as [w0 cfg].
  destruct (cfg && _); [|done].
  intros Hr%forget_raise. by apply authenticate_struck_raises in Hr.
Qed.

Lemma init_struck_browser_opens (s : Strike) (fuel : nat) (p : Process)
    (env : Env) (port_busy : bool) (file : option FileContent)
    (log : list Event) :
  count_events is_browser_open
    (trace (fst (init_struck s fuel p env port_busy file log)))
  <= S (count_events is_browser_open log).
Proof.
  rewrite init_struck_eq.
  pose proof (grows_locally_count is_browser_open _ _
                (fun e He => ltac:(by destruct e))
                (configured_world_log p port_busy file log)) as Hcfg.
  cbn [trace] in Hcfg.
  destruct (configured_world _ _ _ _) as [w0 cfg]. cbn [fst] in Hcfg.
  destruct (cfg && _); cbn [fst]; [|lia].
  rewrite fst_forget, authenticate_struck_browser_opens. lia.
Qed.

(** X7. [main] lets no [Exception] of the hand-shake through: a failed
    exchange or a malformed stored token is caught, printed, and ends
    [main] normally. What [main] can raise is the exit with code 1, after
    a Ctrl-C in the wait loop, and [KeyboardInterrupt], after a Ctrl-C
    outside the [try] block of an attempt, which [except Exception] does
    not catch; the Ctrl-C in the start-up wait of the first attempt of a
    configured object without a token file is such a case. And one run
    opens the browser at most twice. *)
Theorem main_raises_exit_or_interrupt (s_init s_main : Strike) (fuel : nat)
    (p : Process) (env_init env_main : Env) (port_busy : bool)
    (file : option FileContent) :
  let r := main_struck s_init s_main fuel p env_init env_main port_busy file in
  (forall e, snd r = Raise e ->
     e = SystemExit 1 \/
     (e = KeyboardInterrupt /\ (s_init <> NoStrike \/ s_main <> NoStrike))) /\
  (s_init = NoStrike -> s_main = NoStrike ->
   r = main fuel p env_init env_main port_busy file) /\
  (s_init = InStartup -> dotenv_raises p = false -> file = None ->
   snd r = Raise KeyboardInterrupt) /\
  count_events is_browser_open (trace (fst r)) <= 2.
Proof.
  cbn zeta. split_and!.
  - rewrite main_struck_eq.
    intros e [Hpass Hr]%catch_raise.
    assert (Hkind : forall s, e = SystemExit 1 \/ (exists f, e = ExchangeError f) \/
                                e = KeyboardInterrupt /\ s <> NoStrike ->
                              e = SystemExit 1 \/ e = KeyboardInterrupt /\ s <> NoStrike).
    { intros s [->|[(f & ->)|?]]; [by left| |by right].
      by destruct Hpass as [?|[c ?]]. }
    pose proof (init_struck_raises s_init fuel p env_init port_busy file
                  [Print MsgStarting] e) as Hinit.
    destruct (init_struck _ _ _ _ _ _ _) as [w1 [[]| | |]]; cbn [snd] in *;
      [|destruct (Hkind _ (Hinit Hr)) as [?|[? ?]]; [by left|right; auto]
       |done|done].
    destruct (negb _).
    + apply forget_raise, authenticate_struck_raises in Hr.
      destruct (Hkind _ Hr) as [?|[? ?]]; [by left|right; auto].
    + cbn zeta in Hr. destruct (slice5 _); [done|].
      injection Hr as <-. by destruct Hpass as [?|[c ?]].
  - by intros -> ->.
  - intros -> Hdot ->. rewrite main_struck_eq, init_struck_eq.
    unfold configured_world, configure, load_access_token. cbn [token_file].
    rewrite Hdot. cbn [andb negb truthy with_self self set_config
                       todoist_api_token fresh].
    by rewrite authenticate_struck_startup.
  - rewrite main_struck_eq, catch_browser_opens.
    pose proof (init_struck_browser_opens s_init fuel p env_init port_busy file
                  [Print MsgStarting]) as Hinit.
    destruct (init_struck _ _ _ _ _ _ _) as [w1 [[]| | |]]; cbn [fst] in *;
      cbn in Hinit; try lia.
    destruct (negb _).
    + rewrite fst_forget, authenticate_struck_browser_opens.
      cbn [emit trace]. rewrite count_events_app. cbn. lia.
    + cbn zeta. destruct (slice5 _); cbn [fst emit trace];
        rewrite ?count_events_app; cbn; lia.
Qed.

(** X8. Missing credentials are not noticed before the user is sent to
    the browser: with no ["TODOIST_CLIENT_ID"] in the environment and no
    token file, [configure] still succeeds, and the first things [main]
    does are to print and open the authorization URL built for the
    client id [None] and to start the listener thread. *)
Theorem missing_client_id_opens_browser (fuel : nat) (p : Process)
    (env_init env_main : Env) (port_busy : bool) :
  dotenv_raises p = false ->
  environ p !! py "TODOIST_CLIENT_ID" = None ->
  let url := get_authentication_url None [py "data:read"]
               (uuid_str (uuid4 (urandom16 env_init))) in
  exists rest,
    trace (fst (main fuel p env_init env_main port_busy None))
    = [Print MsgStarting; Print (MsgVisitUrl url); BrowserOpen url; ThreadStart]
      ++ rest.
Proof.
  intros Hdot Hid. cbn zeta. rewrite main_eq, token_phase_eq, init_eq.
  unfold configured_world, configure, load_access_token. cbn [token_file].
  rewrite Hdot, Hid. cbn [andb negb truthy with_self self set_config
                          todoist_api_token fresh].
  match goal with |- context [authenticate fuel env_init ?w] => set (w0 := w) end.
  destruct (authenticate_log_head fuel env_init w0) as (rest1 & Hlog).
  cbn [w0 with_self self set_config todoist_api_client_id trace] in Hlog.
  rewrite <- (fst_forget (authenticate fuel env_init w0)) in Hlog.
  destruct (forget (authenticate fuel env_init w0)) as [w1 [[]| | |]];
    cbn [fst] in Hlog;
    try (eexists; cbn [catch fst emit trace]; rewrite ?Hlog;
         rewrite <- ?app_assoc; reflexivity).
  - destruct (negb _).
    + destruct (authenticate_log_head fuel env_main
                  (emit (Print MsgReauthenticating) w1)) as (rest2 & Hlog2).
      rewrite <- (fst_forget (authenticate fuel env_main _)) in Hlog2.
      destruct (forget (authenticate fuel env_main _)) as [w2 [[]|[| | |c| |]| |]];
        cbn [fst] in Hlog2;
        eexists; cbn [catch fst emit trace]; rewrite Hlog2; cbn [emit trace];
        rewrite Hlog, <- ?app_assoc; reflexivity.
    + cbn zeta. destruct (slice5 _);
        eexists; cbn [catch fst emit trace]; rewrite Hlog, <- ?app_assoc;
        reflexivity.
  - destruct e; eexists; cbn [catch fst emit trace]; rewrite ?Hlog;
      rewrite <- ?app_assoc; reflexivity.
Qed.

End MoreAuthFacts.

(** * Properties of the fetch and of the push *)

(** ** The short form of a humanized time *)

Lemma startswith_digit (c : N) (s old' : pystr) (o : N) :
  (48 <= c <= 57)%N -> ~ (48 <= o <= 57)%N ->
  startswith (c :: s) (o :: old') = false.
Proof.
  intros Hc Ho. cbn. destruct (N.eqb_spec c o) as [->|]; [done|done].
Qed.

(** A pattern that does not begin with a digit passes over leading
    digits. *)
Lemma replace_digits (n rest old' new : pystr) (o : N) :
  digits n -> ~ (48 <= o <= 57)%N ->
  replace (n ++ rest) (o :: old') new = n ++ replace rest (o :: old') new.
Proof.
  intros Hn Ho. unfold replace. induction Hn as [|c n Hc _ IH]; [done|].
  cbn [app replace_from]. rewrite startswith_digit by done. by rewrite IH.
Qed.

Lemma startswith_a_digits (n rest : pystr) (r : N) :
  digits n -> r <> 97%N ->
  startswith (n ++ r :: rest) (py "a ") = false.
Proof.
  intros Hn Hr. change (py "a ") with [97%N; 32%N]. destruct Hn as [|c n Hc _].
  - cbn [app startswith]. by destruct (N.eqb_spec r 97).
  - apply startswith_digit; [done|lia].
Qed.

(** X9. The short form of a plural: for a number [n] written in digits,
    a unit and either ending, ["<n> <unit>s ago"] becomes
    ["<n><letter> ago"]; the plural [s] goes and the [s] that stands for
    seconds stays. *)
Theorem tiny_format_plural (n unit letter ending : pystr) :
  digits n ->
  In (unit, letter) units ->
  In ending [py " ago"; py " from now"] ->
  tiny_format (n ++ py " " ++ unit ++ py "s" ++ ending) = n ++ letter ++ ending.
Proof.
  intros Hn Hunit Hending. unfold tiny_format.
  assert (Hspace : forall rest, startswith (n ++ py " " ++ rest) (py "a ") = false).
  { intros rest. by apply startswith_a_digits. }
  rewrite Hspace. clear Hspace.
  cbn [units In] in Hunit, Hending.
  destruct Hunit as [[= <- <-]|[[= <- <-]|[[= <- <-]|[[= <- <-]|[[= <- <-]|
                    [[= <- <-]|[[= <- <-]|[]]]]]]]];
    destruct Hending as [<-|[<-|[]]];
    repeat (match goal with
            | |- context [py ?s] =>
                let v := eval vm_compute in (py s) in change (py s) with v
            end);
    repeat (match goal with
            | |- context [replace (n ++ ?rest) (?o :: ?old') ?new] =>
                rewrite (replace_digits n rest old' new o Hn) by lia;
                let v := eval vm_compute in (replace rest (o :: old') new) in
                change (replace rest (o :: old') new) with v
            end);
    reflexivity.
Qed.

(** X10. The short form of a singular: ["a <unit> ago"] becomes
    ["1<letter> ago"], except that for a single second the letter is
    lost with the plural rule (["1 ago"]); and ["an hour ago"], which
    does not begin with ["a "], keeps its article (["anh ago"]). *)
Theorem tiny_format_singular (unit letter ending : pystr) :
  In (unit, letter) units ->
  In ending [py " ago"; py " from now"] ->
  tiny_format (py "a " ++ unit ++ ending)
  = py "1" ++ (if bool_decide (unit = py "second") then [] else letter) ++ ending
  /\ tiny_format (py "an hour" ++ ending) = py "anh" ++ ending.
Proof.
  intros Hunit Hending. cbn [units In] in Hunit, Hending.
  destruct Hunit as [[= <- <-]|[[= <- <-]|[[= <- <-]|[[= <- <-]|[[= <- <-]|
                    [[= <- <-]|[[= <- <-]|[]]]]]]]];
    destruct Hending as [<-|[<-|[]]]; vm_compute; done.
Qed.

(** ** The two sorts *)

Lemma insert_by_perm (before : Row -> Row -> bool) (x : Row) (l : list Row) :
  Permutation (insert_by before x l) (x :: l).
Proof.
  induction l as [|y l IH]; [done|]. cbn.
  destruct (before y x); [|done].
  rewrite IH. apply perm_swap.
Qed.

Lemma stable_sort_perm (before : Row -> Row -> bool) (l : list Row) :
  Permutation (stable_sort before l) l.
Proof.
  induction l as [|x l IH]; [done|]. cbn.
  by rewrite insert_by_perm, IH.
Qed.

(** The first sort: later due dates first. *)
Lemma insert_by_due (x : Row) (l : list Row) :
  StronglySorted (fun a b => (due_date b <= due_date a)%Z) l ->
  StronglySorted (fun a b => (due_date b <= due_date a)%Z)
    (insert_by (fun y x => (due_date y >? due_date x)%Z) x l).
Proof.
  induction 1 as [|y l Hl IH Hy]; cbn; [by repeat constructor|].
  destruct (Z.gtb_spec (due_date y) (due_date x)).
  - constructor; [done|].
    rewrite insert_by_perm. constructor; [lia|done].
  - constructor; [by constructor|].
    constructor; [lia|].
    eapply Forall_impl; [exact Hy|]. cbn. intros z Hz. lia.
Qed.

Lemma stable_sort_due (l : list Row) :
  StronglySorted (fun a b => (due_date b <= due_date a)%Z)
    (stable_sort (fun y x => (due_date y >? due_date x)%Z) l).
Proof.
  induction l as [|x l IH]; [constructor|]. cbn. by apply insert_by_due.
Qed.

(** The second sort keeps, among equal priorities, what the first has
    established. *)
Lemma insert_by_priority (x : Row) (l : list Row) :
  StronglySorted shown_before l ->
  Forall (fun y => (due_date y <= due_date x)%Z) l ->
  StronglySorted shown_before
    (insert_by (fun y x => (priority y <? priority x)%Z) x l).
Proof.
  induction 1 as [|y l Hl IH Hy]; intros Hdue; cbn; [by repeat constructor|].
  apply Forall_cons in Hdue as [Hdy Hdue].
  destruct (Z.ltb_spec (priority y) (priority x)).
  - constructor; [by apply IH|].
    rewrite insert_by_perm. constructor; [by left|done].
  - constructor; [by constructor|].
    constructor; [unfold shown_before; lia|].
    rewrite Forall_forall in Hy, Hdue. apply Forall_forall. intros z Hz.
    specialize (Hy z Hz). specialize (Hdue z Hz). unfold shown_before in *. lia.
Qed.

Lemma stable_sort_priority (l : list Row) :
  StronglySorted (fun a b => (due_date b <= due_date a)%Z) l ->
  StronglySorted shown_before
    (stable_sort (fun y x => (priority y <? priority x)%Z) l).
Proof.
  induction 1 as [|x l Hl IH Hx]; [constructor|].
  change (stable_sort ?b (x :: l)) with (insert_by b x (stable_sort b l)).
  apply insert_by_priority; [done|]. by rewrite stable_sort_perm.
Qed.

Lemma display_order_perm (rows : list Row) :
  Permutation (display_order rows) rows.
Proof. unfold display_order. by rewrite !stable_sort_perm. Qed.

Lemma display_order_sorted (rows : list Row) :
  StronglySorted shown_before (display_order rows).
Proof. apply stable_sort_priority, stable_sort_due. Qed.

(** X11. The two sorts together put the tasks in display order: the
    result holds the same tasks, each before all those with a larger
    priority number and, among those with the same number, before all
    those due no later than itself. *)
Theorem display_order_by_priority_then_due (rows : list Row) :
  Permutation (display_order rows) rows /\
  StronglySorted shown_before (display_order rows).
Proof. split; [apply display_order_perm|apply display_order_sorted]. Qed.

(** ** [get_todoist_data] *)

Lemma and_then_inl {A B : Type} (x : A + PyErr) (f : A -> B + PyErr) (b : B) :
  and_then x f = inl b -> exists a, x = inl a /\ f a = inl b.
Proof. destruct x as [a|e]; cbn; [by exists a|done]. Qed.

Lemma dict_find_exists (entries : list (pystr * json)) (key : pystr) (v : json) :
  dict_find entries key = Some v ->
  existsb (fun kv => pystr_eqb (fst kv) key) entries = true.
Proof.
  induction entries as [|[k x] entries IH]; [done|]. cbn.
  destruct (pystr_eqb k key); [done|]. apply IH.
Qed.

(** A key that can be read is a key that is there. *)
Lemma getitem_contains (j : json) (key : pystr) (v : json) :
  getitem j key = inl v -> contains j key = inl true.
Proof.
  destruct j; try done. cbn.
  destruct (dict_find entries key) as [x|] eqn:Hfind; [|done].
  intros _. by rewrite (dict_find_exists _ _ _ Hfind).
Qed.

Section DataFacts.

Context `{Calendar}.

Lemma process_items_length (projects : gmap Key json) (items : list json)
    (rows : list Row) :
  process_items projects items = inl rows -> length rows = length items.
Proof.
  revert rows. induction items as [|it items IH]; intros rows; cbn.
  - by intros [= <-].
  - intros (row & _ & (rows' & Hrows & [= <-])%and_then_inl)%and_then_inl.
    cbn. by rewrite (IH _ Hrows).
Qed.

(** One item that cannot be converted fails the whole loop. *)
Lemma process_items_fails (projects : gmap Key json) (items : list json)
    (it : json) (e : PyErr) :
  In it items -> process_item projects it = inr e ->
  exists e', process_items projects items = inr e'.
Proof.
  intros Hin Hit. induction items as [|x items IH]; [done|]. cbn.
  destruct Hin as [->|Hin].
  - rewrite Hit. by eexists.
  - destruct (process_item projects x); cbn; [|by eexists].
    destruct (IH Hin) as (e' & ->). by eexists.
Qed.

Lemma render_all_length (rows : list Row) (out : list json) :
  render_all rows = inl out -> length out = length rows.
Proof.
  revert out. induction rows as [|row rows IH]; intros out; cbn.
  - by intros [= <-].
  - intros (t & _ & (ts & Hts & [= <-])%and_then_inl)%and_then_inl.
    cbn. by rewrite (IH _ Hts).
Qed.

Lemma render_all_app (a b : list Row) (out : list json) :
  render_all (a ++ b) = inl out ->
  exists oa ob, render_all a = inl oa /\ render_all b = inl ob /\ out = oa ++ ob.
Proof.
  revert out. induction a as [|row a IH]; intros out; cbn.
  - intros Hb. by exists [], out.
  - intros (t & Ht & (ts & Hts & [= <-])%and_then_inl)%and_then_inl.
    destruct (IH _ Hts) as (oa & ob & Ha & Hb & ->).
    exists (t :: oa), ob. by rewrite Ht, Ha.
Qed.

(** What [read_tasks] returns: the same dictionary with the rendered
    rows, in display order, appended to its tasks. *)
Lemma read_tasks_inl (projects : gmap Key json) (data data' : Payload) (j : json) :
  read_tasks projects data j = inl data' ->
  exists rows out,
    render_all rows = inl out /\
    StronglySorted shown_before rows /\
    data' = mkPayload (data_checked data) (data_tasks data ++ out)
              (data_filter data) (data_status data) /\
    (forall items, getitem j (py "results") = inl (JList items) ->
                   length rows = length items).
Proof.
  unfold read_tasks.
  intros ([|] & Hhas & Hrest)%and_then_inl.
  - apply and_then_inl in Hrest as (results & Hres & Hrest).
    apply and_then_inl in Hrest as (l & Hl & Hrest).
    apply and_then_inl in Hrest as (rows & Hrows & Hrest).
    apply and_then_inl in Hrest as ([] & Hlist & Hrest).
    apply and_then_inl in Hrest as (out & Hout & [= <-]).
    exists (display_order rows), out.
    split_and!; [done|apply display_order_sorted|done|].
    intros items Hitems. rewrite Hres in Hitems. injection Hitems as ->.
    cbn in Hl. injection Hl as <-.
    rewrite (Permutation_length (display_order_perm rows)).
    by apply process_items_length in Hrows.
  - injection Hrest as <-. exists [], [].
    split_and!; [done|constructor|by destruct data; cbn; rewrite app_nil_r|].
    intros items Hitems. apply getitem_contains in Hitems. congruence.
Qed.




(** The two ways [get_todoist_data] returns. *)
Lemma get_todoist_data_inl (web : Web) (token : json) (calls : list Call)
    (data : Payload) :
  get_todoist_data web token = (calls, inl data) ->
  let data0 := mkPayload now_timestamp [] user_filter (py "Checking") in
  (calls = [Get projects_url token] /\
   data = with_status (py "Error fetching projects") data0 /\
   exists r, http_get web projects_url token = inl r /\ status_code r <> 200%Z) \/
  (calls = [Get projects_url token; Get tasks_url token] /\
   exists r1 j1 projects r j,
     http_get web projects_url token = inl r1 /\ loads r1 = Some j1 /\
     read_projects j1 = inl projects /\
     http_get web tasks_url token = inl r /\ loads r = Some j /\
     read_tasks projects data0 j = inl data).
Proof.
  unfold get_todoist_data. cbn zeta.
  destruct (http_get web projects_url token) as [r1|e1]; [|done].
  destruct (Z.eqb_spec (status_code r1) 200) as [Hs1|Hs1].
  - destruct (loads r1) as [j1|] eqn:Hj1; [|done].
    destruct (read_projects j1) as [projects|e] eqn:Hp; [|done].
    destruct (http_get web tasks_url token) as [r2|e2]; [|done].
    destruct (status_code r2 =? 200)%Z; [|done].
    destruct (loads r2) as [j2|] eqn:Hj2; [|done].
    intros [= <- Hread]. right. split; [done|].
    by exists r1, j1, projects, r2, j2.
  - intros [= <- <-]. left. split_and!; [done..|]. by exists r1.
Qed.


(** X13. No task of the answer is dropped by the fetch: when both
    requests are answered with 200 and the second answer carries a list
    under ["results"], the dictionary returned holds as many tasks as
    that list. *)
Theorem fetched_tasks_complete (web : Web) (token : json)
    (j_projects j_tasks : json) (items : list json) (calls : list Call)
    (data : Payload) :
  answers web token j_projects j_tasks ->
  getitem j_tasks (py "results") = inl (JList items) ->
  get_todoist_data web token = (calls, inl data) ->
  length (data_tasks data) = length items /\
  calls = [Get projects_url token; Get tasks_url token].
Proof.
  intros (r1 & r2 & Hg1 & Hs1 & Hj1 & Hg2 & Hs2 & Hj2) Hitems Hget.
  apply get_todoist_data_inl in Hget. cbn zeta in Hget.
  destruct Hget as [(_ & _ & r & Hr & Hne)
                   |(-> & _ & _ & projects & r & j & _ & _ & _ & Hr & Hj & Hread)].
  - rewrite Hg1 in Hr. injection Hr as <-. done.
  - rewrite Hg2 in Hr. injection Hr as <-. rewrite Hj2 in Hj. injection Hj as <-.
    apply read_tasks_inl in Hread as (rows & out & Hout & _ & -> & Hlen).
    cbn. split; [|done].
    by rewrite (render_all_length _ _ Hout), (Hlen items Hitems).
Qed.

(** X14. An answer other than 200 to the request for the tasks does not
    give the status ["Error fetching tasks"]: printing the status code
    adds a string and a number, [get_todoist_data] raises [TypeError]
    after its two requests, and [main], which catches it, pushes nothing
    to the display. *)
Theorem failed_task_request_raises (web : Web) (token : json)
    (r1 r2 : HttpResponse) (j1 : json) (projects : gmap Key json) :
  http_get web projects_url token = inl r1 ->
  status_code r1 = 200%Z -> loads r1 = Some j1 ->
  read_projects j1 = inl projects ->
  http_get web tasks_url token = inl r2 ->
  status_code r2 <> 200%Z ->
  get_todoist_data web token
  = ([Get projects_url token; Get tasks_url token], inr TypeErr) /\
  (forall w, todoist_api_token (self w) = token ->
     data_phase web w
     = ([Get projects_url token; Get tasks_url token], None)).
Proof.
  intros Hg1 Hs1 Hj1 Hp Hg2 Hs2.
  assert (Hget : get_todoist_data web token
                 = ([Get projects_url token; Get tasks_url token], inr TypeErr)).
  { unfold get_todoist_data. cbn zeta. rewrite Hg1, Hs1, Hj1, Hp, Hg2. cbn.
    by destruct (Z.eqb_spec (status_code r2) 200). }
  split; [done|]. intros w Hw. unfold data_phase. by rewrite Hw, Hget.
Qed.

(** X15. One task without a due date fails the whole fetch: when the
    answer lists an item whose ["due"] is [null], [get_todoist_data]
    raises after its two requests, whatever the other items are, and
    [main] pushes nothing. *)
Theorem task_without_due_date_fails_fetch (web : Web) (token : json)
    (j_projects j_tasks : json) (projects : gmap Key json)
    (items : list json) (it : json) :
  answers web token j_projects j_tasks ->
  read_projects j_projects = inl projects ->
  getitem j_tasks (py "results") = inl (JList items) ->
  In it items ->
  getitem it (py "due") = inl JNull ->
  (exists e, get_todoist_data web token
             = ([Get projects_url token; Get tasks_url token], inr e)) /\
  (forall w, todoist_api_token (self w) = token ->
     data_phase web w
     = ([Get projects_url token; Get tasks_url token], None)).
Proof.
  intros (r1 & r2 & Hg1 & Hs1 & Hj1 & Hg2 & Hs2 & Hj2) Hp Hitems Hin Hdue.
  assert (Hit : process_item projects it = inr TypeErr).
  { unfold process_item. by rewrite Hdue. }
  destruct (process_items_fails projects items it TypeErr Hin Hit) as (e' & He').
  assert (Hget : get_todoist_data web token
                 = ([Get projects_url token; Get tasks_url token], inr e')).
  { unfold get_todoist_data. cbn zeta.
    rewrite Hg1, Hs1, Hj1, Hp, Hg2, Hs2, Hj2. cbn [Z.eqb Pos.eqb app].
    unfold read_tasks. rewrite (getitem_contains _ _ _ Hitems), Hitems.
    cbn [and_then iterate]. by rewrite He'. }
  split; [by exists e'|]. intros w Hw. unfold data_phase. by rewrite Hw, Hget.
Qed.

(** X16. When the request for the projects is answered with anything but
    200, the fetch returns no tasks and [main] goes on to push: the
    display receives an empty task list. *)
Theorem projects_failure_pushes_empty_list (web : Web) (w : World)
    (r : HttpResponse) (u : pystr) :
  http_get web projects_url (todoist_api_token (self w)) = inl r ->
  status_code r <> 200%Z ->
  trmnl_plugin_webhook_url (self w) = Some u ->
  fst (data_phase web w)
  = [Get projects_url (todoist_api_token (self w));
     Post u (trmnl_api_key (self w))
       (JDict [(py "merge_variables",
                JDict [(py "tasks", JList []);
                       (py "filter", JStr user_filter);
                       (py "refreshed", JInt now_timestamp)])])].
Proof.
  intros Hg Hs Hu. unfold data_phase, get_todoist_data. cbn zeta.
  rewrite Hg. destruct (Z.eqb_spec (status_code r) 200) as [|_]; [done|].
  unfold update_trmnl_via_webhook. rewrite Hu. cbn zeta.
  change (webhook_body _)
    with (JDict [(py "merge_variables",
                  JDict [(py "tasks", JList []);
                         (py "filter", JStr user_filter);
                         (py "refreshed", JInt now_timestamp)])]).
  destruct (http_post web u _ _) as [r'|e]; [|done].
  destruct (status_code r' =? 200)%Z; [|done].
  destruct (loads r') as [j|]; [|done]. by destruct (read_reply j).
Qed.

(** ** The body of the push *)

(** The wrapping around the three values takes 59 bytes. *)
Lemma blen_body (a b c : json) :
  blen (json_dumps
          (JDict [(py "merge_variables",
                   JDict [(py "tasks", a); (py "filter", b);
                          (py "refreshed", c)])]))
  = 59 + blen (json_dumps a) + blen (json_dumps b) + blen (json_dumps c).
Proof.
  cbn [json_dumps List.map join fst snd]. rewrite !blen_app.
  repeat match goal with
         | |- context [blen (py ?s)] =>
             let v := eval vm_compute in (blen (py s)) in
             change (blen (py s)) with v
         | |- context [blen (encode_basestring_ascii (py ?s))] =>
             let v := eval vm_compute in (blen (encode_basestring_ascii (py s))) in
             change (blen (encode_basestring_ascii (py s))) with v
         end.
  lia.
Qed.

Lemma truncated_within (task_list : list json) (limit_bytes : Z) :
  (2 <= limit_bytes)%Z ->
  (serialized_size (truncate_data_to_limit task_list limit_bytes) <= limit_bytes)%Z.
Proof.
  intros Hlimit. unfold truncate_data_to_limit.
  destruct (truncate_loop_fits limit_bytes task_list []) as [->|?];
    [by left|by vm_compute in Hlimit |- *|done].
Qed.

(** X17. The limit of 2000 bytes is applied to the task list alone: the
    dictionary pushed after a fetch serialises to the size of the
    trimmed list, which is at most 2000, plus 76 bytes for the wrapping
    and the filter, plus the digits of the time of the check. *)
Theorem pushed_body_size (web : Web) (token : json) (calls : list Call)
    (data : Payload) :
  get_todoist_data web token = (calls, inl data) ->
  let kept := truncate_data_to_limit (data_tasks data) 2000 in
  body_size (webhook_body data)
  = (serialized_size kept + 76 + Z.of_nat (blen (int_repr now_timestamp)))%Z /\
  (serialized_size kept <= 2000)%Z.
Proof.
  intros Hget kept.
  assert (Hdata : data_filter data = user_filter /\ data_checked data = now_timestamp).
  { apply get_todoist_data_inl in Hget. cbn zeta in Hget.
    destruct Hget as [(_ & -> & _)
                     |(_ & _ & _ & projects & r & j & _ & _ & _ & _ & _ & Hread)];
      [done|].
    by apply read_tasks_inl in Hread as (rows & out & _ & _ & -> & _). }
  destruct Hdata as [Hfilter Hchecked].
  split; [|by apply truncated_within].
  change (body_size (webhook_body data))
    with (Z.of_nat (blen (json_dumps
            (JDict [(py "merge_variables",
                     JDict [(py "tasks", JList kept);
                            (py "filter", JStr (data_filter data));
                            (py "refreshed", JInt (data_checked data))])])))).
  change (serialized_size kept) with (Z.of_nat (blen (json_dumps (JList kept)))).
  rewrite blen_body, Hfilter, Hchecked.
  change (blen (json_dumps (JStr user_filter))) with 17.
  change (json_dumps (JInt now_timestamp)) with (int_repr now_timestamp). lia.
Qed.

(** X18. The status never reaches the display and the push never trims
    [data] itself: [update_trmnl_via_webhook] sends at most one request,
    the same whatever ["status"] holds, and returns with the tasks, the
    filter and the time of the check as they were; only the status may
    have changed. *)
Theorem push_ignores_status (web : Web) (url key : option pystr)
    (data : Payload) (s : pystr) :
  let r := update_trmnl_via_webhook web url key data in
  fst (update_trmnl_via_webhook web url key (with_status s data)) = fst r /\
  length (fst r) <= 1 /\
  data_tasks (snd r) = data_tasks data /\
  data_filter (snd r) = data_filter data /\
  data_checked (snd r) = data_checked data.
Proof.
  cbn zeta. unfold update_trmnl_via_webhook.
  destruct url as [u|]; [|cbn; split_and!; (done || lia)].
  change (webhook_body (with_status s data)) with (webhook_body data). cbn zeta.
  destruct (http_post web u key (webhook_body data)) as [r|e]; [|cbn; split_and!; (done || lia)].
  destruct (status_code r =? 200)%Z; [|cbn; split_and!; (done || lia)].
  destruct (loads r) as [j|]; [|cbn; split_and!; (done || lia)].
  destruct (read_reply j); cbn; split_and!; (done || lia).
Qed.

End DataFacts.

(** * The further properties at concrete inputs *)


Lemma write_failure_keeps_token_in_memory_witness :
  snd (authenticate 1 env_read_only demo_world) = Return true /\
  todoist_api_token (self (fst (authenticate 1 env_read_only demo_world)))
  = JStr (py "tok_abc123") /\
  In (Print MsgSaveFailed) (trace (fst (authenticate 1 env_read_only demo_world))) /\
  token_file (fst (authenticate 1 env_read_only demo_world)) = None.
Proof.
  refine (match write_failure_keeps_token_in_memory 1 env_read_only demo_world
                  _ (py "tok_abc123") _ _ _
          with conj Hret (conj Htok (conj Hprint Hopen)) =>
            conj Hret (conj Htok (conj (proj1 (Hprint _)) (Hopen eq_refl)))
          end).
  - vm_compute. reflexivity.
  - vm_compute. reflexivity.
  - reflexivity.
  - discriminate.
Defined.

Lemma saved_token_reused_by_next_run_witness :
  exists tok,
    token_file (fst (authenticate 1 env_success demo_world))
    = Some (Parsed (JDict [(py "access_token", JStr tok)])) /\
    let r := main 1 no_process env_timeout env_timeout false
               (token_file (fst (authenticate 1 env_success demo_world))) in
    todoist_api_token (self (fst r)) = JStr tok /\
    count_events is_browser_open (trace (fst r)) = 0.
Proof.
  refine (match saved_token_reused_by_next_run 1 env_success demo_world
                  1 no_process env_timeout env_timeout false _ _
          with ex_intro _ tok (conj Htok (conj Hfile Hnext)) =>
            ex_intro _ tok
              (conj Hfile
                 (match Hnext _ with
                  | conj _ (conj Hsame (conj Hopen _)) => conj Hsame Hopen
                  end))
          end).
  - vm_compute. reflexivity.
  - reflexivity.
  - intros ->. vm_compute in Htok. discriminate Htok.
Defined.

Lemma other_paths_answered_404_witness :
  trace (serve [py "/favicon.ico"; py "/"] serving_world)
  = [Response 404; Response 404] /\
  self (serve [py "/favicon.ico"; py "/"] serving_world) = self serving_world.
Proof.
  refine (match other_paths_answered_404 [py "/favicon.ico"; py "/"]
                  serving_world _ _
          with conj Hlog (conj Hself _) => conj Hlog Hself end).
  - reflexivity.
  - repeat constructor.
Defined.

Lemma dead_listener_times_out_witness :
  snd (authenticate 1 env_unheard stale_busy_world) = Return false /\
  In (ThreadDied OSError) (trace (fst (authenticate 1 env_unheard stale_busy_world))) /\
  count_events is_response (trace (fst (authenticate 1 env_unheard stale_busy_world)))
  = 0.
Proof.
  refine (match dead_listener_times_out 1 env_unheard stale_busy_world
                  [mkTick [callback_request (py "abc123") demo_state] false 1]
                  (mkTick [] false 61) [] _ _ _ _ _ _ _
          with conj Hret (conj Hdied (conj _ (conj Hresp _))) =>
            conj Hret (conj Hdied Hresp)
          end).
  - lia.
  - reflexivity.
  - eexists. reflexivity.
  - reflexivity.
  - repeat constructor.
  - reflexivity.
  - vm_compute. reflexivity.
Defined.

Lemma missing_client_id_opens_browser_witness :
  exists rest,
    trace (fst (main 1 no_process env_timeout env_timeout false None))
    = [Print MsgStarting;
       Print (MsgVisitUrl (get_authentication_url None [py "data:read"] demo_state));
       BrowserOpen (get_authentication_url None [py "data:read"] demo_state);
       ThreadStart] ++ rest.
Proof.
  refine (missing_client_id_opens_browser 1 no_process env_timeout env_timeout
            false _ _).
  - reflexivity.
  - reflexivity.
Defined.

Lemma tiny_format_plural_witness :
  tiny_format (py "3 hours ago") = py "3h ago" /\
  tiny_format (py "12 seconds from now") = py "12s from now".
Proof.
  split.
  - refine (tiny_format_plural (py "3") (py "hour") (py "h") (py " ago") _ _ _).
    + constructor; [vm_compute; split; discriminate|constructor].
    + vm_compute. tauto.
    + left. reflexivity.
  - refine (tiny_format_plural (py "12") (py "second") (py "s") (py " from now")
              _ _ _).
    + constructor; [vm_compute; split; discriminate|].
      constructor; [vm_compute; split; discriminate|constructor].
    + vm_compute. tauto.
    + right. left. reflexivity.
Defined.

Lemma tiny_format_singular_witness :
  tiny_format (py "a day ago") = py "1d ago" /\
  tiny_format (py "a second ago") = py "1 ago" /\
  tiny_format (py "an hour ago") = py "anh ago".
Proof.
  refine (match tiny_format_singular (py "day") (py "d") (py " ago") _ _,
                tiny_format_singular (py "second") (py "s") (py " ago") _ _
          with conj Hday Han, conj Hsecond _ => conj Hday (conj Hsecond Han)
          end).
  - vm_compute. tauto.
  - left. reflexivity.
  - vm_compute. tauto.
  - left. reflexivity.
Defined.


Lemma fetched_tasks_complete_witness :
  exists calls data,
    get_todoist_data web_ok demo_token = (calls, inl data) /\
    length (data_tasks data) = 3.
Proof.
  refine (ex_intro _ _ (ex_intro _ _
    ((fun Hget =>
        conj Hget
          (proj1 (fetched_tasks_complete web_ok demo_token demo_projects
                    demo_tasks demo_items _ _ _ _ Hget))) _))).
  - exists (answer_ok demo_projects), (answer_ok demo_tasks).
    repeat split; reflexivity.
  - reflexivity.
  - vm_compute. reflexivity.
Defined.

Lemma failed_task_request_raises_witness :
  get_todoist_data web_tasks_refused demo_token
  = ([Get projects_url demo_token; Get tasks_url demo_token], inr TypeErr) /\
  data_phase web_tasks_refused display_world
  = ([Get projects_url demo_token; Get tasks_url demo_token], None).
Proof.
  refine (match failed_task_request_raises web_tasks_refused demo_token
                  (answer_ok demo_projects) answer_unauthorized demo_projects
                  _ _ _ _ _ _ _
          with conj Hget Hmain => conj Hget (Hmain display_world eq_refl) end).
  - reflexivity.
  - reflexivity.
  - reflexivity.
  - vm_compute. reflexivity.
  - reflexivity.
  - discriminate.
Defined.

Lemma task_without_due_date_fails_fetch_witness :
  data_phase web_undated display_world
  = ([Get projects_url demo_token; Get tasks_url demo_token], None).
Proof.
  refine (proj2 (task_without_due_date_fails_fetch web_undated demo_token
                   demo_projects undated_tasks _ (demo_items ++ [undated_task])
                   undated_task _ _ _ _ _) display_world eq_refl).
  - exists (answer_ok demo_projects), (answer_ok undated_tasks).
    repeat split; reflexivity.
  - vm_compute. reflexivity.
  - reflexivity.
  - apply in_or_app. right. left. reflexivity.
  - reflexivity.
Defined.

Lemma projects_failure_pushes_empty_list_witness :
  fst (data_phase web_projects_refused display_world)
  = [Get projects_url demo_token;
     Post (py "https://usetrmnl.com/api/custom_plugins/42") (Some (py "key"))
       (JDict [(py "merge_variables",
                JDict [(py "tasks", JList []);
                       (py "filter", JStr (py "today | overdue"));
                       (py "refreshed", JInt 1735815600)])])].
Proof.
  refine (projects_failure_pushes_empty_list web_projects_refused display_world
            answer_unauthorized (py "https://usetrmnl.com/api/custom_plugins/42")
            _ _ _).
  - reflexivity.
  - discriminate.
  - reflexivity.
Defined.

Lemma pushed_body_size_witness :
  exists calls data,
    get_todoist_data web_ok demo_token = (calls, inl data) /\
    body_size (webhook_body data)
    = (serialized_size (truncate_data_to_limit (data_tasks data) 2000)
       + 76 + 10)%Z.
Proof.
  refine (ex_intro _ _ (ex_intro _ _
    ((fun Hget =>
        conj Hget (proj1 (pushed_body_size web_ok demo_token _ _ Hget))) _))).
  vm_compute. reflexivity.
Defined.
